(** * Ppcsim: keyword service, metrics projection and keyword slice

    A shallow embedding of the keyword service of the backend
    ([KeywordService]: createKeyword, getCampaignKeywords, getKeywordById,
    updateKeyword, deleteKeyword, bulkCreateKeywords, getKeywordStats) and
    of the frontend keyword slice reducer, with the properties the
    specification states about them.

    - JavaScript numbers are IEEE 754 binary64 values ([spec_float] with
      precision 53 and maximal exponent 1024), so that [<=], [/], [*] and
      [toFixed] behave as in the running program, NaN included.
    - Identifiers and integer counters are integers ([Z]).
    - The database is a record of finite maps, one per table, keyed by the
      primary key.
    - An async method is a tree of the database operations it awaits; a
      call that runs alone performs them in order, and the calls that
      [Promise.all] joins are resumed one operation at a time, in any
      order. *)

From Stdlib Require Import ZArith String Ascii List Bool Lia.
From Stdlib Require Import SpecFloat DecimalString.
From stdpp Require Import base option gmap list strings sorting.

Local Open Scope Z_scope.

(** ** JavaScript values *)

Module JS.

(** *** Numbers *)

Definition number : Type := spec_float.

Definition prec : Z := 53.
Definition emax : Z := 1024.

Definition NaN : number := S754_nan.
Definition zero : number := S754_zero false.

(** The number nearest to an integer (exact below 2^53). *)
Definition ofZ (z : Z) : number := binary_normalize prec emax z 0 false.

(** [x <= y], [x < y], [x > y], [x === y]: false as soon as one side is NaN. *)
Definition le (x y : number) : bool := SFleb x y.
Definition lt (x y : number) : bool := SFltb x y.
Definition gt (x y : number) : bool := SFltb y x.
Definition eqb (x y : number) : bool := SFeqb x y.

Definition isNaN (x : number) : bool :=
  match x with S754_nan => true | _ => false end.

Definition div (x y : number) : number := SFdiv prec emax x y.
Definition mul (x y : number) : number := SFmul prec emax x y.

(** Decimal digits of a non-negative integer, ["0"] for zero. *)
Definition digits (n : Z) : string :=
  NilEmpty.string_of_uint (N.to_uint (Z.to_N n)).

(** [Number.prototype.toString] on a finite value of magnitude at least
    10^21, which is an integer [M]: the shortest digit string [s] (of [k]
    digits) and exponent [n] with [s * 10^(n-k)] rounding to the value, in
    exponential notation. [d] is the number of decimal digits of [M]. *)
Fixpoint shortest_digits (fuel : nat) (k : Z) (x : number) (M d : Z) : Z :=
  let p := 10 ^ (d - k) in
  let lo := M / p in
  let hi := lo + 1 in
  let oklo := eqb (ofZ (lo * p)) x in
  let okhi := (hi <? 10 ^ k) && eqb (ofZ (hi * p)) x in
  match oklo, okhi with
  | true, true =>
      if M - lo * p <? hi * p - M then lo
      else if hi * p - M <? M - lo * p then hi
      else if Z.even lo then lo else hi
  | true, false => lo
  | false, true => hi
  | false, false =>
      match fuel with
      | O => lo
      | S fuel' => shortest_digits fuel' (k + 1) x M d
      end
  end.

Definition toString_large (M : Z) : string :=
  let x := ofZ M in
  let d := Z.of_nat (String.length (digits M)) in
  if eqb (ofZ (10 ^ d)) x then "1e+" +:+ digits d
  else
    let s := digits (shortest_digits 16 1 x M d) in
    match s with
    | String c EmptyString => s +:+ "e+" +:+ digits (d - 1)
    | String c rest => String c ("." +:+ rest) +:+ "e+" +:+ digits (d - 1)
    | EmptyString => s
    end.

(** The integer [n] for which [n / 100] is nearest to [m * 2^e], the
    larger one when two are equally near. *)
Definition nearest_hundredths (m : positive) (e : Z) : Z :=
  match e with
  | Zneg p => (200 * Zpos m + 2 ^ Zpos p) / 2 ^ (Zpos p + 1)
  | _ => 100 * Zpos m * 2 ^ e
  end.

(** Is the magnitude [m * 2^e] at least 10^21 ? *)
Definition at_least_1e21 (m : positive) (e : Z) : bool :=
  match e with
  | Zneg p => 10 ^ 21 * 2 ^ Zpos p <=? Zpos m
  | _ => 10 ^ 21 <=? Zpos m * 2 ^ e
  end.

(** The decimal numeral of [n / 100] with two digits after the point:
    the digits of [n] with a point before the last two, after padding
    with zeros on the left to three digits. *)
Definition fixed2_of_hundredths (n : Z) : string :=
  digits (n / 100) +:+ "." +:+ digits (n / 10 mod 10) +:+ digits (n mod 10).

(** [x.toFixed(2)] *)
Definition toFixed2 (x : number) : string :=
  match x with
  | S754_nan => "NaN"
  | S754_infinity false => "Infinity"
  | S754_infinity true => "-Infinity"
  | S754_zero _ => "0.00"
  | S754_finite s m e =>
      (if s then "-" else "") +:+
      (if at_least_1e21 m e then toString_large (Zpos m * 2 ^ e)
       else fixed2_of_hundredths (nearest_hundredths m e))
  end.

(** *** Strings

    A string is a sequence of code units; the code units modelled are
    those below 256. *)

(** White space and line terminators among them: TAB, LF, VT, FF, CR,
    SP and NBSP. *)
Definition is_white_space (c : ascii) : bool :=
  let n := nat_of_ascii c in
  ((9 <=? n)%nat && (n <=? 13)%nat) || (n =? 32)%nat || (n =? 160)%nat.

Fixpoint trimStart (s : string) : string :=
  match s with
  | EmptyString => EmptyString
  | String c s' => if is_white_space c then trimStart s' else s
  end.

Fixpoint trimEnd (s : string) : string :=
  match s with
  | EmptyString => EmptyString
  | String c s' =>
      match trimEnd s' with
      | EmptyString => if is_white_space c then EmptyString else String c EmptyString
      | t => String c t
      end
  end.

Definition trim (s : string) : string := trimEnd (trimStart s).

(** Truthiness of a string, of an integer-valued number and of an
    optional value. *)
Definition truthy_string (s : string) : bool :=
  match s with EmptyString => false | _ => true end.

Definition truthy_int (z : Z) : bool := negb (z =? 0).

End JS.

Arguments JS.ofZ : simpl never.
Arguments JS.le : simpl never.
Arguments JS.lt : simpl never.
Arguments JS.gt : simpl never.
Arguments JS.div : simpl never.
Arguments JS.mul : simpl never.
Arguments JS.toFixed2 : simpl never.
Arguments JS.trim : simpl never.

(** ** Errors and enumerations *)

(** The application errors of [utils/errors] that the service throws, and
    the error of the database client (the one the error handler recognises
    by name). *)
Inductive AppError : Type :=
  | ValidationError (message : string)
  | NotFoundError (message : string)
  | PrismaClientKnownRequestError.

Inductive MatchType : Type := BROAD | PHRASE | EXACT.
Inductive Status : Type := ACTIVE | PAUSED | ARCHIVED.

Definition MatchType_eqb (a b : MatchType) : bool :=
  match a, b with
  | BROAD, BROAD | PHRASE, PHRASE | EXACT, EXACT => true
  | _, _ => false
  end.

Definition Status_eqb (a b : Status) : bool :=
  match a, b with
  | ACTIVE, ACTIVE | PAUSED, PAUSED | ARCHIVED, ARCHIVED => true
  | _, _ => false
  end.

(** ** Rows of the database *)

(** An arbitrary-precision decimal, [coef / 10^scale]. *)
Module Decimal.
Record t : Type := mk { coef : Z; scale : N }.

Definition zero : t := mk 0 0.

(** [Number(d)]: the binary64 value nearest to the decimal. *)
Definition toNumber (d : t) : JS.number :=
  let den := S754_finite false (Z.to_pos (10 ^ Z.of_N (scale d))) 0 in
  match coef d with
  | Z0 => JS.zero
  | Zpos m => JS.div (S754_finite false m 0) den
  | Zneg m => JS.div (S754_finite true m 0) den
  end.
End Decimal.

(** Modelled from the spec: the Campaign row (the schema is not among the
    sources); the keyword service only tests that the row exists. *)
Module Campaign.
Record t : Type := mk { id : Z; name : string; status : Status }.
End Campaign.

(** Modelled from the spec: the AdGroup row (the schema is not among the
    sources); the keyword service reads [campaignId]. *)
Module AdGroup.
Record t : Type :=
  mk { id : Z; campaignId : Z; name : string; defaultBid : JS.number;
       status : Status }.
End AdGroup.

(** Modelled from the spec: the Keyword row (the schema is not among the
    sources). [impressions] is a big integer, [clicks] and [conversions]
    are integers, [spend] and [sales] are decimals, as the service reads
    them; [bid] holds the number that the service writes, as written;
    [createdAt] is the time of insertion, which listings order by. *)
Module Keyword.
Record t : Type :=
  mk { id : Z;
       campaignId : Z;
       adGroupId : option Z;
       keywordText : string;
       matchType : MatchType;
       bid : JS.number;
       status : Status;
       isNegative : bool;
       impressions : Z;
       clicks : Z;
       conversions : Z;
       spend : Decimal.t;
       sales : Decimal.t;
       createdAt : Z }.
End Keyword.

(** ** Requests *)

Module CreateKeywordDto.
Record t : Type :=
  mk { campaignId : Z;
       adGroupId : option Z;
       keywordText : string;
       matchType : MatchType;
       bid : JS.number;
       isNegative : option bool }.
End CreateKeywordDto.

Module UpdateKeywordDto.
Record t : Type :=
  mk { keywordText : option string;
       matchType : option MatchType;
       bid : option JS.number;
       status : option Status;
       isNegative : option bool }.
End UpdateKeywordDto.

Module BulkKeywordDto.
Record t : Type := mk { keywords : list CreateKeywordDto.t }.
End BulkKeywordDto.

(** The optional filters of [getCampaignKeywords]. *)
Module KeywordFilters.
Record t : Type :=
  mk { adGroupId : option Z;
       matchType : option MatchType;
       status : option Status;
       isNegative : option bool }.
End KeywordFilters.

(** ** The database client *)

Module Prisma.

(** The three tables, keyed by primary key, and the time of the
    database, which insertions stamp rows with and advance. *)
Record DB : Type :=
  mkDB { campaign : gmap Z Campaign.t;
         adGroup : gmap Z AdGroup.t;
         keyword : gmap Z Keyword.t;
         now : Z }.

(** Modelled from the spec: identifiers are unique; a new row takes the
    identifier after the largest one in its table, starting at 1. *)
Definition next_id {A : Type} (table : gmap Z A) : Z :=
  1 + map_fold (λ i _ acc, Z.max i acc) 0 table.

(** [data] of [prisma.keyword.create]. *)
Record KeywordCreateInput : Type :=
  mkCreate { c_campaignId : Z;
             c_adGroupId : option Z;
             c_keywordText : string;
             c_matchType : MatchType;
             c_bid : JS.number;
             c_isNegative : bool }.

(** [data] of [prisma.keyword.update]: the fields that are set. *)
Record KeywordUpdateInput : Type :=
  mkUpdate { u_keywordText : option string;
             u_matchType : option MatchType;
             u_bid : option JS.number;
             u_status : option Status;
             u_isNegative : option bool }.

(** [where] of [prisma.keyword.findMany]. *)
Record KeywordWhereInput : Type :=
  mkWhere { w_campaignId : Z;
            w_adGroupId : option Z;
            w_matchType : option MatchType;
            w_status : option Status;
            w_isNegative : option bool }.

(** Modelled from the spec: a new keyword is persisted with status
    ACTIVE and counters 0 (the column defaults of the schema, which is
    not among the sources). *)
Definition new_keyword (i : Z) (time : Z) (data : KeywordCreateInput) : Keyword.t :=
  {| Keyword.id := i;
     Keyword.campaignId := c_campaignId data;
     Keyword.adGroupId := c_adGroupId data;
     Keyword.keywordText := c_keywordText data;
     Keyword.matchType := c_matchType data;
     Keyword.bid := c_bid data;
     Keyword.status := ACTIVE;
     Keyword.isNegative := c_isNegative data;
     Keyword.impressions := 0;
     Keyword.clicks := 0;
     Keyword.conversions := 0;
     Keyword.spend := Decimal.zero;
     Keyword.sales := Decimal.zero;
     Keyword.createdAt := time |}.

(** A row with the fields of [data] that are set written over it. *)
Definition apply_update (data : KeywordUpdateInput) (k : Keyword.t) : Keyword.t :=
  {| Keyword.id := Keyword.id k;
     Keyword.campaignId := Keyword.campaignId k;
     Keyword.adGroupId := Keyword.adGroupId k;
     Keyword.keywordText := default (Keyword.keywordText k) (u_keywordText data);
     Keyword.matchType := default (Keyword.matchType k) (u_matchType data);
     Keyword.bid := default (Keyword.bid k) (u_bid data);
     Keyword.status := default (Keyword.status k) (u_status data);
     Keyword.isNegative := default (Keyword.isNegative k) (u_isNegative data);
     Keyword.impressions := Keyword.impressions k;
     Keyword.clicks := Keyword.clicks k;
     Keyword.conversions := Keyword.conversions k;
     Keyword.spend := Keyword.spend k;
     Keyword.sales := Keyword.sales k;
     Keyword.createdAt := Keyword.createdAt k |}.

Definition opt_matches {A : Type} (eqb : A → A → bool) (w : option A) (x : A) : bool :=
  match w with
  | None => true
  | Some v => eqb v x
  end.

Definition where_matches (w : KeywordWhereInput) (k : Keyword.t) : bool :=
  (Keyword.campaignId k =? w_campaignId w)
  && match w_adGroupId w with
     | None => true
     | Some a => match Keyword.adGroupId k with
                 | Some b => b =? a
                 | None => false
                 end
     end
  && opt_matches MatchType_eqb (w_matchType w) (Keyword.matchType k)
  && opt_matches Status_eqb (w_status w) (Keyword.status k)
  && opt_matches Bool.eqb (w_isNegative w) (Keyword.isNegative k).

(** [orderBy: { createdAt: 'desc' }]; rows inserted at the same time
    come in the order the sort leaves them. *)
Definition created_after (a b : Keyword.t) : Prop :=
  Keyword.createdAt b ≤ Keyword.createdAt a.

#[export] Instance created_after_dec : RelDecision created_after :=
  λ a b, Z_le_dec (Keyword.createdAt b) (Keyword.createdAt a).

(** The operations of the client that the service awaits, indexed by
    the type of their result. *)
Inductive Op : Type → Type :=
  | campaign_findUnique (id : Z) : Op (option Campaign.t)
  | adGroup_findUnique (id : Z) : Op (option AdGroup.t)
  | keyword_create (data : KeywordCreateInput) : Op Keyword.t
  | keyword_findMany (w : KeywordWhereInput) : Op (list Keyword.t)
  | keyword_findFirst (id campaignId : Z) : Op (option Keyword.t)
  | keyword_update (id : Z) (data : KeywordUpdateInput) : Op Keyword.t.

(** One operation on the database: its result, or the error it throws,
    and the database after it. [update] of a row that does not exist
    throws. *)
Definition perform {X : Type} (op : Op X) (db : DB) : (AppError + X) * DB :=
  match op in Op X return (AppError + X) * DB with
  | campaign_findUnique i => (inr (campaign db !! i), db)
  | adGroup_findUnique i => (inr (adGroup db !! i), db)
  | keyword_create data =>
      let k := new_keyword (next_id (keyword db)) (now db) data in
      (inr k,
       {| campaign := campaign db;
          adGroup := adGroup db;
          keyword := <[Keyword.id k := k]> (keyword db);
          now := now db + 1 |})
  | keyword_findMany w =>
      (inr (merge_sort created_after
              (filter (λ k, where_matches w k = true) (map_to_list (keyword db)).*2)),
       db)
  | keyword_findFirst i c =>
      (inr (match keyword db !! i with
            | Some k => if Keyword.campaignId k =? c then Some k else None
            | None => None
            end),
       db)
  | keyword_update i data =>
      match keyword db !! i with
      | Some k =>
          let k' := apply_update data k in
          (inr k',
           {| campaign := campaign db;
              adGroup := adGroup db;
              keyword := <[i := k']> (keyword db);
              now := now db |})
      | None => (inl PrismaClientKnownRequestError, db)
      end
  end.

End Prisma.

(** ** Asynchronous computations

    An async function is a tree: it has returned, it has thrown, or it is
    suspended at an [await] of a database operation with the rest of its
    body as continuation. Everything between two awaits runs at once. *)

Inductive Async (A : Type) : Type :=
  | Return (a : A)
  | Throw (e : AppError)
  | Await {X : Type} (op : Prisma.Op X) (k : X → Async A).

Arguments Return {A} a.
Arguments Throw {A} e.
Arguments Await {A X} op k.

Fixpoint Async_bind {A B : Type} (f : A → Async B) (p : Async A) : Async B :=
  match p with
  | Return a => f a
  | Throw e => Throw e
  | Await op k => Await op (λ x, Async_bind f (k x))
  end.

#[export] Instance Async_mret : MRet Async := λ A a, Return a.
#[export] Instance Async_mbind : MBind Async := λ A B f p, Async_bind f p.

(** [await prisma.table.operation(...)] *)
Definition await {X : Type} (op : Prisma.Op X) : Async X := Await op Return.

(** A call that runs alone to its end: every awaited operation is
    performed when it is reached; an operation that throws rejects the
    call. *)
Fixpoint run {A : Type} (p : Async A) (db : Prisma.DB) : (AppError + A) * Prisma.DB :=
  match p with
  | Return a => (inr a, db)
  | Throw e => (inl e, db)
  | Await op k =>
      match Prisma.perform op db with
      | (inr x, db') => run (k x) db'
      | (inl e, db') => (inl e, db')
      end
  end.

(** ** [Promise.all]

    The calls are all in flight at once. A step resumes one suspended call:
    the operation it awaits is performed and the call runs on to its next
    await or to its end. Which call is resumed next is not decided by the
    program: an execution is given by a schedule, the list of the indices
    resumed. The promise rejects with the first rejection and is fulfilled
    with the values, in the order of the calls, when all are fulfilled. *)

Module Promise.

Record All (A : Type) : Type :=
  mkAll { promises : list (Async A); rejection : option AppError }.

Arguments mkAll {A} promises rejection.
Arguments promises {A} a.
Arguments rejection {A} a.

Definition thrown {A : Type} (p : Async A) : option AppError :=
  match p with
  | Throw e => Some e
  | _ => None
  end.

Definition value {A : Type} (p : Async A) : option A :=
  match p with
  | Return a => Some a
  | _ => None
  end.

Definition settled {A : Type} (p : Async A) : bool :=
  match p with
  | Await _ _ => false
  | _ => true
  end.

(** The calls that threw before their first await reject first, in
    order. *)
Definition all {A : Type} (ps : list (Async A)) : All A :=
  mkAll ps (head (omap thrown ps)).

Definition step {A : Type} (i : nat) (st : Prisma.DB * All A) : option (Prisma.DB * All A) :=
  let '(db, a) := st in
  match promises a !! i with
  | Some (Await op k) =>
      let '(r, db') := Prisma.perform op db in
      let p' := match r with
                | inr x => k x
                | inl e => Throw e
                end in
      Some (db', mkAll (<[i := p']> (promises a))
                       (match rejection a with
                        | Some e => Some e
                        | None => thrown p'
                        end))
  | _ => None
  end.

Fixpoint exec {A : Type} (schedule : list nat) (st : Prisma.DB * All A)
  : option (Prisma.DB * All A) :=
  match schedule with
  | [] => Some st
  | i :: rest =>
      match step i st with
      | Some st' => exec rest st'
      | None => None
      end
  end.

Definition all_settled {A : Type} (a : All A) : bool := forallb settled (promises a).

(** What awaiting the promise gives, once it is settled. *)
Definition result {A : Type} (a : All A) : option (AppError + list A) :=
  match rejection a with
  | Some e => Some (inl e)
  | None => inr <$> mapM value (promises a)
  end.

End Promise.

(** ** The keyword service *)

Module KeywordStats.
(** [impressions] is rendered by the big integer; [spend] and [sales] are
    the decimals that the decimal library renders. *)
Record t : Type :=
  mk { impressions : string;
       clicks : Z;
       conversions : Z;
       spend : Decimal.t;
       sales : Decimal.t;
       ctr : string;
       cvr : string;
       cpc : string;
       acos : string }.
End KeywordStats.

Module KeywordService.

(** [!!x] for an optional boolean and for an optional identifier. *)
Definition truthy_flag (b : option bool) : bool := default false b.

Definition truthy_id (i : option Z) : bool :=
  match i with
  | Some z => JS.truthy_int z
  | None => false
  end.

Definition createKeyword (data : CreateKeywordDto.t) : Async Keyword.t :=
  if negb (truthy_flag (CreateKeywordDto.isNegative data))
     && JS.le (CreateKeywordDto.bid data) (JS.ofZ 0)
  then Throw (ValidationError "Bid must be greater than 0")
  else if negb (JS.truthy_string (JS.trim (CreateKeywordDto.keywordText data)))
  then Throw (ValidationError "Keyword text cannot be empty")
  else
    campaign ← await (Prisma.campaign_findUnique (CreateKeywordDto.campaignId data));
    match campaign with
    | None => Throw (NotFoundError "Campaign not found")
    | Some _ =>
        (match CreateKeywordDto.adGroupId data with
         | Some a =>
             if JS.truthy_int a then
               adGroup ← await (Prisma.adGroup_findUnique a);
               match adGroup with
               | None => Throw (NotFoundError "Ad group not found")
               | Some g =>
                   if negb (AdGroup.campaignId g =? CreateKeywordDto.campaignId data)
                   then Throw (ValidationError
                                 "Ad group does not belong to the specified campaign")
                   else mret ()
               end
             else mret ()
         | None => mret ()
         end);;
        keyword ← await (Prisma.keyword_create
          {| Prisma.c_campaignId := CreateKeywordDto.campaignId data;
             Prisma.c_adGroupId := CreateKeywordDto.adGroupId data;
             Prisma.c_keywordText := JS.trim (CreateKeywordDto.keywordText data);
             Prisma.c_matchType := CreateKeywordDto.matchType data;
             Prisma.c_bid := CreateKeywordDto.bid data;
             Prisma.c_isNegative := truthy_flag (CreateKeywordDto.isNegative data) |});
        mret keyword
    end.

Definition getCampaignKeywords (campaignId : Z) (filters : option KeywordFilters.t)
  : Async (list Keyword.t) :=
  let where_ :=
    {| Prisma.w_campaignId := campaignId;
       Prisma.w_adGroupId :=
         a ← (filters ≫= KeywordFilters.adGroupId);
         if JS.truthy_int a then Some a else None;
       Prisma.w_matchType := filters ≫= KeywordFilters.matchType;
       Prisma.w_status := filters ≫= KeywordFilters.status;
       Prisma.w_isNegative := filters ≫= KeywordFilters.isNegative |} in
  keywords ← await (Prisma.keyword_findMany where_);
  mret keywords.

Definition getKeywordById (id campaignId : Z) : Async Keyword.t :=
  keyword ← await (Prisma.keyword_findFirst id campaignId);
  match keyword with
  | None => Throw (NotFoundError "Keyword not found")
  | Some k => mret k
  end.

Definition updateKeyword (id campaignId : Z) (data : UpdateKeywordDto.t) : Async Keyword.t :=
  existingKeyword ← getKeywordById id campaignId;
  let willBeNegative :=
    match UpdateKeywordDto.isNegative data with
    | Some b => b
    | None => Keyword.isNegative existingKeyword
    end in
  if match UpdateKeywordDto.bid data with
     | Some b => negb willBeNegative && JS.le b (JS.ofZ 0)
     | None => false
     end
  then Throw (ValidationError "Bid must be greater than 0")
  else if match UpdateKeywordDto.keywordText data with
          | Some s => negb (JS.truthy_string (JS.trim s))
          | None => false
          end
  then Throw (ValidationError "Keyword text cannot be empty")
  else
    keyword ← await (Prisma.keyword_update id
      {| Prisma.u_keywordText :=
           s ← UpdateKeywordDto.keywordText data;
           if JS.truthy_string s then Some (JS.trim s) else None;
         Prisma.u_matchType := UpdateKeywordDto.matchType data;
         Prisma.u_bid := UpdateKeywordDto.bid data;
         Prisma.u_status := UpdateKeywordDto.status data;
         Prisma.u_isNegative := UpdateKeywordDto.isNegative data |});
    mret keyword.

Definition deleteKeyword (id campaignId : Z) : Async () :=
  getKeywordById id campaignId;;
  await (Prisma.keyword_update id
    {| Prisma.u_keywordText := None;
       Prisma.u_matchType := None;
       Prisma.u_bid := None;
       Prisma.u_status := Some ARCHIVED;
       Prisma.u_isNegative := None |});;
  mret ().

Definition bulkCreateKeywords (data : BulkKeywordDto.t) : Promise.All Keyword.t :=
  Promise.all (createKeyword <$> BulkKeywordDto.keywords data).

(** [n.toString()] of a big integer. *)
Definition bigint_toString (n : Z) : string :=
  if n <? 0 then "-" +:+ JS.digits (- n) else JS.digits n.

(** The object that [getKeywordStats] returns for a keyword. *)
Definition keywordStats (keyword : Keyword.t) : KeywordStats.t :=
  {| KeywordStats.impressions := bigint_toString (Keyword.impressions keyword);
     KeywordStats.clicks := Keyword.clicks keyword;
     KeywordStats.conversions := Keyword.conversions keyword;
     KeywordStats.spend := Keyword.spend keyword;
     KeywordStats.sales := Keyword.sales keyword;
     KeywordStats.ctr :=
       if 0 <? Keyword.impressions keyword
       then JS.toFixed2
              (JS.mul (JS.div (JS.ofZ (Keyword.clicks keyword))
                              (JS.ofZ (Keyword.impressions keyword)))
                      (JS.ofZ 100))
       else "0.00";
     KeywordStats.cvr :=
       if 0 <? Keyword.clicks keyword
       then JS.toFixed2
              (JS.mul (JS.div (JS.ofZ (Keyword.conversions keyword))
                              (JS.ofZ (Keyword.clicks keyword)))
                      (JS.ofZ 100))
       else "0.00";
     KeywordStats.cpc :=
       if 0 <? Keyword.clicks keyword
       then JS.toFixed2
              (JS.div (Decimal.toNumber (Keyword.spend keyword))
                      (JS.ofZ (Keyword.clicks keyword)))
       else "0.00";
     KeywordStats.acos :=
       if JS.gt (Decimal.toNumber (Keyword.sales keyword)) (JS.ofZ 0)
       then JS.toFixed2
              (JS.mul (JS.div (Decimal.toNumber (Keyword.spend keyword))
                              (Decimal.toNumber (Keyword.sales keyword)))
                      (JS.ofZ 100))
       else "0.00" |}.

Definition getKeywordStats (id campaignId : Z) : Async KeywordStats.t :=
  keyword ← getKeywordById id campaignId;
  mret (keywordStats keyword).

Definition getNegativeKeywords (campaignId : Z) : Async (list Keyword.t) :=
  getCampaignKeywords campaignId
    (Some {| KeywordFilters.adGroupId := None;
             KeywordFilters.matchType := None;
             KeywordFilters.status := None;
             KeywordFilters.isNegative := Some true |}).

End KeywordService.

(** ** The keyword slice of the frontend store *)

Module KeywordSlice.

(** The keyword as the frontend receives it. *)
Module Keyword.
Record t : Type :=
  mk { id : Z;
       campaignId : Z;
       adGroupId : option Z;
       keywordText : string;
       matchType : MatchType;
       bid : JS.number;
       status : Status;
       isNegative : bool;
       impressions : string;
       clicks : Z;
       conversions : Z;
       spend : string;
       sales : string;
       createdAt : string;
       updatedAt : string }.
End Keyword.

Record KeywordState : Type :=
  mkState { keywords : list Keyword.t;
            selectedKeyword : option Keyword.t;
            loading : bool;
            error : option string }.

Definition initialState : KeywordState :=
  {| keywords := []; selectedKeyword := None; loading := false; error := None |}.

(** The actions of the slice and of its thunks; a rejected action carries
    [action.error.message]. *)
Inductive Action : Type :=
  | selectKeyword (payload : option Keyword.t)
  | clearError
  | fetchCampaignKeywords_pending
  | fetchCampaignKeywords_fulfilled (payload : list Keyword.t)
  | fetchCampaignKeywords_rejected (message : option string)
  | fetchAdGroupKeywords_pending
  | fetchAdGroupKeywords_fulfilled (payload : list Keyword.t)
  | fetchAdGroupKeywords_rejected (message : option string)
  | createKeyword_pending
  | createKeyword_fulfilled (payload : Keyword.t)
  | createKeyword_rejected (message : option string)
  | updateKeyword_pending
  | updateKeyword_fulfilled (payload : Keyword.t)
  | updateKeyword_rejected (message : option string)
  | deleteKeyword_pending
  | deleteKeyword_fulfilled (payload : Z)
  | deleteKeyword_rejected (message : option string).

(** [message || fallback] *)
Definition message_or (message : option string) (fallback : string) : string :=
  match message with
  | Some m => if JS.truthy_string m then m else fallback
  | None => fallback
  end.

(** [keywords.findIndex((k) => k.id === id)] *)
Fixpoint findIndex (id : Z) (l : list Keyword.t) : option nat :=
  match l with
  | [] => None
  | k :: l' => if Keyword.id k =? id then Some O else S <$> findIndex id l'
  end.

Definition pending (state : KeywordState) : KeywordState :=
  {| keywords := keywords state;
     selectedKeyword := selectedKeyword state;
     loading := true;
     error := None |}.

Definition rejected (state : KeywordState) (message : option string) (fallback : string)
  : KeywordState :=
  {| keywords := keywords state;
     selectedKeyword := selectedKeyword state;
     loading := false;
     error := Some (message_or message fallback) |}.

Definition fulfilled (state : KeywordState) (l : list Keyword.t) : KeywordState :=
  {| keywords := l;
     selectedKeyword := selectedKeyword state;
     loading := false;
     error := error state |}.

Definition reducer (state : KeywordState) (action : Action) : KeywordState :=
  match action with
  | selectKeyword payload =>
      {| keywords := keywords state;
         selectedKeyword := payload;
         loading := loading state;
         error := error state |}
  | clearError =>
      {| keywords := keywords state;
         selectedKeyword := selectedKeyword state;
         loading := loading state;
         error := None |}
  | fetchCampaignKeywords_pending => pending state
  | fetchCampaignKeywords_fulfilled payload => fulfilled state payload
  | fetchCampaignKeywords_rejected m => rejected state m "Failed to fetch keywords"
  | fetchAdGroupKeywords_pending => pending state
  | fetchAdGroupKeywords_fulfilled payload => fulfilled state payload
  | fetchAdGroupKeywords_rejected m => rejected state m "Failed to fetch keywords"
  | createKeyword_pending => pending state
  | createKeyword_fulfilled payload => fulfilled state (keywords state ++ [payload])
  | createKeyword_rejected m => rejected state m "Failed to create keyword"
  | updateKeyword_pending => pending state
  | updateKeyword_fulfilled payload =>
      fulfilled state
        (match findIndex (Keyword.id payload) (keywords state) with
         | Some index => <[index := payload]> (keywords state)
         | None => keywords state
         end)
  | updateKeyword_rejected m => rejected state m "Failed to update keyword"
  | deleteKeyword_pending => pending state
  | deleteKeyword_fulfilled payload =>
      fulfilled state
        (List.filter (λ k, negb (Keyword.id k =? payload)) (keywords state))
  | deleteKeyword_rejected m => rejected state m "Failed to delete keyword"
  end.

End KeywordSlice.

(** ** Vocabulary of the properties

    The outcome of createKeyword and updateKeyword written in one piece,
    the rows and databases they produce, and the invariant of the calls
    of a bulk creation. *)

Module Spec.

(** The checks of createKeyword in the order it makes them: the error
    the call ends with, if any. *)
Definition createKeyword_rejection (data : CreateKeywordDto.t) (db : Prisma.DB)
  : option AppError :=
  if negb (KeywordService.truthy_flag (CreateKeywordDto.isNegative data))
     && JS.le (CreateKeywordDto.bid data) (JS.ofZ 0)
  then Some (ValidationError "Bid must be greater than 0")
  else if negb (JS.truthy_string (JS.trim (CreateKeywordDto.keywordText data)))
  then Some (ValidationError "Keyword text cannot be empty")
  else match Prisma.campaign db !! CreateKeywordDto.campaignId data with
       | None => Some (NotFoundError "Campaign not found")
       | Some _ =>
           if KeywordService.truthy_id (CreateKeywordDto.adGroupId data)
           then match CreateKeywordDto.adGroupId data ≫= (Prisma.adGroup db !!.) with
                | None => Some (NotFoundError "Ad group not found")
                | Some g =>
                    if AdGroup.campaignId g =? CreateKeywordDto.campaignId data
                    then None
                    else Some (ValidationError
                                 "Ad group does not belong to the specified campaign")
                end
           else None
       end.

(** The row data that createKeyword hands to the database. *)
Definition createKeyword_input (data : CreateKeywordDto.t) : Prisma.KeywordCreateInput :=
  {| Prisma.c_campaignId := CreateKeywordDto.campaignId data;
     Prisma.c_adGroupId := CreateKeywordDto.adGroupId data;
     Prisma.c_keywordText := JS.trim (CreateKeywordDto.keywordText data);
     Prisma.c_matchType := CreateKeywordDto.matchType data;
     Prisma.c_bid := CreateKeywordDto.bid data;
     Prisma.c_isNegative := KeywordService.truthy_flag (CreateKeywordDto.isNegative data) |}.

(** The ad group named by a request, when it names one, exists and
    belongs to the campaign of the request. *)
Definition adGroup_belongs (data : CreateKeywordDto.t) (db : Prisma.DB) : Prop :=
  match CreateKeywordDto.adGroupId data with
  | None => True
  | Some a =>
      a ≠ 0 ∧
      ∃ g, Prisma.adGroup db !! a = Some g
           ∧ AdGroup.campaignId g = CreateKeywordDto.campaignId data
  end.

(** The database with a row written to the keyword table. *)
Definition with_keyword (db : Prisma.DB) (i : Z) (k : Keyword.t) (time : Z) : Prisma.DB :=
  {| Prisma.campaign := Prisma.campaign db;
     Prisma.adGroup := Prisma.adGroup db;
     Prisma.keyword := <[i := k]> (Prisma.keyword db);
     Prisma.now := time |}.

(** A row with its status replaced. *)
Definition with_status (k : Keyword.t) (s : Status) : Keyword.t :=
  Prisma.apply_update
    {| Prisma.u_keywordText := None;
       Prisma.u_matchType := None;
       Prisma.u_bid := None;
       Prisma.u_status := Some s;
       Prisma.u_isNegative := None |} k.

(** Two rows that agree on the fields no request can change. *)
Definition same_fixed_fields (k k' : Keyword.t) : Prop :=
  Keyword.id k' = Keyword.id k
  ∧ Keyword.campaignId k' = Keyword.campaignId k
  ∧ Keyword.adGroupId k' = Keyword.adGroupId k
  ∧ Keyword.impressions k' = Keyword.impressions k
  ∧ Keyword.clicks k' = Keyword.clicks k
  ∧ Keyword.conversions k' = Keyword.conversions k
  ∧ Keyword.spend k' = Keyword.spend k
  ∧ Keyword.sales k' = Keyword.sales k
  ∧ Keyword.createdAt k' = Keyword.createdAt k.

(** The bid check of createKeyword and updateKeyword fails. *)
Definition bid_rejected (isNegative : bool) (bid : JS.number) : bool :=
  negb isNegative && JS.le bid (JS.ofZ 0).

(** [n - 1/2 <= 100 * m * 2^e < n + 1/2]: the integer [n] is the nearest
    to a hundred times [m * 2^e], the larger one of two equally near. *)
Definition nearest_hundredths_of (n : Z) (m : positive) (e : Z) : Prop :=
  let num := 100 * Zpos m * 2 ^ Z.max e 0 in
  let den := 2 ^ Z.max (- e) 0 in
  (2 * n - 1) * den ≤ 2 * num < (2 * n + 1) * den.

(** The [isNegative] of the row once a patch is applied. *)
Definition willBeNegative (data : UpdateKeywordDto.t) (k : Keyword.t) : bool :=
  match UpdateKeywordDto.isNegative data with
  | Some b => b
  | None => Keyword.isNegative k
  end.

(** The patch carries a text that is blank. *)
Definition blank_text (data : UpdateKeywordDto.t) : bool :=
  match UpdateKeywordDto.keywordText data with
  | Some s => negb (JS.truthy_string (JS.trim s))
  | None => false
  end.

(** The fields that updateKeyword hands to the database. *)
Definition updateKeyword_input (data : UpdateKeywordDto.t) : Prisma.KeywordUpdateInput :=
  {| Prisma.u_keywordText :=
       s ← UpdateKeywordDto.keywordText data;
       if JS.truthy_string s then Some (JS.trim s) else None;
     Prisma.u_matchType := UpdateKeywordDto.matchType data;
     Prisma.u_bid := UpdateKeywordDto.bid data;
     Prisma.u_status := UpdateKeywordDto.status data;
     Prisma.u_isNegative := UpdateKeywordDto.isNegative data |}.

(** The shape of a createKeyword call in flight: it reads the campaign
    and ad group tables, then throws or creates one row, which it
    returns. *)
Fixpoint reads_then_creates (p : Async Keyword.t) : Prop :=
  match p with
  | Return _ => False
  | Throw _ => True
  | Await op k =>
      match op in Prisma.Op X return (X → Async Keyword.t) → Prop with
      | Prisma.campaign_findUnique _ => λ k, ∀ x, reads_then_creates (k x)
      | Prisma.adGroup_findUnique _ => λ k, ∀ x, reads_then_creates (k x)
      | Prisma.keyword_create _ => λ k, ∀ x, k x = Return x
      | _ => λ _, False
      end k
  end.

(** What holds of the call for request [d] among calls started on the
    database [db0], when the database has become [db]: a fulfilled call
    has its row in the database, a row that was not there at the start; a
    rejected call is one that fails on its own; a call in flight will do
    what a fresh call does, on any database with the same campaigns and ad
    groups. *)
Definition call_inv (db0 db : Prisma.DB) (d : CreateKeywordDto.t)
    (p : Async Keyword.t) : Prop :=
  match p with
  | Return k =>
      Prisma.keyword db !! Keyword.id k = Some k
      ∧ Prisma.keyword db0 !! Keyword.id k = None
      ∧ createKeyword_rejection d db0 = None
      ∧ k = Prisma.new_keyword (Keyword.id k) (Keyword.createdAt k) (createKeyword_input d)
  | Throw e => createKeyword_rejection d db0 = Some e
  | Await _ _ =>
      reads_then_creates p
      ∧ ∀ db1, Prisma.campaign db1 = Prisma.campaign db0 →
               Prisma.adGroup db1 = Prisma.adGroup db0 →
               run p db1 = run (KeywordService.createKeyword d) db1
  end.

(** The rejection recorded is the error of a rejected call, and no call
    is rejected when none is recorded. *)
Definition rejection_inv (a : Promise.All Keyword.t) : Prop :=
  match Promise.rejection a with
  | Some e => ∃ i, Promise.promises a !! i = Some (Throw e)
  | None => ∀ i e, Promise.promises a !! i ≠ Some (Throw e)
  end.

Definition bulk_inv (db0 : Prisma.DB) (ds : list CreateKeywordDto.t)
    (st : Prisma.DB * Promise.All Keyword.t) : Prop :=
  Prisma.campaign st.1 = Prisma.campaign db0
  ∧ Prisma.adGroup st.1 = Prisma.adGroup db0
  ∧ (∀ j k, Prisma.keyword db0 !! j = Some k → Prisma.keyword st.1 !! j = Some k)
  ∧ Forall2 (call_inv db0 st.1) ds (Promise.promises st.2)
  ∧ (∀ i j k k', i ≠ j →
       Promise.promises st.2 !! i = Some (Return k) →
       Promise.promises st.2 !! j = Some (Return k') →
       Keyword.id k ≠ Keyword.id k')
  ∧ rejection_inv st.2.

(** The patch [{bid: b}]. *)
Definition only_bid (b : JS.number) : UpdateKeywordDto.t :=
  {| UpdateKeywordDto.keywordText := None;
     UpdateKeywordDto.matchType := None;
     UpdateKeywordDto.bid := Some b;
     UpdateKeywordDto.status := None;
     UpdateKeywordDto.isNegative := None |}.

End Spec.

(** ** Sample data *)

Module Sample.

Definition campaign1 : Campaign.t := Campaign.mk 1 "C1" ACTIVE.
Definition campaign2 : Campaign.t := Campaign.mk 2 "C2" ACTIVE.
Definition adGroup1 : AdGroup.t := AdGroup.mk 1 1 "A1" (JS.ofZ 1) ACTIVE.

(** Two campaigns, an ad group under the first, no keyword. *)
Definition db0 : Prisma.DB :=
  {| Prisma.campaign := <[1 := campaign1]> (<[2 := campaign2]> ∅);
     Prisma.adGroup := <[1 := adGroup1]> ∅;
     Prisma.keyword := ∅;
     Prisma.now := 0 |}.

(** bid 1.5 *)
Definition bid_1_50 : JS.number := JS.div (JS.ofZ 3) (JS.ofZ 2).

Definition dto (campaignId : Z) (adGroupId : option Z) (text : string)
  (bid : JS.number) (isNegative : option bool) : CreateKeywordDto.t :=
  {| CreateKeywordDto.campaignId := campaignId;
     CreateKeywordDto.adGroupId := adGroupId;
     CreateKeywordDto.keywordText := text;
     CreateKeywordDto.matchType := EXACT;
     CreateKeywordDto.bid := bid;
     CreateKeywordDto.isNegative := isNegative |}.

(** The database after keyword 1, " running shoes " at bid 1.5, was
    created under ad group 1 of campaign 1. *)
Definition db1 : Prisma.DB :=
  (run (KeywordService.createKeyword
          (dto 1 (Some 1) " running shoes " bid_1_50 None)) db0).2.

Definition keyword1 : Keyword.t :=
  Prisma.new_keyword 1 0
    (Spec.createKeyword_input (dto 1 (Some 1) " running shoes " bid_1_50 None)).

(** Keyword 1 with the given counters. *)
Definition with_counters (impressions clicks conversions : Z) (spend sales : Decimal.t)
  : Keyword.t :=
  {| Keyword.id := 1;
     Keyword.campaignId := 1;
     Keyword.adGroupId := Some 1;
     Keyword.keywordText := "running shoes";
     Keyword.matchType := EXACT;
     Keyword.bid := bid_1_50;
     Keyword.status := ACTIVE;
     Keyword.isNegative := false;
     Keyword.impressions := impressions;
     Keyword.clicks := clicks;
     Keyword.conversions := conversions;
     Keyword.spend := spend;
     Keyword.sales := sales;
     Keyword.createdAt := 0 |}.

(** Three requests: the second has a bid of zero. *)
Definition bulk_data : BulkKeywordDto.t :=
  {| BulkKeywordDto.keywords :=
       [dto 1 (Some 1) "shoes" bid_1_50 None;
        dto 1 (Some 1) "boots" (JS.ofZ 0) None;
        dto 1 None "socks" bid_1_50 None] |}.

(** An execution of the bulk creation that resumes the last call first
    and alternates between the calls. *)
Definition bulk_schedule : list nat := [2; 0; 0; 2; 0]%nat.

Definition bulk_final : Prisma.DB * Promise.All Keyword.t :=
  default (db0, Promise.all [])
    (Promise.exec bulk_schedule (db0, KeywordService.bulkCreateKeywords bulk_data)).

(** The patch [{bid: b, isNegative: true}]. *)
Definition negative_with_bid (b : JS.number) : UpdateKeywordDto.t :=
  {| UpdateKeywordDto.keywordText := None;
     UpdateKeywordDto.matchType := None;
     UpdateKeywordDto.bid := Some b;
     UpdateKeywordDto.status := None;
     UpdateKeywordDto.isNegative := Some true |}.

End Sample.

(** ** The ad group slice of the frontend store *)

Module AdGroupSlice.

(** The ad group as the frontend receives it; [_count] is the optional
    pair of the numbers of keywords and of products. *)
Module AdGroup.
Record t : Type :=
  mk { id : Z;
       campaignId : Z;
       name : string;
       defaultBid : JS.number;
       status : Status;
       createdAt : string;
       updatedAt : string;
       _count : option (Z * Z) }.
End AdGroup.

Module CreateAdGroupData.
Record t : Type := mk { campaignId : Z; name : string; defaultBid : JS.number }.
End CreateAdGroupData.

Module UpdateAdGroupData.
Record t : Type :=
  mk { name : option string; defaultBid : option JS.number; status : option Status }.
End UpdateAdGroupData.

Record AdGroupState : Type :=
  mkState { adGroups : list AdGroup.t;
            selectedAdGroup : option AdGroup.t;
            loading : bool;
            error : option string }.

Definition initialState : AdGroupState :=
  {| adGroups := []; selectedAdGroup := None; loading := false; error := None |}.

Inductive Action : Type :=
  | selectAdGroup (payload : option AdGroup.t)
  | clearError
  | fetchCampaignAdGroups_pending
  | fetchCampaignAdGroups_fulfilled (payload : list AdGroup.t)
  | fetchCampaignAdGroups_rejected (message : option string)
  | createAdGroup_pending
  | createAdGroup_fulfilled (payload : AdGroup.t)
  | createAdGroup_rejected (message : option string)
  | updateAdGroup_pending
  | updateAdGroup_fulfilled (payload : AdGroup.t)
  | updateAdGroup_rejected (message : option string)
  | deleteAdGroup_pending
  | deleteAdGroup_fulfilled (payload : Z)
  | deleteAdGroup_rejected (message : option string).

(** [adGroups.findIndex((ag) => ag.id === id)] *)
Fixpoint findIndex (id : Z) (l : list AdGroup.t) : option nat :=
  match l with
  | [] => None
  | ag :: l' => if AdGroup.id ag =? id then Some O else S <$> findIndex id l'
  end.

Definition pending (state : AdGroupState) : AdGroupState :=
  {| adGroups := adGroups state;
     selectedAdGroup := selectedAdGroup state;
     loading := true;
     error := None |}.

Definition rejected (state : AdGroupState) (message : option string) (fallback : string)
  : AdGroupState :=
  {| adGroups := adGroups state;
     selectedAdGroup := selectedAdGroup state;
     loading := false;
     error := Some (KeywordSlice.message_or message fallback) |}.

Definition fulfilled (state : AdGroupState) (l : list AdGroup.t) : AdGroupState :=
  {| adGroups := l;
     selectedAdGroup := selectedAdGroup state;
     loading := false;
     error := error state |}.

Definition reducer (state : AdGroupState) (action : Action) : AdGroupState :=
  match action with
  | selectAdGroup payload =>
      {| adGroups := adGroups state;
         selectedAdGroup := payload;
         loading := loading state;
         error := error state |}
  | clearError =>
      {| adGroups := adGroups state;
         selectedAdGroup := selectedAdGroup state;
         loading := loading state;
         error := None |}
  | fetchCampaignAdGroups_pending => pending state
  | fetchCampaignAdGroups_fulfilled payload => fulfilled state payload
  | fetchCampaignAdGroups_rejected m => rejected state m "Failed to fetch ad groups"
  | createAdGroup_pending => pending state
  | createAdGroup_fulfilled payload => fulfilled state (adGroups state ++ [payload])
  | createAdGroup_rejected m => rejected state m "Failed to create ad group"
  | updateAdGroup_pending => pending state
  | updateAdGroup_fulfilled payload =>
      fulfilled state
        (match findIndex (AdGroup.id payload) (adGroups state) with
         | Some index => <[index := payload]> (adGroups state)
         | None => adGroups state
         end)
  | updateAdGroup_rejected m => rejected state m "Failed to update ad group"
  | deleteAdGroup_pending => pending state
  | deleteAdGroup_fulfilled payload =>
      fulfilled state
        (List.filter (λ ag, negb (AdGroup.id ag =? payload)) (adGroups state))
  | deleteAdGroup_rejected m => rejected state m "Failed to delete ad group"
  end.

End AdGroupSlice.

(** ** The error handler of the backend *)

Module ErrorHandler.

(** An error as the handler looks at it: an instance of [AppError], with
    its status code and message, or any other error, with its name,
    message and stack. *)
Inductive Err : Type :=
  | AppErr (statusCode : Z) (message : string)
  | OtherErr (name message : string) (stack : option string).

Record Req : Type := mkReq { path : string; method : string }.

(** The answer: [res.status(statusCode).json({status, message})]. *)
Record Res : Type := mkRes { statusCode : Z; status : string; message : string }.

(** What goes to the logger. *)
Inductive LogEntry : Type :=
  | log_AppError (text : string) (statusCode : Z) (path method : string)
  | log_Prisma (err : Err)
  | log_Unhandled (err : Err) (stack : option string) (path method : string).

Definition errorHandler (err : Err) (req : Req) : LogEntry * Res :=
  match err with
  | AppErr code msg =>
      (log_AppError ("AppError: " +:+ msg) code (path req) (method req),
       mkRes code "error" msg)
  | OtherErr name _ stack =>
      if String.eqb name "PrismaClientKnownRequestError"
      then (log_Prisma err, mkRes 400 "error" "Database operation failed")
      else (log_Unhandled err stack (path req) (method req),
            mkRes 500 "error" "Internal server error")
  end.

Definition notFoundHandler (req : Req) : Res :=
  mkRes 404 "error" ("Route " +:+ method req +:+ " " +:+ path req +:+ " not found").

End ErrorHandler.

(** ** The keyword form

    [handleSubmit] of the keyword dialog. The component state is the form
    data and the error shown; what the handler does to the outside is the
    list of its effects: the thunk it dispatches and the call of [onClose].
    [parseFloat] and [parseInt] are those of the language, and [unwrap]
    tells how the dispatched thunk ends. The requests have the fields of
    the requests of the service; [parseInt] gives no identifier where the
    language gives [NaN], which a request does not carry as a number. *)

Module KeywordFormDialog.

Record FormData : Type :=
  mkForm { keywordText : string;
           adGroupId : string;
           matchType : MatchType;
           bid : string;
           isNegative : bool }.

Record Props : Type := mkProps { campaignId : Z; keywordId : option Z }.

Record State : Type := mkState { formData : FormData; error : option string }.

Inductive Thunk : Type :=
  | updateKeyword (id campaignId : Z) (data : UpdateKeywordDto.t)
  | createKeyword (data : CreateKeywordDto.t).

Inductive Unwrapped : Type :=
  | Fulfilled
  | Rejected (message : option string).

Inductive Effect : Type :=
  | Dispatch (thunk : Thunk)
  | OnClose.

(** [id.toString()] of an identifier. *)
Definition id_toString (i : Z) : string := KeywordService.bigint_toString i.

Section Parsers.

Variable parseFloat : string → JS.number.
Variable parseInt : string → option Z.

Definition handleSubmit (props : Props) (adGroups : list AdGroupSlice.AdGroup.t)
    (unwrap : Thunk → Unwrapped) (state : State) : State * list Effect :=
  let form := formData state in
  if negb (JS.truthy_string (JS.trim (keywordText form)))
  then (mkState form (Some "Keyword text is required"), [])
  else if negb (JS.truthy_string (adGroupId form))
  then (mkState form (Some "Please select an ad group"), [])
  else
    let bid := parseFloat (bid form) in
    if negb (isNegative form) && (JS.isNaN bid || JS.le bid (JS.ofZ 0))
    then (mkState form (Some "Bid must be greater than 0 for non-negative keywords"), [])
    else
      let thunk :=
        if KeywordService.truthy_id (keywordId props)
        then updateKeyword (default 0 (keywordId props)) (campaignId props)
               {| UpdateKeywordDto.keywordText := Some (JS.trim (keywordText form));
                  UpdateKeywordDto.matchType := Some (matchType form);
                  UpdateKeywordDto.bid :=
                    Some (if isNegative form then JS.ofZ 0 else bid);
                  UpdateKeywordDto.status := None;
                  UpdateKeywordDto.isNegative := None |}
        else createKeyword
               {| CreateKeywordDto.campaignId := campaignId props;
                  CreateKeywordDto.adGroupId := parseInt (adGroupId form);
                  CreateKeywordDto.keywordText := JS.trim (keywordText form);
                  CreateKeywordDto.matchType := matchType form;
                  CreateKeywordDto.bid := if isNegative form then JS.ofZ 0 else bid;
                  CreateKeywordDto.isNegative := Some (isNegative form) |} in
      match unwrap thunk with
      | Fulfilled =>
          (mkState
             {| keywordText := "";
                adGroupId := match adGroups with
                             | ag :: _ => id_toString (AdGroupSlice.AdGroup.id ag)
                             | [] => ""
                             end;
                matchType := EXACT;
                bid := "";
                isNegative := false |}
             None,
           [Dispatch thunk; OnClose])
      | Rejected message =>
          (mkState form (Some (KeywordSlice.message_or message "Failed to save keyword")),
           [Dispatch thunk])
      end.

End Parsers.

Definition handleClose (state : State) : State * list Effect :=
  (mkState (formData state) None, [OnClose]).

End KeywordFormDialog.

(** ** The ad group form *)

Module AdGroupFormDialog.

Record FormData : Type := mkForm { name : string; defaultBid : string }.

Record Props : Type := mkProps { campaignId : Z; adGroupId : option Z }.

Record State : Type := mkState { formData : FormData; error : option string }.

Inductive Thunk : Type :=
  | updateAdGroup (id campaignId : Z) (data : AdGroupSlice.UpdateAdGroupData.t)
  | createAdGroup (data : AdGroupSlice.CreateAdGroupData.t).

Inductive Unwrapped : Type :=
  | Fulfilled
  | Rejected (message : option string).

Inductive Effect : Type :=
  | Dispatch (thunk : Thunk)
  | OnClose.

Section Parsers.

Variable parseFloat : string → JS.number.

Definition handleSubmit (props : Props) (unwrap : Thunk → Unwrapped) (state : State)
  : State * list Effect :=
  let form := formData state in
  if negb (JS.truthy_string (JS.trim (name form)))
  then (mkState form (Some "Ad group name is required"), [])
  else
    let defaultBid := parseFloat (defaultBid form) in
    if JS.isNaN defaultBid || JS.le defaultBid (JS.ofZ 0)
    then (mkState form (Some "Default bid must be greater than 0"), [])
    else
      let thunk :=
        if KeywordService.truthy_id (adGroupId props)
        then updateAdGroup (default 0 (adGroupId props)) (campaignId props)
               {| AdGroupSlice.UpdateAdGroupData.name := Some (JS.trim (name form));
                  AdGroupSlice.UpdateAdGroupData.defaultBid := Some defaultBid;
                  AdGroupSlice.UpdateAdGroupData.status := None |}
        else createAdGroup
               {| AdGroupSlice.CreateAdGroupData.campaignId := campaignId props;
                  AdGroupSlice.CreateAdGroupData.name := JS.trim (name form);
                  AdGroupSlice.CreateAdGroupData.defaultBid := defaultBid |} in
      match unwrap thunk with
      | Fulfilled => (mkState (mkForm "" "") None, [Dispatch thunk; OnClose])
      | Rejected message =>
          (mkState form (Some (KeywordSlice.message_or message "Failed to save ad group")),
           [Dispatch thunk])
      end.

End Parsers.

Definition handleClose (state : State) : State * list Effect :=
  (mkState (mkForm "" "") None, [OnClose]).

End AdGroupFormDialog.

(** ** Vocabulary of the further properties *)

Module Inv.

(** Every keyword is stored under its identifier. *)
Definition keys_are_ids (db : Prisma.DB) : Prop :=
  map_Forall (λ i k, Keyword.id k = i) (Prisma.keyword db).


(** Every stored text is not empty and has no white space around it. *)
Definition texts_trimmed (db : Prisma.DB) : Prop :=
  map_Forall
    (λ _ k, Keyword.keywordText k ≠ EmptyString
            ∧ JS.trim (Keyword.keywordText k) = Keyword.keywordText k)
    (Prisma.keyword db).

(** The patch [{}]. *)
Definition no_change : UpdateKeywordDto.t :=
  {| UpdateKeywordDto.keywordText := None;
     UpdateKeywordDto.matchType := None;
     UpdateKeywordDto.bid := None;
     UpdateKeywordDto.status := None;
     UpdateKeywordDto.isNegative := None |}.

(** The patch [{status: s}]. *)
Definition only_status (s : Status) : UpdateKeywordDto.t :=
  {| UpdateKeywordDto.keywordText := None;
     UpdateKeywordDto.matchType := None;
     UpdateKeywordDto.bid := None;
     UpdateKeywordDto.status := Some s;
     UpdateKeywordDto.isNegative := None |}.

(** The patch [{isNegative: b}]. *)
Definition only_isNegative (b : bool) : UpdateKeywordDto.t :=
  {| UpdateKeywordDto.keywordText := None;
     UpdateKeywordDto.matchType := None;
     UpdateKeywordDto.bid := None;
     UpdateKeywordDto.status := None;
     UpdateKeywordDto.isNegative := Some b |}.

(** The filters [{isNegative: true}] and no filter on anything. *)
Definition filters_isNegative (b : bool) : KeywordFilters.t :=
  {| KeywordFilters.adGroupId := None;
     KeywordFilters.matchType := None;
     KeywordFilters.status := None;
     KeywordFilters.isNegative := Some b |}.

(** The actions of the keyword slice that carry a list or a keyword from
    the server. *)
Definition keyword_fulfilled (action : KeywordSlice.Action) : bool :=
  match action with
  | KeywordSlice.fetchCampaignKeywords_fulfilled _
  | KeywordSlice.fetchAdGroupKeywords_fulfilled _
  | KeywordSlice.createKeyword_fulfilled _
  | KeywordSlice.updateKeyword_fulfilled _
  | KeywordSlice.deleteKeyword_fulfilled _ => true
  | _ => false
  end.

Definition keyword_rejected (action : KeywordSlice.Action) : bool :=
  match action with
  | KeywordSlice.fetchCampaignKeywords_rejected _
  | KeywordSlice.fetchAdGroupKeywords_rejected _
  | KeywordSlice.createKeyword_rejected _
  | KeywordSlice.updateKeyword_rejected _
  | KeywordSlice.deleteKeyword_rejected _ => true
  | _ => false
  end.

Definition keyword_pending (action : KeywordSlice.Action) : bool :=
  match action with
  | KeywordSlice.fetchCampaignKeywords_pending
  | KeywordSlice.fetchAdGroupKeywords_pending
  | KeywordSlice.createKeyword_pending
  | KeywordSlice.updateKeyword_pending
  | KeywordSlice.deleteKeyword_pending => true
  | _ => false
  end.

Definition adGroup_rejected (action : AdGroupSlice.Action) : bool :=
  match action with
  | AdGroupSlice.fetchCampaignAdGroups_rejected _
  | AdGroupSlice.createAdGroup_rejected _
  | AdGroupSlice.updateAdGroup_rejected _
  | AdGroupSlice.deleteAdGroup_rejected _ => true
  | _ => false
  end.

Definition adGroup_pending (action : AdGroupSlice.Action) : bool :=
  match action with
  | AdGroupSlice.fetchCampaignAdGroups_pending
  | AdGroupSlice.createAdGroup_pending
  | AdGroupSlice.updateAdGroup_pending
  | AdGroupSlice.deleteAdGroup_pending => true
  | _ => false
  end.

(** The identifiers of a list of keywords, and of ad groups. *)
Definition keyword_ids (l : list KeywordSlice.Keyword.t) : list Z :=
  KeywordSlice.Keyword.id <$> l.

Definition adGroup_ids (l : list AdGroupSlice.AdGroup.t) : list Z :=
  AdGroupSlice.AdGroup.id <$> l.

(** What a fulfilled action of the keyword slice has to bring for the
    identifiers of the list to stay distinct: a fetched list has distinct
    identifiers, and a created keyword has an identifier that the list
    does not have. *)
Definition keyword_payload_fresh (state : KeywordSlice.KeywordState)
    (action : KeywordSlice.Action) : Prop :=
  match action with
  | KeywordSlice.fetchCampaignKeywords_fulfilled l
  | KeywordSlice.fetchAdGroupKeywords_fulfilled l => NoDup (keyword_ids l)
  | KeywordSlice.createKeyword_fulfilled p =>
      KeywordSlice.Keyword.id p ∉ keyword_ids (KeywordSlice.keywords state)
  | _ => True
  end.

End Inv.

(** ** Sample data of the frontend *)

Module SampleUI.

Definition keyword (id : Z) (text : string) : KeywordSlice.Keyword.t :=
  {| KeywordSlice.Keyword.id := id;
     KeywordSlice.Keyword.campaignId := 1;
     KeywordSlice.Keyword.adGroupId := Some 1;
     KeywordSlice.Keyword.keywordText := text;
     KeywordSlice.Keyword.matchType := EXACT;
     KeywordSlice.Keyword.bid := Sample.bid_1_50;
     KeywordSlice.Keyword.status := ACTIVE;
     KeywordSlice.Keyword.isNegative := false;
     KeywordSlice.Keyword.impressions := "0";
     KeywordSlice.Keyword.clicks := 0;
     KeywordSlice.Keyword.conversions := 0;
     KeywordSlice.Keyword.spend := "0";
     KeywordSlice.Keyword.sales := "0";
     KeywordSlice.Keyword.createdAt := "2024-01-01T00:00:00.000Z";
     KeywordSlice.Keyword.updatedAt := "2024-01-01T00:00:00.000Z" |}.

(** A keyword state with the keywords 1 and 2. *)
Definition keywords12 : KeywordSlice.KeywordState :=
  {| KeywordSlice.keywords := [keyword 1 "shoes"; keyword 2 "boots"];
     KeywordSlice.selectedKeyword := None;
     KeywordSlice.loading := true;
     KeywordSlice.error := None |}.

Definition adGroup (id : Z) (name : string) : AdGroupSlice.AdGroup.t :=
  {| AdGroupSlice.AdGroup.id := id;
     AdGroupSlice.AdGroup.campaignId := 1;
     AdGroupSlice.AdGroup.name := name;
     AdGroupSlice.AdGroup.defaultBid := Sample.bid_1_50;
     AdGroupSlice.AdGroup.status := ACTIVE;
     AdGroupSlice.AdGroup.createdAt := "2024-01-01T00:00:00.000Z";
     AdGroupSlice.AdGroup.updatedAt := "2024-01-01T00:00:00.000Z";
     AdGroupSlice.AdGroup._count := None |}.

(** An ad group state with the ad groups 1 and 2. *)
Definition adGroups12 : AdGroupSlice.AdGroupState :=
  {| AdGroupSlice.adGroups := [adGroup 1 "A1"; adGroup 2 "A2"];
     AdGroupSlice.selectedAdGroup := None;
     AdGroupSlice.loading := true;
     AdGroupSlice.error := None |}.

(** A parser that reads "1.50" as 1.5 and nothing else as a number, and
    one that reads "1" as 1. *)
Definition parseFloat (s : string) : JS.number :=
  if String.eqb s "1.50" then Sample.bid_1_50 else JS.NaN.

Definition parseInt (s : string) : option Z :=
  if String.eqb s "1" then Some 1 else None.

(** The keyword form filled in, with the negative box ticked or not. *)
Definition form (isNegative : bool) : KeywordFormDialog.State :=
  {| KeywordFormDialog.formData :=
       {| KeywordFormDialog.keywordText := " running shoes ";
          KeywordFormDialog.adGroupId := "1";
          KeywordFormDialog.matchType := EXACT;
          KeywordFormDialog.bid := "1.50";
          KeywordFormDialog.isNegative := isNegative |};
     KeywordFormDialog.error := None |}.

(** The ad group form filled in. *)
Definition adGroupForm : AdGroupFormDialog.State :=
  {| AdGroupFormDialog.formData :=
       {| AdGroupFormDialog.name := " Main ";
          AdGroupFormDialog.defaultBid := "1.50" |};
     AdGroupFormDialog.error := None |}.

End SampleUI.

(** * Properties *)

(** ** The database and the monad *)

Lemma next_id_above {A : Type} (table : gmap Z A) (i : Z) :
  is_Some (table !! i) → i < Prisma.next_id table.
Proof.
  unfold Prisma.next_id.
  cut (i ≤ map_fold (λ (j : Z) (_ : A) (acc : Z), Z.max j acc) 0 table ∨ table !! i = None).
  { intros [H | H] [x Hx]; [lia | congruence]. }
  revert i.
  apply (map_fold_weak_ind
           (λ r (m : gmap Z A), ∀ i, i ≤ r ∨ m !! i = None)).
  - intros i. right. apply lookup_empty.
  - intros j x m r _ IH i.
    destruct (decide (i = j)) as [-> | Hne]; [left; lia |].
    destruct (IH i) as [H | H]; [left; lia | right].
    by rewrite lookup_insert_ne.
Qed.

Lemma next_id_fresh {A : Type} (table : gmap Z A) :
  table !! Prisma.next_id table = None.
Proof.
  destruct (table !! Prisma.next_id table) eqn:E; [| done].
  pose proof (next_id_above table (Prisma.next_id table) (mk_is_Some _ _ E)). lia.
Qed.

Lemma run_bind {A B : Type} (p : Async A) (f : A → Async B) (db : Prisma.DB) :
  run (p ≫= f) db =
  match run p db with
  | (inr a, db') => run (f a) db'
  | (inl e, db') => (inl e, db')
  end.
Proof.
  revert db. induction p as [a | e | X op k IH]; intros db; simpl; try done.
  destruct (Prisma.perform op db) as [[e | x] db']; [done |].
  apply IH.
Qed.

(** createKeyword fails with the error of its first failing check and
    leaves the database as it was, or inserts the row under a new
    identifier and returns it. *)
Lemma run_createKeyword (data : CreateKeywordDto.t) (db : Prisma.DB) :
  run (KeywordService.createKeyword data) db =
  match Spec.createKeyword_rejection data db with
  | Some e => (inl e, db)
  | None =>
      let k := Prisma.new_keyword (Prisma.next_id (Prisma.keyword db)) (Prisma.now db)
                 (Spec.createKeyword_input data) in
      (inr k, Spec.with_keyword db (Keyword.id k) k (Prisma.now db + 1))
  end.
Proof.
  unfold KeywordService.createKeyword, Spec.createKeyword_rejection,
    Spec.createKeyword_input, Spec.with_keyword.
  destruct (negb _ && _); [done |].
  destruct (negb (JS.truthy_string _)); [done |].
  simpl.
  destruct (Prisma.campaign db !! _); [| done].
  destruct (CreateKeywordDto.adGroupId data) as [a |]; simpl; [| done].
  destruct (JS.truthy_int a); simpl; [| done].
  destruct (Prisma.adGroup db !! a) as [g |]; [| done].
  by destruct (AdGroup.campaignId g =? _).
Qed.

(** ** Numbers and strings *)

Lemma gt_zero_not_le (x : JS.number) :
  JS.gt x (JS.ofZ 0) = true → JS.le x (JS.ofZ 0) = false.
Proof. by destruct x as [[] | [] | | [] m e]. Qed.

Lemma not_le_zero_gt (x : JS.number) :
  JS.le x (JS.ofZ 0) = false → JS.isNaN x = false → JS.gt x (JS.ofZ 0) = true.
Proof. by destruct x as [[] | [] | | [] m e]. Qed.

Lemma trimEnd_idem (s : string) : JS.trimEnd (JS.trimEnd s) = JS.trimEnd s.
Proof.
  induction s as [| c s IH]; simpl; [done |].
  destruct (JS.trimEnd s) as [| c' t] eqn:E.
  - destruct (JS.is_white_space c) eqn:W; simpl; [done |]. by rewrite W.
  - simpl in *. by rewrite IH.
Qed.

Lemma trimStart_head (s : string) :
  match JS.trimStart s with
  | EmptyString => True
  | String c _ => JS.is_white_space c = false
  end.
Proof.
  induction s as [| c s IH]; simpl; [done |].
  destruct (JS.is_white_space c) eqn:W; [done |]. simpl. done.
Qed.

Lemma trimStart_trimEnd (c : ascii) (s : string) :
  JS.is_white_space c = false →
  JS.trimStart (JS.trimEnd (String c s)) = JS.trimEnd (String c s).
Proof.
  intros W. simpl.
  destruct (JS.trimEnd s); rewrite ?W; simpl; by rewrite W.
Qed.

(** A trimmed string has no white space left to trim. *)
Lemma trim_idem (s : string) : JS.trim (JS.trim s) = JS.trim s.
Proof.
  unfold JS.trim.
  pose proof (trimStart_head s) as H.
  destruct (JS.trimStart s) as [| c t]; [done |].
  rewrite trimStart_trimEnd; [| done].
  apply trimEnd_idem.
Qed.

Lemma truthy_string_nonempty (s : string) :
  JS.truthy_string s = true ↔ s ≠ EmptyString.
Proof. by destruct s. Qed.

(** ** createKeyword *)

(** C1. A createKeyword call for a keyword that is not negative ([isNegative]
    false or absent): with [bid <= 0] it fails with ValidationError and the
    database is unchanged; with [bid > 0], a text that is not blank, an
    existing campaign and an ad group, if any, of that campaign, it succeeds
    and returns the row it inserted under a new identifier, with status
    ACTIVE, all counters zero and the text trimmed. *)
Theorem createKeyword_bid_rule (db : Prisma.DB) (data : CreateKeywordDto.t) :
  KeywordService.truthy_flag (CreateKeywordDto.isNegative data) = false →
  (JS.le (CreateKeywordDto.bid data) (JS.ofZ 0) = true →
   run (KeywordService.createKeyword data) db
   = (inl (ValidationError "Bid must be greater than 0"), db))
  ∧
  (JS.gt (CreateKeywordDto.bid data) (JS.ofZ 0) = true →
   JS.trim (CreateKeywordDto.keywordText data) ≠ EmptyString →
   is_Some (Prisma.campaign db !! CreateKeywordDto.campaignId data) →
   Spec.adGroup_belongs data db →
   ∃ k db',
     run (KeywordService.createKeyword data) db = (inr k, db')
     ∧ Prisma.keyword db !! Keyword.id k = None
     ∧ Prisma.keyword db' = <[Keyword.id k := k]> (Prisma.keyword db)
     ∧ Prisma.keyword db' !! Keyword.id k = Some k
     ∧ Prisma.campaign db' = Prisma.campaign db
     ∧ Prisma.adGroup db' = Prisma.adGroup db
     ∧ Keyword.status k = ACTIVE
     ∧ Keyword.impressions k = 0
     ∧ Keyword.clicks k = 0
     ∧ Keyword.conversions k = 0
     ∧ Keyword.spend k = Decimal.zero
     ∧ Keyword.sales k = Decimal.zero
     ∧ Keyword.keywordText k = JS.trim (CreateKeywordDto.keywordText data)
     ∧ JS.trim (Keyword.keywordText k) = Keyword.keywordText k
     ∧ Keyword.campaignId k = CreateKeywordDto.campaignId data
     ∧ Keyword.adGroupId k = CreateKeywordDto.adGroupId data
     ∧ Keyword.matchType k = CreateKeywordDto.matchType data
     ∧ Keyword.bid k = CreateKeywordDto.bid data
     ∧ Keyword.isNegative k = false).
Proof.
  intros Hneg. split.
  - intros Hle. rewrite run_createKeyword.
    unfold Spec.createKeyword_rejection. by rewrite Hneg, Hle.
  - intros Hgt Htext [c Hc] Hag.
    eexists _, _. split.
    + rewrite run_createKeyword. unfold Spec.createKeyword_rejection.
      rewrite Hneg, (gt_zero_not_le _ Hgt). simpl.
      apply truthy_string_nonempty in Htext. rewrite Htext. simpl.
      rewrite Hc. unfold Spec.adGroup_belongs in Hag.
      destruct (CreateKeywordDto.adGroupId data) as [a |]; simpl; [| reflexivity].
      destruct Hag as [Ha (g & Hg & Hgc)].
      unfold JS.truthy_int. rewrite (proj2 (Z.eqb_neq a 0) Ha). simpl.
      rewrite Hg, Hgc, Z.eqb_refl. reflexivity.
    + simpl. rewrite lookup_insert_eq, trim_idem, Hneg.
      repeat split; try reflexivity. apply next_id_fresh.
Qed.

(** In the sample database: a bid of zero is rejected, the keyword
    " running shoes " at bid 1.5 is created. *)
Lemma createKeyword_bid_rule_witness :
  run (KeywordService.createKeyword (Sample.dto 1 (Some 1) "shoes" (JS.ofZ 0) (Some false)))
      Sample.db0
  = (inl (ValidationError "Bid must be greater than 0"), Sample.db0)
  ∧ ∃ k db',
      run (KeywordService.createKeyword
             (Sample.dto 1 (Some 1) " running shoes " Sample.bid_1_50 None))
          Sample.db0 = (inr k, db')
      ∧ Prisma.keyword db' !! Keyword.id k = Some k
      ∧ Keyword.status k = ACTIVE
      ∧ Keyword.keywordText k = "running shoes".
Proof.
  split.
  - apply (createKeyword_bid_rule Sample.db0
             (Sample.dto 1 (Some 1) "shoes" (JS.ofZ 0) (Some false))); reflexivity.
  - destruct (proj2 (createKeyword_bid_rule Sample.db0
                       (Sample.dto 1 (Some 1) " running shoes " Sample.bid_1_50 None)
                       eq_refl))
      as (k & db' & Hrun & _ & _ & Hin & _ & _ & Hst & _ & _ & _ & _ & _ & Htxt & _).
    + reflexivity.
    + vm_compute. discriminate.
    + eexists. vm_compute. reflexivity.
    + split; [lia |]. eexists. split; vm_compute; reflexivity.
    + exists k, db'. repeat split; assumption.
Defined.

(** C3, as the code has it. A createKeyword call that names an ad group
    (a non-zero [adGroupId]) which is missing or belongs to another campaign
    always fails and inserts nothing. The error is the one of the first
    check that fails, in the order bid, text, campaign, ad group: for an ad
    group of another campaign it is a ValidationError when the campaign of
    the call exists, and NotFoundError "Campaign not found" when it does
    not and the bid and text checks pass; for a missing ad group it is a
    NotFoundError when the bid and text checks pass. *)
Theorem createKeyword_adGroup_rule (db : Prisma.DB) (data : CreateKeywordDto.t) (a : Z) :
  CreateKeywordDto.adGroupId data = Some a →
  a ≠ 0 →
  (∀ g, Prisma.adGroup db !! a = Some g →
        AdGroup.campaignId g ≠ CreateKeywordDto.campaignId data →
        ∃ e, run (KeywordService.createKeyword data) db = (inl e, db)
             ∧ (is_Some (Prisma.campaign db !! CreateKeywordDto.campaignId data) →
                ∃ m, e = ValidationError m)
             ∧ (Prisma.campaign db !! CreateKeywordDto.campaignId data = None →
                Spec.bid_rejected
                  (KeywordService.truthy_flag (CreateKeywordDto.isNegative data))
                  (CreateKeywordDto.bid data) = false →
                JS.trim (CreateKeywordDto.keywordText data) ≠ EmptyString →
                e = NotFoundError "Campaign not found"))
  ∧
  (Prisma.adGroup db !! a = None →
   ∃ e, run (KeywordService.createKeyword data) db = (inl e, db)
        ∧ (Spec.bid_rejected
             (KeywordService.truthy_flag (CreateKeywordDto.isNegative data))
             (CreateKeywordDto.bid data) = false →
           JS.trim (CreateKeywordDto.keywordText data) ≠ EmptyString →
           (∃ m, e = NotFoundError m)
           ∧ (is_Some (Prisma.campaign db !! CreateKeywordDto.campaignId data) →
              e = NotFoundError "Ad group not found"))).
Proof.
  intros Ha Hnz.
  assert (Ht : JS.truthy_int a = true).
  { unfold JS.truthy_int. by rewrite (proj2 (Z.eqb_neq a 0) Hnz). }
  rewrite run_createKeyword. unfold Spec.createKeyword_rejection, Spec.bid_rejected.
  simpl. rewrite Ha. simpl. rewrite Ht.
  split.
  - intros g Hg Hne. rewrite Hg, (proj2 (Z.eqb_neq _ _) Hne).
    destruct (negb _ && _).
    { eexists. split; [done |]. split; [by eexists | done]. }
    destruct (JS.truthy_string _) eqn:Htext; simpl.
    + destruct (Prisma.campaign db !! _) as [c |].
      * eexists. split; [done |]. split; [by eexists | done].
      * eexists. split; [done |]. split; [by intros [] | done].
    + eexists. split; [done |]. split; [by eexists |].
      intros _ _ Hnb. by apply truthy_string_nonempty in Hnb; rewrite Hnb in Htext.
  - intros Hg. rewrite Hg.
    destruct (negb _ && _).
    { eexists. split; [done |]. done. }
    destruct (JS.truthy_string _) eqn:Htext; simpl.
    + destruct (Prisma.campaign db !! _) as [c |].
      * eexists. split; [done |]. intros _ _. split; [by eexists | done].
      * eexists. split; [done |]. intros _ _. split; [by eexists | by intros []].
    + eexists. split; [done |].
      intros _ Hnb. by apply truthy_string_nonempty in Hnb; rewrite Hnb in Htext.
Qed.

(** In the sample database: ad group 1 under campaign 2 is a validation
    error, ad group 7 is not found. *)
Lemma createKeyword_adGroup_rule_witness :
  (∃ e, run (KeywordService.createKeyword
               (Sample.dto 2 (Some 1) "shoes" Sample.bid_1_50 None)) Sample.db0
        = (inl e, Sample.db0)
        ∧ ∃ m, e = ValidationError m)
  ∧ ∃ e, run (KeywordService.createKeyword
                (Sample.dto 1 (Some 7) "shoes" Sample.bid_1_50 None)) Sample.db0
         = (inl e, Sample.db0)
         ∧ e = NotFoundError "Ad group not found".
Proof.
  split.
  - destruct (proj1 (createKeyword_adGroup_rule Sample.db0
                       (Sample.dto 2 (Some 1) "shoes" Sample.bid_1_50 None) 1
                       eq_refl ltac:(lia)) Sample.adGroup1)
      as (e & Hrun & Hval & _).
    + reflexivity.
    + vm_compute. discriminate.
    + exists e. split; [exact Hrun |]. apply Hval. eexists. vm_compute. reflexivity.
  - destruct (proj2 (createKeyword_adGroup_rule Sample.db0
                       (Sample.dto 1 (Some 7) "shoes" Sample.bid_1_50 None) 7
                       eq_refl ltac:(lia)))
      as (e & Hrun & Hnf).
    + reflexivity.
    + exists e. split; [exact Hrun |]. apply Hnf.
      * reflexivity.
      * vm_compute. discriminate.
      * eexists. vm_compute. reflexivity.
Defined.

(** C3, as stated, fails: the ad group of the request exists and belongs
    to campaign 1, the request is for campaign 3, which does not exist, and
    the call fails with NotFoundError, the campaign being looked up first.
    Nothing is inserted. *)
Lemma createKeyword_adGroup_mismatch_unknown_campaign :
  CreateKeywordDto.adGroupId (Sample.dto 3 (Some 1) "shoes" Sample.bid_1_50 None) = Some 1
  ∧ Prisma.adGroup Sample.db0 !! 1 = Some Sample.adGroup1
  ∧ AdGroup.campaignId Sample.adGroup1 ≠ 3
  ∧ run (KeywordService.createKeyword
           (Sample.dto 3 (Some 1) "shoes" Sample.bid_1_50 None)) Sample.db0
    = (inl (NotFoundError "Campaign not found"), Sample.db0)
  ∧ ¬ ∃ m, run (KeywordService.createKeyword
                  (Sample.dto 3 (Some 1) "shoes" Sample.bid_1_50 None)) Sample.db0
           = (inl (ValidationError m), Sample.db0).
Proof.
  repeat split; try reflexivity.
  - vm_compute. discriminate.
  - intros [m Hm]. vm_compute in Hm. discriminate.
Qed.

(** C4, as stated, fails: a negative keyword is accepted with the bid -5,
    which is stored. *)
Lemma createKeyword_negative_keyword_negative_bid :
  ∃ k db',
    run (KeywordService.createKeyword
           (Sample.dto 1 (Some 1) "shoes" (JS.ofZ (-5)) (Some true))) Sample.db0
    = (inr k, db')
    ∧ Prisma.keyword db' !! Keyword.id k = Some k
    ∧ Keyword.bid k = JS.ofZ (-5)
    ∧ JS.lt (Keyword.bid k) (JS.ofZ 0) = true
    ∧ JS.le (JS.ofZ 0) (Keyword.bid k) = false.
Proof. eexists _, _. repeat split; vm_compute; reflexivity. Qed.


(** ** getKeywordById, updateKeyword and deleteKeyword *)

Lemma run_getKeywordById (id campaignId : Z) (db : Prisma.DB) :
  run (KeywordService.getKeywordById id campaignId) db =
  match Prisma.keyword db !! id with
  | Some k =>
      if Keyword.campaignId k =? campaignId then (inr k, db)
      else (inl (NotFoundError "Keyword not found"), db)
  | None => (inl (NotFoundError "Keyword not found"), db)
  end.
Proof.
  unfold KeywordService.getKeywordById. simpl.
  destruct (Prisma.keyword db !! id) as [k |]; [| done].
  by destruct (Keyword.campaignId k =? campaignId).
Qed.

Lemma run_getKeywordById_found (id : Z) (db : Prisma.DB) (k : Keyword.t) :
  Prisma.keyword db !! id = Some k →
  run (KeywordService.getKeywordById id (Keyword.campaignId k)) db = (inr k, db).
Proof. intros H. by rewrite run_getKeywordById, H, Z.eqb_refl. Qed.

Lemma run_getKeywordById_inv (id campaignId : Z) (db db' : Prisma.DB) (k : Keyword.t) :
  run (KeywordService.getKeywordById id campaignId) db = (inr k, db') →
  Prisma.keyword db !! id = Some k ∧ Keyword.campaignId k = campaignId ∧ db' = db.
Proof.
  rewrite run_getKeywordById.
  destruct (Prisma.keyword db !! id) as [k0 |]; [| done].
  destruct (Keyword.campaignId k0 =? campaignId) eqn:E; [| done].
  intros [= -> ->]. apply Z.eqb_eq in E. done.
Qed.

(** updateKeyword on a keyword of the campaign: the bid check, then the
    text check, then the write of the fields of the patch. *)
Lemma run_updateKeyword (id : Z) (data : UpdateKeywordDto.t) (db : Prisma.DB)
    (k : Keyword.t) :
  Prisma.keyword db !! id = Some k →
  run (KeywordService.updateKeyword id (Keyword.campaignId k) data) db =
  if match UpdateKeywordDto.bid data with
     | Some b => Spec.bid_rejected (Spec.willBeNegative data k) b
     | None => false
     end
  then (inl (ValidationError "Bid must be greater than 0"), db)
  else if Spec.blank_text data
  then (inl (ValidationError "Keyword text cannot be empty"), db)
  else
    let k' := Prisma.apply_update (Spec.updateKeyword_input data) k in
    (inr k', Spec.with_keyword db id k' (Prisma.now db)).
Proof.
  intros H. unfold KeywordService.updateKeyword.
  rewrite run_bind, (run_getKeywordById_found _ _ _ H).
  unfold Spec.bid_rejected, Spec.willBeNegative, Spec.blank_text.
  destruct (match UpdateKeywordDto.bid data with Some _ => _ | None => _ end); [done |].
  destruct (match UpdateKeywordDto.keywordText data with Some _ => _ | None => _ end);
    [done |].
  simpl. by rewrite H.
Qed.

Lemma run_deleteKeyword (id : Z) (db : Prisma.DB) (k : Keyword.t) :
  Prisma.keyword db !! id = Some k →
  run (KeywordService.deleteKeyword id (Keyword.campaignId k)) db
  = (inr (), Spec.with_keyword db id (Spec.with_status k ARCHIVED) (Prisma.now db)).
Proof.
  intros H. unfold KeywordService.deleteKeyword.
  rewrite run_bind, (run_getKeywordById_found _ _ _ H).
  simpl. by rewrite H.
Qed.

Lemma run_not_found_bind {A B : Type} (p : Async A) (f : A → Async B)
    (db : Prisma.DB) (e : AppError) :
  run p db = (inl e, db) → run (p ≫= f) db = (inl e, db).
Proof. intros H. by rewrite run_bind, H. Qed.

(** C2. An updateKeyword call on a keyword of the campaign with a bid in
    the patch checks the bid against the [isNegative] the row will have:
    when that is false and [bid <= 0] the call fails with ValidationError
    and the database is unchanged; when it is true the bid is never
    rejected: the call fails only on a blank text in the patch, and
    otherwise succeeds and stores the bid. *)
Theorem updateKeyword_bid_rule (db : Prisma.DB) (id : Z) (data : UpdateKeywordDto.t)
    (b : JS.number) (k : Keyword.t) :
  UpdateKeywordDto.bid data = Some b →
  Prisma.keyword db !! id = Some k →
  (Spec.willBeNegative data k = false →
   JS.le b (JS.ofZ 0) = true →
   run (KeywordService.updateKeyword id (Keyword.campaignId k) data) db
   = (inl (ValidationError "Bid must be greater than 0"), db))
  ∧
  (Spec.willBeNegative data k = true →
   (Spec.blank_text data = true →
    run (KeywordService.updateKeyword id (Keyword.campaignId k) data) db
    = (inl (ValidationError "Keyword text cannot be empty"), db))
   ∧
   (Spec.blank_text data = false →
    ∃ k' db',
      run (KeywordService.updateKeyword id (Keyword.campaignId k) data) db = (inr k', db')
      ∧ Prisma.keyword db' !! id = Some k'
      ∧ Keyword.bid k' = b
      ∧ Keyword.isNegative k' = true)).
Proof.
  intros Hb Hk.
  rewrite (run_updateKeyword _ _ _ _ Hk), Hb. unfold Spec.bid_rejected.
  split.
  - by intros -> ->.
  - intros Hn. rewrite Hn. simpl. split; [by intros -> |].
    intros ->. eexists _, _. split; [done |]. simpl.
    rewrite lookup_insert_eq, Hb. simpl.
    repeat split.
    unfold Spec.willBeNegative in Hn.
    by destruct (UpdateKeywordDto.isNegative data).
Qed.

(** On keyword 1 of the sample database: the patch [{bid: 0}] is rejected,
    the patch [{bid: -5, isNegative: true}] is stored. *)
Lemma updateKeyword_bid_rule_witness :
  run (KeywordService.updateKeyword 1 1 (Spec.only_bid (JS.ofZ 0))) Sample.db1
  = (inl (ValidationError "Bid must be greater than 0"), Sample.db1)
  ∧ ∃ k' db',
      run (KeywordService.updateKeyword 1 1 (Sample.negative_with_bid (JS.ofZ (-5))))
          Sample.db1 = (inr k', db')
      ∧ Prisma.keyword db' !! 1 = Some k'
      ∧ Keyword.bid k' = JS.ofZ (-5)
      ∧ Keyword.isNegative k' = true.
Proof.
  split.
  - apply (proj1 (updateKeyword_bid_rule Sample.db1 1 (Spec.only_bid (JS.ofZ 0))
                    (JS.ofZ 0) Sample.keyword1 eq_refl eq_refl)); reflexivity.
  - apply (proj2 (proj2 (updateKeyword_bid_rule Sample.db1 1
                           (Sample.negative_with_bid (JS.ofZ (-5)))
                           (JS.ofZ (-5)) Sample.keyword1 eq_refl eq_refl) eq_refl)).
    reflexivity.
Defined.

(** C4, as the code has it. The bid is checked only for a keyword that is
    not negative. A keyword that createKeyword stores with [isNegative]
    false, and a keyword that updateKeyword stores with [isNegative] false
    when the patch has a bid, has a bid for which [bid <= 0] is false: a bid
    above 0, unless it is NaN. *)
Theorem stored_bid_rule :
  (∀ (db db' : Prisma.DB) (data : CreateKeywordDto.t) (k : Keyword.t),
     run (KeywordService.createKeyword data) db = (inr k, db') →
     Keyword.isNegative k = false →
     Prisma.keyword db' !! Keyword.id k = Some k
     ∧ Keyword.bid k = CreateKeywordDto.bid data
     ∧ JS.le (Keyword.bid k) (JS.ofZ 0) = false
     ∧ (JS.isNaN (Keyword.bid k) = false → JS.gt (Keyword.bid k) (JS.ofZ 0) = true))
  ∧
  (∀ (db db' : Prisma.DB) (id campaignId : Z) (data : UpdateKeywordDto.t)
     (b : JS.number) (k' : Keyword.t),
     run (KeywordService.updateKeyword id campaignId data) db = (inr k', db') →
     UpdateKeywordDto.bid data = Some b →
     Keyword.isNegative k' = false →
     Prisma.keyword db' !! id = Some k'
     ∧ Keyword.bid k' = b
     ∧ JS.le (Keyword.bid k') (JS.ofZ 0) = false
     ∧ (JS.isNaN (Keyword.bid k') = false → JS.gt (Keyword.bid k') (JS.ofZ 0) = true)).
Proof.
  split.
  - intros db db' data k. rewrite run_createKeyword.
    destruct (Spec.createKeyword_rejection data db) eqn:Hrej; [done |].
    unfold Spec.createKeyword_rejection in Hrej.
    destruct (negb _ && JS.le _ _) eqn:Hb in Hrej; [done |].
    intros [= <- <-]. simpl. intros Hneg. rewrite Hneg in Hb. simpl in Hb.
    rewrite lookup_insert_eq.
    repeat split; [done |]. by apply not_le_zero_gt.
  - intros db db' id campaignId data b k' Hrun Hb Hneg.
    assert (∃ k, Prisma.keyword db !! id = Some k ∧ Keyword.campaignId k = campaignId)
      as (k & Hk & <-).
    { unfold KeywordService.updateKeyword in Hrun. rewrite run_bind in Hrun.
      destruct (run (KeywordService.getKeywordById id campaignId) db)
        as [[e | k] db0] eqn:Hget; [done |].
      apply run_getKeywordById_inv in Hget as (? & ? & ?). eauto. }
    rewrite (run_updateKeyword _ _ _ _ Hk), Hb in Hrun.
    destruct (Spec.bid_rejected _ b) eqn:Hrej; [done |].
    destruct (Spec.blank_text data); [done |].
    injection Hrun as <- <-. simpl in *. rewrite Hb in *. simpl.
    rewrite lookup_insert_eq.
    assert (Hw : Spec.willBeNegative data k = false).
    { unfold Spec.willBeNegative. by destruct (UpdateKeywordDto.isNegative data). }
    unfold Spec.bid_rejected in Hrej. rewrite Hw in Hrej. simpl in Hrej.
    repeat split; [done |]. by apply not_le_zero_gt.
Qed.

(** Keyword 1 of the sample database was stored with a bid above zero, and
    so is it after the patch [{bid: 5}]. *)
Lemma stored_bid_rule_witness :
  (Prisma.keyword Sample.db1 !! 1 = Some Sample.keyword1
   ∧ JS.le (Keyword.bid Sample.keyword1) (JS.ofZ 0) = false)
  ∧ JS.le (JS.ofZ 5) (JS.ofZ 0) = false.
Proof.
  split.
  - destruct (proj1 stored_bid_rule Sample.db0 Sample.db1
                (Sample.dto 1 (Some 1) " running shoes " Sample.bid_1_50 None)
                Sample.keyword1) as (H1 & _ & H2 & _).
    + vm_compute. reflexivity.
    + reflexivity.
    + split; assumption.
  - destruct (proj2 stored_bid_rule Sample.db1
                (run (KeywordService.updateKeyword 1 1 (Spec.only_bid (JS.ofZ 5)))
                     Sample.db1).2
                1 1 (Spec.only_bid (JS.ofZ 5)) (JS.ofZ 5)
                (Prisma.apply_update (Spec.updateKeyword_input (Spec.only_bid (JS.ofZ 5)))
                   Sample.keyword1)) as (_ & _ & H & _).
    + vm_compute. reflexivity.
    + reflexivity.
    + reflexivity.
    + exact H.
Defined.

(** C7. A keyword that exists under another campaign than the one given
    is not found: getKeywordById, updateKeyword and deleteKeyword fail with
    NotFoundError and leave the database unchanged. *)
Theorem keyword_scoped_by_campaign (db : Prisma.DB) (id campaignId : Z) (k : Keyword.t) :
  Prisma.keyword db !! id = Some k →
  Keyword.campaignId k ≠ campaignId →
  run (KeywordService.getKeywordById id campaignId) db
  = (inl (NotFoundError "Keyword not found"), db)
  ∧ (∀ data, run (KeywordService.updateKeyword id campaignId data) db
             = (inl (NotFoundError "Keyword not found"), db))
  ∧ run (KeywordService.deleteKeyword id campaignId) db
    = (inl (NotFoundError "Keyword not found"), db).
Proof.
  intros Hk Hne.
  assert (Hget : run (KeywordService.getKeywordById id campaignId) db
                 = (inl (NotFoundError "Keyword not found"), db)).
  { by rewrite run_getKeywordById, Hk, (proj2 (Z.eqb_neq _ _) Hne). }
  split; [done |]. split.
  - intros data. by apply run_not_found_bind.
  - by apply run_not_found_bind.
Qed.

(** Keyword 1 of the sample database belongs to campaign 1 and is not
    found under campaign 2. *)
Lemma keyword_scoped_by_campaign_witness :
  run (KeywordService.getKeywordById 1 2) Sample.db1
  = (inl (NotFoundError "Keyword not found"), Sample.db1)
  ∧ (∀ data, run (KeywordService.updateKeyword 1 2 data) Sample.db1
             = (inl (NotFoundError "Keyword not found"), Sample.db1))
  ∧ run (KeywordService.deleteKeyword 1 2) Sample.db1
    = (inl (NotFoundError "Keyword not found"), Sample.db1).
Proof.
  apply (keyword_scoped_by_campaign Sample.db1 1 2 Sample.keyword1).
  - reflexivity.
  - vm_compute. discriminate.
Defined.

(** C5. deleteKeyword on a keyword of the campaign sets its status to
    ARCHIVED and changes no other field of it, nor any other row or table;
    a second deleteKeyword succeeds and leaves the database as the first
    left it. When no keyword has the identifier under the campaign, the
    call fails with NotFoundError and the database is unchanged. *)
Theorem deleteKeyword_archives (db : Prisma.DB) (id campaignId : Z) :
  (∀ k, Prisma.keyword db !! id = Some k →
        Keyword.campaignId k = campaignId →
        ∃ k' db',
          run (KeywordService.deleteKeyword id campaignId) db = (inr (), db')
          ∧ Prisma.keyword db' !! id = Some k'
          ∧ Keyword.status k' = ARCHIVED
          ∧ Spec.same_fixed_fields k k'
          ∧ Keyword.keywordText k' = Keyword.keywordText k
          ∧ Keyword.matchType k' = Keyword.matchType k
          ∧ Keyword.bid k' = Keyword.bid k
          ∧ Keyword.isNegative k' = Keyword.isNegative k
          ∧ (∀ j, j ≠ id → Prisma.keyword db' !! j = Prisma.keyword db !! j)
          ∧ Prisma.campaign db' = Prisma.campaign db
          ∧ Prisma.adGroup db' = Prisma.adGroup db
          ∧ Prisma.now db' = Prisma.now db
          ∧ run (KeywordService.deleteKeyword id campaignId) db' = (inr (), db'))
  ∧
  ((∀ k, Prisma.keyword db !! id = Some k → Keyword.campaignId k ≠ campaignId) →
   run (KeywordService.deleteKeyword id campaignId) db
   = (inl (NotFoundError "Keyword not found"), db)).
Proof.
  split.
  - intros k Hk <-.
    set (k' := Spec.with_status k ARCHIVED).
    set (db' := Spec.with_keyword db id k' (Prisma.now db)).
    assert (Hk' : Prisma.keyword db' !! id = Some k') by apply lookup_insert_eq.
    exists k', db'.
    split; [by apply run_deleteKeyword |].
    split; [done |].
    split; [done |].
    split; [by repeat split |].
    do 4 (split; [done |]).
    split; [intros j Hj; by apply lookup_insert_ne |].
    do 3 (split; [done |]).
    etrans; [exact (run_deleteKeyword id db' k' Hk') |].
    f_equal. unfold db', Spec.with_keyword. simpl. f_equal.
    apply insert_insert_eq.
  - intros Hnone. apply run_not_found_bind.
    rewrite run_getKeywordById.
    destruct (Prisma.keyword db !! id) as [k |] eqn:Hk; [| done].
    by rewrite (proj2 (Z.eqb_neq _ _) (Hnone k eq_refl)).
Qed.

(** Keyword 1 of the sample database is archived, twice; keyword 2 does
    not exist. *)
Lemma deleteKeyword_archives_witness :
  (∃ k' db',
     run (KeywordService.deleteKeyword 1 1) Sample.db1 = (inr (), db')
     ∧ Prisma.keyword db' !! 1 = Some k'
     ∧ Keyword.status k' = ARCHIVED
     ∧ Keyword.bid k' = Sample.bid_1_50
     ∧ run (KeywordService.deleteKeyword 1 1) db' = (inr (), db'))
  ∧ run (KeywordService.deleteKeyword 2 1) Sample.db1
    = (inl (NotFoundError "Keyword not found"), Sample.db1).
Proof.
  split.
  - destruct (proj1 (deleteKeyword_archives Sample.db1 1 1) Sample.keyword1)
      as (k' & db' & H1 & H2 & H3 & _ & _ & _ & H4 & _ & _ & _ & _ & _ & H5).
    + reflexivity.
    + reflexivity.
    + exists k', db'. repeat split; assumption.
  - apply (proj2 (deleteKeyword_archives Sample.db1 2 1)).
    intros k Hk. vm_compute in Hk. discriminate.
Defined.

(** Whatever updateKeyword answers on a keyword of the campaign, the row
    keeps the fields no request can change and every field the patch does
    not carry; the other rows and tables are untouched. *)
Lemma updateKeyword_keeps_absent_fields (db : Prisma.DB) (id : Z)
    (data : UpdateKeywordDto.t) (k : Keyword.t) :
  Prisma.keyword db !! id = Some k →
  ∃ k',
    Prisma.keyword (run (KeywordService.updateKeyword id (Keyword.campaignId k) data) db).2
      !! id = Some k'
    ∧ Spec.same_fixed_fields k k'
    ∧ (UpdateKeywordDto.keywordText data = None →
       Keyword.keywordText k' = Keyword.keywordText k)
    ∧ (UpdateKeywordDto.matchType data = None →
       Keyword.matchType k' = Keyword.matchType k)
    ∧ (UpdateKeywordDto.bid data = None → Keyword.bid k' = Keyword.bid k)
    ∧ (UpdateKeywordDto.status data = None → Keyword.status k' = Keyword.status k)
    ∧ (UpdateKeywordDto.isNegative data = None →
       Keyword.isNegative k' = Keyword.isNegative k)
    ∧ (∀ j, j ≠ id →
         Prisma.keyword
           (run (KeywordService.updateKeyword id (Keyword.campaignId k) data) db).2 !! j
         = Prisma.keyword db !! j)
    ∧ Prisma.campaign
        (run (KeywordService.updateKeyword id (Keyword.campaignId k) data) db).2
      = Prisma.campaign db
    ∧ Prisma.adGroup
        (run (KeywordService.updateKeyword id (Keyword.campaignId k) data) db).2
      = Prisma.adGroup db.
Proof.
  intros Hk. rewrite (run_updateKeyword _ _ _ _ Hk).
  destruct (match UpdateKeywordDto.bid data with Some _ => _ | None => _ end).
  { exists k. by repeat split. }
  destruct (Spec.blank_text data).
  { exists k. by repeat split. }
  exists (Prisma.apply_update (Spec.updateKeyword_input data) k).
  split; [apply lookup_insert_eq |].
  split; [by repeat split |].
  simpl.
  repeat split; try (by intros ->).
  intros j Hj. by apply lookup_insert_ne.
Qed.

(** C6. An updateKeyword call with the patch [{bid: b}] on a keyword of
    the campaign leaves the text, match type, status, negative flag,
    campaign, ad group and counters of the stored row as they were, and
    stores the bid when the call succeeds; in general every field that the
    patch does not carry keeps its value. *)
Theorem updateKeyword_partial (db : Prisma.DB) (id : Z) (k : Keyword.t) :
  Prisma.keyword db !! id = Some k →
  (∀ b, ∃ k',
     Prisma.keyword
       (run (KeywordService.updateKeyword id (Keyword.campaignId k) (Spec.only_bid b)) db).2
       !! id = Some k'
     ∧ Keyword.keywordText k' = Keyword.keywordText k
     ∧ Keyword.matchType k' = Keyword.matchType k
     ∧ Keyword.status k' = Keyword.status k
     ∧ Keyword.isNegative k' = Keyword.isNegative k
     ∧ Keyword.campaignId k' = Keyword.campaignId k
     ∧ Keyword.adGroupId k' = Keyword.adGroupId k
     ∧ Keyword.impressions k' = Keyword.impressions k
     ∧ Keyword.clicks k' = Keyword.clicks k
     ∧ Keyword.conversions k' = Keyword.conversions k
     ∧ Keyword.spend k' = Keyword.spend k
     ∧ Keyword.sales k' = Keyword.sales k
     ∧ (∀ r db',
          run (KeywordService.updateKeyword id (Keyword.campaignId k) (Spec.only_bid b)) db
          = (inr r, db') → r = k' ∧ Keyword.bid k' = b))
  ∧
  (∀ data, ∃ k',
     Prisma.keyword
       (run (KeywordService.updateKeyword id (Keyword.campaignId k) data) db).2
       !! id = Some k'
     ∧ Spec.same_fixed_fields k k'
     ∧ (UpdateKeywordDto.keywordText data = None →
        Keyword.keywordText k' = Keyword.keywordText k)
     ∧ (UpdateKeywordDto.matchType data = None →
        Keyword.matchType k' = Keyword.matchType k)
     ∧ (UpdateKeywordDto.bid data = None → Keyword.bid k' = Keyword.bid k)
     ∧ (UpdateKeywordDto.status data = None → Keyword.status k' = Keyword.status k)
     ∧ (UpdateKeywordDto.isNegative data = None →
        Keyword.isNegative k' = Keyword.isNegative k)).
Proof.
  intros Hk. split.
  - intros b.
    destruct (updateKeyword_keeps_absent_fields db id (Spec.only_bid b) k Hk)
      as (k' & Hk' & Hfix & Ht & Hm & _ & Hs & Hn & _).
    destruct Hfix as (_ & ? & ? & ? & ? & ? & ? & ? & _).
    exists k'. split; [done |].
    split; [by apply Ht |]. split; [by apply Hm |].
    split; [by apply Hs |]. split; [by apply Hn |].
    do 7 (split; [done |]).
    intros r db' Hrun. rewrite Hrun in Hk'. simpl in Hk'.
    rewrite (run_updateKeyword _ _ _ _ Hk) in Hrun. simpl in Hrun.
    destruct (Spec.bid_rejected _ b); [done |].
    injection Hrun as <- <-. simpl in Hk'.
    rewrite lookup_insert_eq in Hk'. by injection Hk' as <-.
  - intros data.
    destruct (updateKeyword_keeps_absent_fields db id data k Hk)
      as (k' & ? & ? & ? & ? & ? & ? & ? & _).
    exists k'. repeat (split; [assumption |]). assumption.
Qed.

(** Keyword 1 of the sample database after the patch [{bid: 5}]. *)
Lemma updateKeyword_partial_witness :
  ∃ k',
    Prisma.keyword (run (KeywordService.updateKeyword 1 1 (Spec.only_bid (JS.ofZ 5)))
                        Sample.db1).2 !! 1 = Some k'
    ∧ Keyword.keywordText k' = "running shoes"
    ∧ Keyword.matchType k' = EXACT
    ∧ Keyword.status k' = ACTIVE.
Proof.
  destruct (proj1 (updateKeyword_partial Sample.db1 1 Sample.keyword1 eq_refl) (JS.ofZ 5))
    as (k' & H1 & H2 & H3 & H4 & _).
  exists k'. repeat split; assumption.
Defined.

(** ** Listings and the keyword slice *)

Lemma run_getCampaignKeywords (campaignId : Z) (filters : option KeywordFilters.t)
    (db : Prisma.DB) :
  ∃ l, run (KeywordService.getCampaignKeywords campaignId filters) db = (inr l, db)
       ∧ ∀ k, k ∈ l ↔
              (∃ i, Prisma.keyword db !! i = Some k)
              ∧ Prisma.where_matches
                  {| Prisma.w_campaignId := campaignId;
                     Prisma.w_adGroupId :=
                       a ← (filters ≫= KeywordFilters.adGroupId);
                       if JS.truthy_int a then Some a else None;
                     Prisma.w_matchType := filters ≫= KeywordFilters.matchType;
                     Prisma.w_status := filters ≫= KeywordFilters.status;
                     Prisma.w_isNegative := filters ≫= KeywordFilters.isNegative |} k
                = true.
Proof.
  eexists. split; [reflexivity |].
  intros k. rewrite merge_sort_Permutation, list_elem_of_filter, list_elem_of_fmap.
  split.
  - intros [Hm ([i k'] & -> & Hin)]. apply elem_of_map_to_list in Hin. eauto.
  - intros [[i Hi] Hm]. split; [done |].
    exists (i, k). split; [done |]. by apply elem_of_map_to_list.
Qed.

(** C10. In the keyword slice, a fulfilled deleteKeyword action leaves in
    [state.keywords] exactly the keywords with another identifier, in their
    order, and clears [loading]; on the server, deleteKeyword keeps the row,
    archived, and a listing of the campaign without filters still has it. *)
Theorem deleteKeyword_fulfilled_removes :
  (∀ (state : KeywordSlice.KeywordState) (id : Z),
     KeywordSlice.keywords
       (KeywordSlice.reducer state (KeywordSlice.deleteKeyword_fulfilled id))
     = List.filter (λ k, negb (KeywordSlice.Keyword.id k =? id))
         (KeywordSlice.keywords state)
     ∧ (∀ k, k ∈ KeywordSlice.keywords
                   (KeywordSlice.reducer state (KeywordSlice.deleteKeyword_fulfilled id)) ↔
             k ∈ KeywordSlice.keywords state ∧ KeywordSlice.Keyword.id k ≠ id)
     ∧ KeywordSlice.loading
         (KeywordSlice.reducer state (KeywordSlice.deleteKeyword_fulfilled id)) = false
     ∧ KeywordSlice.selectedKeyword
         (KeywordSlice.reducer state (KeywordSlice.deleteKeyword_fulfilled id))
       = KeywordSlice.selectedKeyword state
     ∧ KeywordSlice.error
         (KeywordSlice.reducer state (KeywordSlice.deleteKeyword_fulfilled id))
       = KeywordSlice.error state)
  ∧
  (∀ (db : Prisma.DB) (id : Z) (k : Keyword.t),
     Prisma.keyword db !! id = Some k →
     ∃ db' l,
       run (KeywordService.deleteKeyword id (Keyword.campaignId k)) db = (inr (), db')
       ∧ Prisma.keyword db' !! id = Some (Spec.with_status k ARCHIVED)
       ∧ Keyword.status (Spec.with_status k ARCHIVED) = ARCHIVED
       ∧ run (KeywordService.getCampaignKeywords (Keyword.campaignId k) None) db'
         = (inr l, db')
       ∧ Spec.with_status k ARCHIVED ∈ l).
Proof.
  split.
  - intros state id. simpl.
    split; [done |]. split; [| done].
    intros k. rewrite !list_elem_of_In, filter_In, negb_true_iff, Z.eqb_neq. done.
  - intros db id k Hk.
    set (db' := Spec.with_keyword db id (Spec.with_status k ARCHIVED) (Prisma.now db)).
    destruct (run_getCampaignKeywords (Keyword.campaignId k) None db') as (l & Hl & Hin).
    exists db', l.
    split; [by apply run_deleteKeyword |].
    split; [apply lookup_insert_eq |].
    split; [done |]. split; [done |].
    apply Hin. split.
    + exists id. apply lookup_insert_eq.
    + unfold Prisma.where_matches. simpl. by rewrite Z.eqb_refl.
Qed.

(** Keyword 1 of the sample database is listed, archived, after its
    deletion. *)
Lemma deleteKeyword_fulfilled_removes_witness :
  ∃ db' l,
    run (KeywordService.deleteKeyword 1 1) Sample.db1 = (inr (), db')
    ∧ Prisma.keyword db' !! 1 = Some (Spec.with_status Sample.keyword1 ARCHIVED)
    ∧ run (KeywordService.getCampaignKeywords 1 None) db' = (inr l, db')
    ∧ Spec.with_status Sample.keyword1 ARCHIVED ∈ l.
Proof.
  destruct (proj2 deleteKeyword_fulfilled_removes Sample.db1 1 Sample.keyword1 eq_refl)
    as (db' & l & H1 & H2 & _ & H3 & H4).
  exists db', l. repeat split; assumption.
Defined.

(** ** getKeywordStats *)

Lemma nearest_hundredths_nearest (m : positive) (e : Z) :
  Spec.nearest_hundredths_of (JS.nearest_hundredths m e) m e.
Proof.
  unfold Spec.nearest_hundredths_of, JS.nearest_hundredths. cbv zeta.
  destruct e as [| p | p].
  - change (Z.max (- 0) 0) with 0. change (Z.max 0 0) with 0.
    change (2 ^ 0) with 1. lia.
  - change (Z.max (- Z.pos p) 0) with 0. change (Z.max (Z.pos p) 0) with (Z.pos p).
    change (2 ^ 0) with 1. lia.
  - change (Z.max (Z.neg p) 0) with 0. change (Z.max (- Z.neg p) 0) with (Z.pos p).
    change (2 ^ 0) with 1.
    assert (HD : 0 < 2 ^ Z.pos p) by (apply Z.pow_pos_nonneg; lia).
    rewrite Z.pow_add_r by lia. change (2 ^ 1) with 2.
    set (D := 2 ^ Z.pos p) in *.
    pose proof (Z.div_mod (200 * Z.pos m + D) (D * 2) ltac:(lia)) as Hdm.
    pose proof (Z.mod_pos_bound (200 * Z.pos m + D) (D * 2) ltac:(lia)) as Hb.
    set (q := (200 * Z.pos m + D) / (D * 2)) in *.
    nia.
Qed.

Lemma run_getKeywordStats (db : Prisma.DB) (id : Z) (k : Keyword.t) :
  Prisma.keyword db !! id = Some k →
  run (KeywordService.getKeywordStats id (Keyword.campaignId k)) db
  = (inr (KeywordService.keywordStats k), db).
Proof.
  intros H. unfold KeywordService.getKeywordStats.
  by rewrite run_bind, (run_getKeywordById_found _ _ _ H).
Qed.

(** A decimal that is not above zero is not above zero as a number. *)
Lemma toNumber_not_positive (d : Decimal.t) :
  Decimal.coef d ≤ 0 → JS.gt (Decimal.toNumber d) (JS.ofZ 0) = false.
Proof.
  unfold Decimal.toNumber. destruct (Decimal.coef d) as [| m | m]; [done | lia |].
  intros _. unfold JS.div, SFdiv.
  destruct (SFdiv_core_binary _ _ _ _ _ _) as [[mz ez] lz].
  unfold binary_round_aux.
  destruct (shr_fexp _ _ mz ez lz) as [mrs' e'].
  destruct (shr_fexp _ _ _ e' loc_Exact) as [mrs'' e''].
  destruct (shr_m mrs''); [done | | done].
  by destruct (e'' <=? _).
Qed.

(** C8, as stated, fails: with spend 10^21 and one click, the cost per
    click is rendered in exponent notation, not with two decimals. *)
Lemma keywordStats_exponent_notation :
  KeywordStats.cpc
    (KeywordService.keywordStats
       (Sample.with_counters 1 1 0 (Decimal.mk (10 ^ 21) 0) (Decimal.mk 1 0)))
  = "1e+21".
Proof. vm_compute. reflexivity. Qed.

(** C8, as the code has it. Each ratio of getKeywordStats is ["0.00"] when
    its guard fails and the [toFixed(2)] of the quotient otherwise; a
    counter that is not above zero makes the guard fail. [toFixed(2)] of a
    finite number below 10^21 in magnitude is the numeral with two decimals
    of the nearest hundredth. getKeywordStats on a keyword of the campaign
    does not fail. The two snapshots of the specification give the strings
    it lists. *)
Theorem keywordStats_ratios :
  (∀ k : Keyword.t,
     KeywordStats.ctr (KeywordService.keywordStats k)
     = (if 0 <? Keyword.impressions k
        then JS.toFixed2 (JS.mul (JS.div (JS.ofZ (Keyword.clicks k))
                                         (JS.ofZ (Keyword.impressions k)))
                                 (JS.ofZ 100))
        else "0.00")
     ∧ KeywordStats.cvr (KeywordService.keywordStats k)
       = (if 0 <? Keyword.clicks k
          then JS.toFixed2 (JS.mul (JS.div (JS.ofZ (Keyword.conversions k))
                                           (JS.ofZ (Keyword.clicks k)))
                                   (JS.ofZ 100))
          else "0.00")
     ∧ KeywordStats.cpc (KeywordService.keywordStats k)
       = (if 0 <? Keyword.clicks k
          then JS.toFixed2 (JS.div (Decimal.toNumber (Keyword.spend k))
                                   (JS.ofZ (Keyword.clicks k)))
          else "0.00")
     ∧ KeywordStats.acos (KeywordService.keywordStats k)
       = (if JS.gt (Decimal.toNumber (Keyword.sales k)) (JS.ofZ 0)
          then JS.toFixed2 (JS.mul (JS.div (Decimal.toNumber (Keyword.spend k))
                                           (Decimal.toNumber (Keyword.sales k)))
                                   (JS.ofZ 100))
          else "0.00"))
  ∧ (∀ k : Keyword.t,
       (Keyword.impressions k ≤ 0 →
        KeywordStats.ctr (KeywordService.keywordStats k) = "0.00")
       ∧ (Keyword.clicks k ≤ 0 →
          KeywordStats.cvr (KeywordService.keywordStats k) = "0.00"
          ∧ KeywordStats.cpc (KeywordService.keywordStats k) = "0.00")
       ∧ (Decimal.coef (Keyword.sales k) ≤ 0 →
          KeywordStats.acos (KeywordService.keywordStats k) = "0.00"))
  ∧ (∀ (s : bool) (m : positive) (e : Z),
       JS.at_least_1e21 m e = false →
       ∃ n, Spec.nearest_hundredths_of n m e
            ∧ JS.toFixed2 (S754_finite s m e)
              = (if s then "-" else "") +:+ JS.digits (n / 100) +:+ "."
                +:+ JS.digits (n / 10 mod 10) +:+ JS.digits (n mod 10))
  ∧ (∀ (db : Prisma.DB) (id : Z) (k : Keyword.t),
       Prisma.keyword db !! id = Some k →
       run (KeywordService.getKeywordStats id (Keyword.campaignId k)) db
       = (inr (KeywordService.keywordStats k), db))
  ∧ (let s := KeywordService.keywordStats
                (Sample.with_counters 1000 50 5 (Decimal.mk 2500 2) (Decimal.mk 10000 2)) in
     KeywordStats.ctr s = "5.00" ∧ KeywordStats.cvr s = "10.00"
     ∧ KeywordStats.cpc s = "0.50" ∧ KeywordStats.acos s = "25.00")
  ∧ (let s := KeywordService.keywordStats
                (Sample.with_counters 0 0 0 (Decimal.mk 0 0) (Decimal.mk 0 0)) in
     KeywordStats.ctr s = "0.00" ∧ KeywordStats.cvr s = "0.00"
     ∧ KeywordStats.cpc s = "0.00" ∧ KeywordStats.acos s = "0.00").
Proof.
  split; [by intros k |].
  split.
  { intros k. simpl. split; [| split].
    - intros H. by rewrite (proj2 (Z.ltb_ge _ _) H).
    - intros H. by rewrite (proj2 (Z.ltb_ge _ _) H).
    - intros H. by rewrite (toNumber_not_positive _ H). }
  split.
  { intros s m e H. exists (JS.nearest_hundredths m e).
    split; [apply nearest_hundredths_nearest |].
    unfold JS.toFixed2. rewrite H. reflexivity. }
  split; [apply run_getKeywordStats |].
  split; vm_compute; done.
Qed.

(** Keyword 1 of the sample database: its statistics are returned; with
    no clicks two ratios are ["0.00"]; one half is rendered ["0.50"]. *)
Lemma keywordStats_ratios_witness :
  run (KeywordService.getKeywordStats 1 1) Sample.db1
  = (inr (KeywordService.keywordStats Sample.keyword1), Sample.db1)
  ∧ (KeywordStats.cvr (KeywordService.keywordStats Sample.keyword1) = "0.00"
     ∧ KeywordStats.cpc (KeywordService.keywordStats Sample.keyword1) = "0.00")
  ∧ ∃ n, Spec.nearest_hundredths_of n 1 (-1)
         ∧ JS.toFixed2 (S754_finite false 1 (-1))
           = "" +:+ JS.digits (n / 100) +:+ "."
             +:+ JS.digits (n / 10 mod 10) +:+ JS.digits (n mod 10).
Proof.
  split; [| split].
  - apply (proj1 (proj2 (proj2 (proj2 keywordStats_ratios))) Sample.db1 1 Sample.keyword1).
    reflexivity.
  - apply (proj1 (proj2 (proj1 (proj2 keywordStats_ratios) Sample.keyword1))).
    vm_compute. discriminate.
  - apply (proj1 (proj2 (proj2 keywordStats_ratios)) false 1%positive (-1)).
    reflexivity.
Defined.

(** ** bulkCreateKeywords *)

Lemma createKeyword_rejection_tables (d : CreateKeywordDto.t) (db db' : Prisma.DB) :
  Prisma.campaign db' = Prisma.campaign db →
  Prisma.adGroup db' = Prisma.adGroup db →
  Spec.createKeyword_rejection d db' = Spec.createKeyword_rejection d db.
Proof. unfold Spec.createKeyword_rejection. by intros -> ->. Qed.

(** A createKeyword call has failed one of its first two checks or is
    suspended on the campaign lookup. *)
Lemma createKeyword_shape (d : CreateKeywordDto.t) :
  match KeywordService.createKeyword d with
  | Return _ => False
  | Throw e => ∀ db, Spec.createKeyword_rejection d db = Some e
  | Await _ _ => Spec.reads_then_creates (KeywordService.createKeyword d)
  end.
Proof.
  unfold KeywordService.createKeyword, Spec.createKeyword_rejection.
  destruct (negb _ && _); [done |].
  destruct (negb (JS.truthy_string _)); [done |].
  simpl. intros [c |]; simpl; [| done].
  destruct (CreateKeywordDto.adGroupId d) as [a |]; simpl; [| done].
  destruct (JS.truthy_int a); simpl; [| done].
  intros [g |]; simpl; [| done].
  by destruct (negb _).
Qed.

Lemma call_inv_init (db : Prisma.DB) (d : CreateKeywordDto.t) :
  Spec.call_inv db db d (KeywordService.createKeyword d).
Proof.
  pose proof (createKeyword_shape d) as H. unfold Spec.call_inv.
  destruct (KeywordService.createKeyword d); [done | apply H | done].
Qed.

Lemma rejection_of_run (d : CreateKeywordDto.t) (db : Prisma.DB) (e : AppError)
    (db' : Prisma.DB) :
  run (KeywordService.createKeyword d) db = (inl e, db') →
  Spec.createKeyword_rejection d db = Some e.
Proof.
  rewrite run_createKeyword.
  destruct (Spec.createKeyword_rejection d db); [| done]. by intros [= ->].
Qed.

Lemma created_of_run (d : CreateKeywordDto.t) (db : Prisma.DB) (k : Keyword.t)
    (db' : Prisma.DB) :
  run (KeywordService.createKeyword d) db = (inr k, db') →
  Spec.createKeyword_rejection d db = None
  ∧ k = Prisma.new_keyword (Prisma.next_id (Prisma.keyword db)) (Prisma.now db)
          (Spec.createKeyword_input d).
Proof.
  rewrite run_createKeyword.
  destruct (Spec.createKeyword_rejection d db); [done |]. by intros [= <-].
Qed.

Lemma rejection_inv_all (ps : list (Async Keyword.t)) :
  Spec.rejection_inv (Promise.all ps).
Proof.
  unfold Spec.rejection_inv, Promise.all. simpl.
  destruct (head (omap Promise.thrown ps)) as [e |] eqn:E.
  - apply head_Some_elem_of, list_elem_of_omap in E as (p & Hp & Hthrown).
    destruct p; try discriminate. injection Hthrown as ->.
    by apply list_elem_of_lookup.
  - apply head_None in E. intros i e Hi.
    assert (He : e ∈ omap Promise.thrown ps).
    { apply list_elem_of_omap. exists (Throw e).
      split; [by eapply list_elem_of_lookup_2 | done]. }
    rewrite E in He. by apply not_elem_of_nil in He.
Qed.

(** The invariant holds when the calls have just been started. *)
Lemma bulk_inv_init (db : Prisma.DB) (ds : list CreateKeywordDto.t) :
  Spec.bulk_inv db ds (db, Promise.all (KeywordService.createKeyword <$> ds)).
Proof.
  unfold Spec.bulk_inv. simpl.
  split; [done |]. split; [done |]. split; [done |].
  split.
  { apply Forall2_fmap_r, Forall_Forall2_diag, Forall_forall.
    intros d _. apply call_inv_init. }
  split; [| apply rejection_inv_all].
  intros i j k k' _ Hi _.
  apply list_lookup_fmap_Some in Hi as (d & Hd & _).
  pose proof (createKeyword_shape d) as H. by rewrite <- Hd in H.
Qed.

(** The calls started on the database [db0] for the requests [ds]. *)
Section BulkInvariant.

Context (db0 : Prisma.DB) (ds : list CreateKeywordDto.t).

(** Reading a list at the position just written. *)
Ltac inserted := rewrite list_lookup_insert_eq by (by eapply lookup_lt_Some).
Ltac inserted_in H := rewrite list_lookup_insert_eq in H by (by eapply lookup_lt_Some).

(** The invariant of a call does not depend on the keyword table, as long
    as rows stay. *)
Lemma call_inv_rows (db db' : Prisma.DB) (d : CreateKeywordDto.t)
    (p : Async Keyword.t) :
  (∀ j k, Prisma.keyword db !! j = Some k → Prisma.keyword db' !! j = Some k) →
  Spec.call_inv db0 db d p → Spec.call_inv db0 db' d p.
Proof.
  intros Hrows. destruct p; simpl; [| done | done].
  intros (? & ? & ? & ?). eauto.
Qed.

(** Resuming a call in flight on a database with the campaigns and ad
    groups of the start keeps its invariant; the database gains at most the
    row the call creates. *)
Lemma call_inv_resume (db : Prisma.DB) (d : CreateKeywordDto.t) (X : Type)
    (op : Prisma.Op X) (k : X → Async Keyword.t) :
  Prisma.campaign db = Prisma.campaign db0 →
  Prisma.adGroup db = Prisma.adGroup db0 →
  (∀ j r, Prisma.keyword db0 !! j = Some r → Prisma.keyword db !! j = Some r) →
  Spec.call_inv db0 db d (Await op k) →
  ∃ x db',
    Prisma.perform op db = (inr x, db')
    ∧ Spec.call_inv db0 db' d (k x)
    ∧ Prisma.campaign db' = Prisma.campaign db
    ∧ Prisma.adGroup db' = Prisma.adGroup db
    ∧ (db' = db ∧ Promise.value (k x) = None
       ∨ ∃ r, k x = Return r
              ∧ Prisma.keyword db !! Keyword.id r = None
              ∧ Prisma.keyword db' = <[Keyword.id r := r]> (Prisma.keyword db)).
Proof.
  intros Hc Ha Hrows [Hshape Hrun].
  destruct op as [c | a | input | | |]; simpl in Hshape; try done.
  - exists (Prisma.campaign db !! c), db.
    split; [done |].
    specialize (Hshape (Prisma.campaign db !! c)).
    split; [| split; [done | split; [done | left; split; [done |]]]];
      [| by destruct (k (Prisma.campaign db !! c))].
    assert (Hk : ∀ db1, Prisma.campaign db1 = Prisma.campaign db0 →
                        Prisma.adGroup db1 = Prisma.adGroup db0 →
                        run (k (Prisma.campaign db !! c)) db1
                        = run (KeywordService.createKeyword d) db1).
    { intros db1 H1 H2. rewrite <- (Hrun db1 H1 H2). simpl. by rewrite H1, Hc. }
    destruct (k (Prisma.campaign db !! c)) as [r | e | Y op' k'] eqn:E.
    + done.
    + simpl. eapply rejection_of_run. symmetry. by apply Hk.
    + split; [done | exact Hk].
  - exists (Prisma.adGroup db !! a), db.
    split; [done |].
    specialize (Hshape (Prisma.adGroup db !! a)).
    split; [| split; [done | split; [done | left; split; [done |]]]];
      [| by destruct (k (Prisma.adGroup db !! a))].
    assert (Hk : ∀ db1, Prisma.campaign db1 = Prisma.campaign db0 →
                        Prisma.adGroup db1 = Prisma.adGroup db0 →
                        run (k (Prisma.adGroup db !! a)) db1
                        = run (KeywordService.createKeyword d) db1).
    { intros db1 H1 H2. rewrite <- (Hrun db1 H1 H2). simpl. by rewrite H2, Ha. }
    destruct (k (Prisma.adGroup db !! a)) as [r | e | Y op' k'] eqn:E.
    + done.
    + simpl. eapply rejection_of_run. symmetry. by apply Hk.
    + split; [done | exact Hk].
  - set (r := Prisma.new_keyword (Prisma.next_id (Prisma.keyword db)) (Prisma.now db) input).
    specialize (Hrun db Hc Ha). simpl in Hrun. rewrite Hshape in Hrun. simpl in Hrun.
    symmetry in Hrun. apply created_of_run in Hrun as [Hrej Hr].
    eexists r, _. split; [done |].
    rewrite Hshape.
    assert (Hfresh : Prisma.keyword db !! Keyword.id r = None) by apply next_id_fresh.
    split; [| split; [done | split; [done |]]].
    + simpl. split; [apply lookup_insert_eq |].
      split.
      { destruct (Prisma.keyword db0 !! Prisma.next_id (Prisma.keyword db)) eqn:E; [| done].
        apply Hrows in E. simpl in Hfresh. congruence. }
      split; [by rewrite <- (createKeyword_rejection_tables d db0 db) |].
      done.
    + right. exists r. done.
Qed.

(** Every step of an execution keeps the invariant. *)
Lemma bulk_inv_step (i : nat) (st st' : Prisma.DB * Promise.All Keyword.t) :
  Spec.bulk_inv db0 ds st → Promise.step i st = Some st' → Spec.bulk_inv db0 ds st'.
Proof.
  destruct st as [db a]. unfold Promise.step.
  destruct (Promise.promises a !! i) as [[r | e | X op k] |] eqn:Hi; try done.
  intros (Hc & Ha & Hrows & Hcalls & Hdist & Hrej). simpl in *.
  destruct (Forall2_lookup_r _ _ _ _ _ Hcalls Hi) as (d & Hd & Hcall).
  destruct (call_inv_resume db d X op k Hc Ha Hrows Hcall)
    as (x & db' & Hperf & Hinv' & Hc' & Ha' & Hcases).
  rewrite Hperf. intros [= <-].
  assert (Hkeep : ∀ j r, Prisma.keyword db !! j = Some r →
                         Prisma.keyword db' !! j = Some r).
  { destruct Hcases as [[-> _] | (r & _ & Hfresh & ->)]; [done |].
    intros j r' Hj. rewrite lookup_insert_ne; [done | congruence]. }
  assert (Hnew : ∀ r j r', k x = Return r → j ≠ i →
                           Promise.promises a !! j = Some (Return r') →
                           Keyword.id r ≠ Keyword.id r').
  { intros r j r' Hr Hj Hj'.
    destruct Hcases as [[_ Hv] | (r0 & Hr0 & Hfresh & _)]; [by rewrite Hr in Hv |].
    rewrite Hr in Hr0. injection Hr0 as <-.
    destruct (Forall2_lookup_r _ _ _ _ _ Hcalls Hj') as (d' & _ & Hin & _).
    congruence. }
  unfold Spec.bulk_inv. simpl.
  split; [congruence |]. split; [congruence |].
  split; [by eauto |].
  split.
  { rewrite <- (list_insert_id ds i d Hd).
    apply Forall2_insert; [| done].
    eapply Forall2_impl; [exact Hcalls |].
    intros d' p'. by apply call_inv_rows. }
  split.
  { intros i1 i2 k1 k2 Hne H1 H2.
    destruct (decide (i1 = i)) as [-> | Hn1]; destruct (decide (i2 = i)) as [-> | Hn2];
      [done | | |].
    - inserted_in H1.
      rewrite list_lookup_insert_ne in H2 by done.
      injection H1 as H1. exact (Hnew k1 i2 k2 H1 Hn2 H2).
    - rewrite list_lookup_insert_ne in H1 by done.
      inserted_in H2.
      injection H2 as H2. apply not_eq_sym. exact (Hnew k2 i1 k1 H2 Hn1 H1).
    - rewrite list_lookup_insert_ne in H1, H2 by done.
      exact (Hdist i1 i2 k1 k2 Hne H1 H2). }
  unfold Spec.rejection_inv in *. simpl.
  destruct (Promise.rejection a) as [e |].
  - destruct Hrej as [j Hj]. exists j.
    rewrite list_lookup_insert_ne; [done |]. intros <-. congruence.
  - destruct (k x) as [r | e | Y op' k'] eqn:E; simpl.
    + intros j e. destruct (decide (j = i)) as [-> | Hn].
      * by inserted.
      * rewrite list_lookup_insert_ne by done. apply Hrej.
    + exists i. by inserted.
    + intros j e. destruct (decide (j = i)) as [-> | Hn].
      * by inserted.
      * rewrite list_lookup_insert_ne by done. apply Hrej.
Qed.

Lemma bulk_inv_exec (schedule : list nat)
    (st st' : Prisma.DB * Promise.All Keyword.t) :
  Spec.bulk_inv db0 ds st → Promise.exec schedule st = Some st' → Spec.bulk_inv db0 ds st'.
Proof.
  revert st. induction schedule as [| i rest IH]; intros st Hinv; simpl.
  - by intros [= <-].
  - destruct (Promise.step i st) as [st1 |] eqn:Hstep; [| done].
    apply IH. by eapply bulk_inv_step.
Qed.

End BulkInvariant.

Lemma exec_app {A : Type} (s1 s2 : list nat) (st : Prisma.DB * Promise.All A) :
  Promise.exec (s1 ++ s2) st = Promise.exec s1 st ≫= Promise.exec s2.
Proof.
  revert st. induction s1 as [| i s1 IH]; intros st; simpl; [done |].
  destruct (Promise.step i st); [apply IH | done].
Qed.

(** A call can always be resumed until it is settled; the other calls are
    left where they were. *)
Lemma settle_call {A : Type} (p : Async A) :
  ∀ (db : Prisma.DB) (a : Promise.All A) (i : nat),
    Promise.promises a !! i = Some p →
    ∃ schedule db' a',
      Promise.exec schedule (db, a) = Some (db', a')
      ∧ (∃ q, Promise.promises a' !! i = Some q ∧ Promise.settled q = true)
      ∧ (∀ j, j ≠ i → Promise.promises a' !! j = Promise.promises a !! j)
      ∧ length (Promise.promises a') = length (Promise.promises a).
Proof.
  induction p as [x | e | X op k IH]; intros db a i Hi.
  - exists [], db, a. split; [done |]. split; [by exists (Return x) | done].
  - exists [], db, a. split; [done |]. split; [by exists (Throw e) | done].
  - destruct (Prisma.perform op db) as [[e | x] db1] eqn:Hperf.
    + exists [i], db1. eexists. simpl. rewrite Hi, Hperf.
      split; [reflexivity |]. simpl.
      split; [| split].
      * exists (Throw e). split; [| done].
        apply list_lookup_insert_eq. by eapply lookup_lt_Some.
      * intros j Hj. by apply list_lookup_insert_ne.
      * apply length_insert.
    + set (a1 := Promise.mkAll (<[i := k x]> (Promise.promises a))
                   (match Promise.rejection a with
                    | Some e => Some e
                    | None => Promise.thrown (k x)
                    end)).
      assert (Hi1 : Promise.promises a1 !! i = Some (k x)).
      { apply list_lookup_insert_eq. by eapply lookup_lt_Some. }
      destruct (IH x db1 a1 i Hi1) as (schedule & db' & a' & Hexec & Hq & Hothers & Hlen).
      exists (i :: schedule), db', a'. simpl. rewrite Hi, Hperf.
      split; [exact Hexec |]. split; [exact Hq |]. split.
      * intros j Hj. rewrite (Hothers j Hj). simpl. by apply list_lookup_insert_ne.
      * rewrite Hlen. apply length_insert.
Qed.

(** Some execution settles the first [n] calls. *)
Lemma settle_first {A : Type} (n : nat) (db : Prisma.DB) (a : Promise.All A) :
  ∃ schedule db' a',
    Promise.exec schedule (db, a) = Some (db', a')
    ∧ length (Promise.promises a') = length (Promise.promises a)
    ∧ ∀ j q, (j < n)%nat → Promise.promises a' !! j = Some q → Promise.settled q = true.
Proof.
  induction n as [| n (s1 & db1 & a1 & Hexec & Hlen & Hdone)].
  - exists [], db, a. split; [done |]. split; [done |]. intros j q Hj. lia.
  - destruct (Promise.promises a1 !! n) as [p |] eqn:Hn.
    + destruct (settle_call p db1 a1 n Hn)
        as (s2 & db2 & a2 & Hexec2 & (q & Hq & Hset) & Hothers & Hlen2).
      exists (s1 ++ s2), db2, a2. rewrite exec_app, Hexec. simpl.
      split; [exact Hexec2 |]. split; [congruence |].
      intros j q' Hj Hj'.
      destruct (decide (j = n)) as [-> | Hne]; [congruence |].
      rewrite (Hothers j Hne) in Hj'. apply (Hdone j q'); [lia | done].
    + exists s1, db1, a1. split; [done |]. split; [done |].
      intros j q Hj Hj'.
      destruct (decide (j = n)) as [-> | Hne]; [congruence |].
      apply (Hdone j q); [lia | done].
Qed.

Lemma settle_all {A : Type} (db : Prisma.DB) (a : Promise.All A) :
  ∃ schedule db' a',
    Promise.exec schedule (db, a) = Some (db', a') ∧ Promise.all_settled a' = true.
Proof.
  destruct (settle_first (length (Promise.promises a)) db a)
    as (schedule & db' & a' & Hexec & Hlen & Hdone).
  exists schedule, db', a'. split; [done |].
  unfold Promise.all_settled. apply forallb_forall.
  intros q Hq. apply list_elem_of_In, list_elem_of_lookup in Hq as [j Hj].
  apply (Hdone j q); [| done].
  rewrite <- Hlen. by eapply lookup_lt_Some.
Qed.

(** C9. bulkCreateKeywords starts one createKeyword call per entry, and
    the calls do not depend on one another. In every execution, whatever
    the order in which the calls are resumed: a call that is fulfilled has
    inserted its row, which was not there before, stays there whatever
    happens to the other calls, and differs from the rows of the other
    calls; a call is rejected with the error it fails with on its own, and
    fulfilled only if it succeeds on its own; the rows that were there
    before stay. When every call is fulfilled the result is the list of
    the created keywords, entry by entry; when the result is an error, it
    is the error of one of the entries. Some execution settles every
    call. *)
Theorem bulkCreateKeywords_independent (db : Prisma.DB) (data : BulkKeywordDto.t) :
  (∀ (schedule : list nat) (db' : Prisma.DB) (a : Promise.All Keyword.t),
     Promise.exec schedule (db, KeywordService.bulkCreateKeywords data) = Some (db', a) →
     (∀ i d, BulkKeywordDto.keywords data !! i = Some d →
        ∃ p, Promise.promises a !! i = Some p
             ∧ match p with
               | Return k =>
                   Prisma.keyword db' !! Keyword.id k = Some k
                   ∧ Prisma.keyword db !! Keyword.id k = None
                   ∧ k = Prisma.new_keyword (Keyword.id k) (Keyword.createdAt k)
                           (Spec.createKeyword_input d)
                   ∧ ∃ k0 db0, run (KeywordService.createKeyword d) db = (inr k0, db0)
               | Throw e => run (KeywordService.createKeyword d) db = (inl e, db)
               | Await _ _ => True
               end)
     ∧ (∀ i j k k', i ≠ j →
          Promise.promises a !! i = Some (Return k) →
          Promise.promises a !! j = Some (Return k') →
          Keyword.id k ≠ Keyword.id k')
     ∧ (∀ j r, Prisma.keyword db !! j = Some r → Prisma.keyword db' !! j = Some r)
     ∧ Prisma.campaign db' = Prisma.campaign db
     ∧ Prisma.adGroup db' = Prisma.adGroup db
     ∧ (∀ ks, Promise.promises a = Return <$> ks → Promise.result a = Some (inr ks))
     ∧ (∀ e, Promise.result a = Some (inl e) →
          ∃ i d, BulkKeywordDto.keywords data !! i = Some d
                 ∧ run (KeywordService.createKeyword d) db = (inl e, db)))
  ∧
  (∃ (schedule : list nat) (db' : Prisma.DB) (a : Promise.All Keyword.t),
     Promise.exec schedule (db, KeywordService.bulkCreateKeywords data) = Some (db', a)
     ∧ Promise.all_settled a = true).
Proof.
  split; [| apply settle_all].
  intros schedule db' a Hexec.
  pose proof (bulk_inv_exec db (BulkKeywordDto.keywords data) schedule _ _
                (bulk_inv_init db (BulkKeywordDto.keywords data)) Hexec)
    as (Hc & Ha & Hrows & Hcalls & Hdist & Hrej).
  simpl in *.
  assert (Hthrow : ∀ i d e, BulkKeywordDto.keywords data !! i = Some d →
                            Promise.promises a !! i = Some (Throw e) →
                            run (KeywordService.createKeyword d) db = (inl e, db)).
  { intros i d e Hd Hp.
    destruct (Forall2_lookup_r _ _ _ _ _ Hcalls Hp) as (d' & Hd' & Hinv).
    assert (d' = d) as -> by congruence. simpl in Hinv.
    by rewrite run_createKeyword, Hinv. }
  split.
  { intros i d Hd.
    destruct (Forall2_lookup_l _ _ _ _ _ Hcalls Hd) as (p & Hp & Hinv).
    exists p. split; [done |].
    destruct p as [k | e | X op cont]; [| by eapply Hthrow | done].
    destruct Hinv as (Hin & Hnew & Hrejection & Hk).
    split; [done |]. split; [done |]. split; [done |].
    rewrite run_createKeyword, Hrejection. by eexists _, _. }
  split; [exact Hdist |]. split; [exact Hrows |].
  split; [done |]. split; [done |].
  unfold Promise.result, Spec.rejection_inv in *.
  split.
  - intros ks Hks. destruct (Promise.rejection a) as [e |].
    + destruct Hrej as [i Hi]. rewrite Hks in Hi.
      apply list_lookup_fmap_Some in Hi as (k & ? & _). done.
    + rewrite Hks. by rewrite mapM_fmap_Some.
  - intros e. destruct (Promise.rejection a) as [e' |].
    + intros [= ->]. destruct Hrej as [i Hi].
      destruct (Forall2_lookup_r _ _ _ _ _ Hcalls Hi) as (d & Hd & _).
      exists i, d. split; [done |]. by eapply Hthrow.
    + by destruct (mapM Promise.value (Promise.promises a)).
Qed.

(** The sample bulk creation: the second entry is rejected, the first is
    created after the third and is in the database. *)
Lemma bulkCreateKeywords_independent_witness :
  Promise.exec Sample.bulk_schedule
    (Sample.db0, KeywordService.bulkCreateKeywords Sample.bulk_data)
  = Some (Sample.bulk_final.1, Sample.bulk_final.2)
  ∧ Promise.promises Sample.bulk_final.2 !! 1%nat
    = Some (Throw (ValidationError "Bid must be greater than 0"))
  ∧ ∃ k, Promise.promises Sample.bulk_final.2 !! 0%nat = Some (Return k)
         ∧ Prisma.keyword Sample.bulk_final.1 !! Keyword.id k = Some k
         ∧ Keyword.keywordText k = "shoes".
Proof.
  assert (Hexec : Promise.exec Sample.bulk_schedule
                    (Sample.db0, KeywordService.bulkCreateKeywords Sample.bulk_data)
                  = Some (Sample.bulk_final.1, Sample.bulk_final.2))
    by (vm_compute; reflexivity).
  split; [exact Hexec |]. split; [vm_compute; reflexivity |].
  destruct (proj1 (proj1 (bulkCreateKeywords_independent Sample.db0 Sample.bulk_data)
                     Sample.bulk_schedule _ _ Hexec)
              0%nat (Sample.dto 1 (Some 1) "shoes" Sample.bid_1_50 None) eq_refl)
    as (p & Hp & Hmatch).
  vm_compute in Hp. injection Hp as <-.
  destruct Hmatch as (Hin & _ & _ & _).
  eexists. split; [vm_compute; reflexivity |]. split; [exact Hin | reflexivity].
Defined.

(** * Further properties *)

(** ** Listings *)

Lemma MatchType_eqb_eq (a b : MatchType) : MatchType_eqb a b = true ↔ a = b.
Proof. destruct a, b; simpl; split; congruence. Qed.

Lemma Status_eqb_eq (a b : Status) : Status_eqb a b = true ↔ a = b.
Proof. destruct a, b; simpl; split; congruence. Qed.

Lemma opt_matches_spec {A : Type} (eqb : A → A → bool) (w : option A) (x : A) :
  (∀ a b, eqb a b = true ↔ a = b) →
  Prisma.opt_matches eqb w x = true ↔ ∀ v, w = Some v → x = v.
Proof.
  intros Heq. destruct w as [v |]; simpl.
  - rewrite Heq. split; [by intros -> ? [= ->] | intros H; symmetry; by apply H].
  - split; [done | by intros _].
Qed.

(** A row matches a [where] when it has the campaign of the [where] and
    every field that the [where] sets. *)
Lemma where_matches_spec (w : Prisma.KeywordWhereInput) (k : Keyword.t) :
  Prisma.where_matches w k = true ↔
  Keyword.campaignId k = Prisma.w_campaignId w
  ∧ (∀ a, Prisma.w_adGroupId w = Some a → Keyword.adGroupId k = Some a)
  ∧ (∀ m, Prisma.w_matchType w = Some m → Keyword.matchType k = m)
  ∧ (∀ s, Prisma.w_status w = Some s → Keyword.status k = s)
  ∧ (∀ b, Prisma.w_isNegative w = Some b → Keyword.isNegative k = b).
Proof.
  unfold Prisma.where_matches.
  rewrite !andb_true_iff, Z.eqb_eq.
  rewrite (opt_matches_spec MatchType_eqb _ _ MatchType_eqb_eq).
  rewrite (opt_matches_spec Status_eqb _ _ Status_eqb_eq).
  rewrite (opt_matches_spec Bool.eqb _ _ (λ a b, eqb_true_iff a b)).
  assert (Had : match Prisma.w_adGroupId w with
                | Some a => match Keyword.adGroupId k with
                            | Some b => b =? a
                            | None => false
                            end
                | None => true
                end = true
                ↔ ∀ a, Prisma.w_adGroupId w = Some a → Keyword.adGroupId k = Some a).
  { destruct (Prisma.w_adGroupId w) as [a |]; [| by split].
    destruct (Keyword.adGroupId k) as [b |].
    - rewrite Z.eqb_eq. split; [by intros -> ? [= ->] | intros H].
      by injection (H a eq_refl).
    - split; [done | intros H]. by specialize (H a eq_refl). }
  rewrite Had. tauto.
Qed.

Lemma created_after_transitive : Transitive Prisma.created_after.
Proof. unfold Prisma.created_after. intros x y z. lia. Qed.

Lemma created_after_total : Total Prisma.created_after.
Proof. unfold Prisma.created_after. intros x y. lia. Qed.

Lemma StronglySorted_lookup_lt {A : Type} (R : relation A) (l : list A) :
  StronglySorted R l →
  ∀ i j x y, (i < j)%nat → l !! i = Some x → l !! j = Some y → R x y.
Proof.
  induction 1 as [| a l Hl IH Hall]; intros i j x y Hij Hi Hj; [done |].
  destruct j as [| j]; [lia |]. simpl in Hj.
  destruct i as [| i]; simpl in Hi.
  - injection Hi as <-. rewrite Forall_forall in Hall.
    apply Hall. by eapply list_elem_of_lookup_2.
  - apply (IH i j); [lia | done | done].
Qed.

(** The rows that a listing returns, for a [where]: the stored rows that
    match it, the newest first. *)
Lemma findMany_spec (w : Prisma.KeywordWhereInput) (db : Prisma.DB) :
  ∃ l, Prisma.perform (Prisma.keyword_findMany w) db = (inr l, db)
       ∧ (∀ k, k ∈ l ↔ (∃ i, Prisma.keyword db !! i = Some k)
                       ∧ Prisma.where_matches w k = true)
       ∧ (∀ i j x y, (i < j)%nat → l !! i = Some x → l !! j = Some y →
                     Keyword.createdAt y ≤ Keyword.createdAt x).
Proof.
  eexists. split; [reflexivity |]. split.
  - intros k. rewrite merge_sort_Permutation, list_elem_of_filter, list_elem_of_fmap.
    split.
    + intros [Hm ([i k'] & -> & Hin)]. apply elem_of_map_to_list in Hin. eauto.
    + intros [[i Hi] Hm]. split; [done |].
      exists (i, k). split; [done |]. by apply elem_of_map_to_list.
  - apply (StronglySorted_lookup_lt Prisma.created_after).
    apply (@StronglySorted_merge_sort _ _ _ created_after_transitive created_after_total).
Qed.

(** X1. getCampaignKeywords does not change the database and returns
    exactly the stored keywords of the campaign that have every field the
    filters set, where an ad group filter of 0 counts as not set; the list
    is ordered by creation time, the newest first. *)
Theorem getCampaignKeywords_lists (campaignId : Z) (filters : option KeywordFilters.t)
    (db : Prisma.DB) :
  ∃ l,
    run (KeywordService.getCampaignKeywords campaignId filters) db = (inr l, db)
    ∧ (∀ k, k ∈ l ↔
            (∃ i, Prisma.keyword db !! i = Some k)
            ∧ Keyword.campaignId k = campaignId
            ∧ (∀ a, filters ≫= KeywordFilters.adGroupId = Some a → a ≠ 0 →
                    Keyword.adGroupId k = Some a)
            ∧ (∀ m, filters ≫= KeywordFilters.matchType = Some m →
                    Keyword.matchType k = m)
            ∧ (∀ s, filters ≫= KeywordFilters.status = Some s → Keyword.status k = s)
            ∧ (∀ b, filters ≫= KeywordFilters.isNegative = Some b →
                    Keyword.isNegative k = b))
    ∧ (∀ i j x y, (i < j)%nat → l !! i = Some x → l !! j = Some y →
                  Keyword.createdAt y ≤ Keyword.createdAt x).
Proof.
  unfold KeywordService.getCampaignKeywords. cbn [mbind Async_mbind Async_bind await run].
  match goal with
  | |- context [Prisma.keyword_findMany ?w] =>
      destruct (findMany_spec w db) as (l & Hrun & Hin & Hsorted)
  end.
  exists l. rewrite Hrun. split; [done |]. split; [| done].
  intros k. rewrite Hin, where_matches_spec. simpl.
  apply and_iff_compat_l, and_iff_compat_l.
  split; intros (Had & Hrest); (split; [| exact Hrest]).
  - intros a Ha Hnz. apply Had. rewrite Ha. simpl.
    unfold JS.truthy_int. by rewrite (proj2 (Z.eqb_neq a 0) Hnz).
  - intros a Ha. destruct (filters ≫= KeywordFilters.adGroupId) as [a' |]; [| done].
    simpl in Ha. unfold JS.truthy_int in Ha.
    destruct (a' =? 0) eqn:E; [done |]. injection Ha as <-.
    apply Had; [done |]. by apply Z.eqb_neq.
Qed.

(** X2. getNegativeKeywords returns exactly the stored keywords of the
    campaign that are negative, whatever their status, archived ones
    included, and does not change the database. *)
Theorem getNegativeKeywords_lists (campaignId : Z) (db : Prisma.DB) :
  ∃ l,
    run (KeywordService.getNegativeKeywords campaignId) db = (inr l, db)
    ∧ ∀ k, k ∈ l ↔ (∃ i, Prisma.keyword db !! i = Some k)
                   ∧ Keyword.campaignId k = campaignId
                   ∧ Keyword.isNegative k = true.
Proof.
  unfold KeywordService.getNegativeKeywords, KeywordService.getCampaignKeywords.
  cbn [mbind Async_mbind Async_bind await run].
  match goal with
  | |- context [Prisma.keyword_findMany ?w] =>
      destruct (findMany_spec w db) as (l & Hrun & Hin & _)
  end.
  exists l. rewrite Hrun. split; [done |].
  intros k. rewrite Hin, where_matches_spec. simpl.
  apply and_iff_compat_l, and_iff_compat_l.
  split.
  - intros (_ & _ & _ & H). by apply H.
  - intros H. repeat split; try done. by intros b [= <-].
Qed.

(** ** Calls of the service run alone *)

Lemma with_keyword_same (db : Prisma.DB) (i : Z) (k : Keyword.t) :
  Prisma.keyword db !! i = Some k → Spec.with_keyword db i k (Prisma.now db) = db.
Proof.
  intros H. destruct db as [c a kw n]. unfold Spec.with_keyword. simpl in *.
  f_equal. by apply insert_id.
Qed.

Lemma with_keyword_twice (db : Prisma.DB) (i : Z) (k k' : Keyword.t) (t : Z) :
  Spec.with_keyword (Spec.with_keyword db i k t) i k' t = Spec.with_keyword db i k' t.
Proof. unfold Spec.with_keyword. simpl. f_equal. apply insert_insert_eq. Qed.

(** What updateKeyword does on any arguments. *)
Lemma run_updateKeyword_cases (id campaignId : Z) (data : UpdateKeywordDto.t)
    (db : Prisma.DB) :
  run (KeywordService.updateKeyword id campaignId data) db
  = (inl (NotFoundError "Keyword not found"), db)
  ∨ ∃ k, Prisma.keyword db !! id = Some k
         ∧ Keyword.campaignId k = campaignId
         ∧ run (KeywordService.updateKeyword id campaignId data) db
           = if match UpdateKeywordDto.bid data with
                | Some b => Spec.bid_rejected (Spec.willBeNegative data k) b
                | None => false
                end
             then (inl (ValidationError "Bid must be greater than 0"), db)
             else if Spec.blank_text data
             then (inl (ValidationError "Keyword text cannot be empty"), db)
             else (inr (Prisma.apply_update (Spec.updateKeyword_input data) k),
                   Spec.with_keyword db id
                     (Prisma.apply_update (Spec.updateKeyword_input data) k)
                     (Prisma.now db)).
Proof.
  destruct (Prisma.keyword db !! id) as [k |] eqn:Hk.
  - destruct (decide (Keyword.campaignId k = campaignId)) as [<- | Hne].
    + right. exists k. split; [done |]. split; [done |]. by apply run_updateKeyword.
    + left. apply run_not_found_bind.
      by rewrite run_getKeywordById, Hk, (proj2 (Z.eqb_neq _ _) Hne).
  - left. apply run_not_found_bind. by rewrite run_getKeywordById, Hk.
Qed.

(** What deleteKeyword does on any arguments. *)
Lemma run_deleteKeyword_cases (id campaignId : Z) (db : Prisma.DB) :
  run (KeywordService.deleteKeyword id campaignId) db
  = (inl (NotFoundError "Keyword not found"), db)
  ∨ ∃ k, Prisma.keyword db !! id = Some k
         ∧ Keyword.campaignId k = campaignId
         ∧ run (KeywordService.deleteKeyword id campaignId) db
           = (inr (), Spec.with_keyword db id (Spec.with_status k ARCHIVED) (Prisma.now db)).
Proof.
  destruct (Prisma.keyword db !! id) as [k |] eqn:Hk.
  - destruct (decide (Keyword.campaignId k = campaignId)) as [<- | Hne].
    + right. exists k. split; [done |]. split; [done |]. by apply run_deleteKeyword.
    + left. apply run_not_found_bind.
      by rewrite run_getKeywordById, Hk, (proj2 (Z.eqb_neq _ _) Hne).
  - left. apply run_not_found_bind. by rewrite run_getKeywordById, Hk.
Qed.

Lemma createKeyword_rejection_kind (data : CreateKeywordDto.t) (db : Prisma.DB)
    (e : AppError) :
  Spec.createKeyword_rejection data db = Some e →
  ∃ m, e = ValidationError m ∨ e = NotFoundError m.
Proof.
  unfold Spec.createKeyword_rejection.
  destruct (negb _ && _); [intros [= <-]; eauto |].
  destruct (negb (JS.truthy_string _)); [intros [= <-]; eauto |].
  destruct (Prisma.campaign db !! _); [| intros [= <-]; eauto].
  destruct (KeywordService.truthy_id _); [| done].
  destruct (_ ≫= _) as [g |]; [| intros [= <-]; eauto].
  destruct (AdGroup.campaignId g =? _); [done | intros [= <-]; eauto].
Qed.

(** X3. A keyword that createKeyword returns can be read back: by
    getKeywordById under its identifier and the campaign of the request,
    and in the listing of that campaign; every keyword that could be read
    before still can. *)
Theorem createKeyword_read_back (db db' : Prisma.DB) (data : CreateKeywordDto.t)
    (k : Keyword.t) :
  run (KeywordService.createKeyword data) db = (inr k, db') →
  run (KeywordService.getKeywordById (Keyword.id k) (CreateKeywordDto.campaignId data)) db'
  = (inr k, db')
  ∧ (∃ l, run (KeywordService.getCampaignKeywords (CreateKeywordDto.campaignId data) None)
              db' = (inr l, db')
          ∧ k ∈ l)
  ∧ (∀ id campaignId k0,
       run (KeywordService.getKeywordById id campaignId) db = (inr k0, db) →
       run (KeywordService.getKeywordById id campaignId) db' = (inr k0, db')).
Proof.
  rewrite run_createKeyword.
  destruct (Spec.createKeyword_rejection data db); [done |].
  intros [= <- <-].
  set (k := Prisma.new_keyword _ _ _).
  assert (Hk : Prisma.keyword (Spec.with_keyword db (Keyword.id k) k (Prisma.now db + 1))
               !! Keyword.id k = Some k) by apply lookup_insert_eq.
  split; [| split].
  - exact (run_getKeywordById_found _ _ _ Hk).
  - destruct (run_getCampaignKeywords (CreateKeywordDto.campaignId data) None
                (Spec.with_keyword db (Keyword.id k) k (Prisma.now db + 1)))
      as (l & Hl & Hin).
    exists l. split; [done |]. apply Hin. split; [by eexists |].
    unfold Prisma.where_matches. simpl. by rewrite Z.eqb_refl.
  - intros id c k0 Hget. apply run_getKeywordById_inv in Hget as (Hk0 & <- & _).
    apply run_getKeywordById_found. simpl.
    rewrite lookup_insert_ne; [done |].
    intros Heq. pose proof (next_id_fresh (Prisma.keyword db)) as Hfresh.
    simpl in Heq. congruence.
Qed.

(** The keyword created in the sample database is read back. *)
Lemma createKeyword_read_back_witness :
  run (KeywordService.getKeywordById 1 1) Sample.db1 = (inr Sample.keyword1, Sample.db1).
Proof.
  destruct (createKeyword_read_back Sample.db0 Sample.db1
              (Sample.dto 1 (Some 1) " running shoes " Sample.bid_1_50 None)
              Sample.keyword1) as [H _].
  - vm_compute. reflexivity.
  - exact H.
Defined.

(** X4. For a negative keyword createKeyword does not look at the bid:
    with a text that is not blank, an existing campaign and an ad group,
    if any, of that campaign, the call succeeds whatever the bid, zero,
    below zero or NaN, and stores it. *)
Theorem createKeyword_negative_any_bid (db : Prisma.DB) (data : CreateKeywordDto.t) :
  CreateKeywordDto.isNegative data = Some true →
  JS.trim (CreateKeywordDto.keywordText data) ≠ EmptyString →
  is_Some (Prisma.campaign db !! CreateKeywordDto.campaignId data) →
  Spec.adGroup_belongs data db →
  ∃ k db',
    run (KeywordService.createKeyword data) db = (inr k, db')
    ∧ Prisma.keyword db' !! Keyword.id k = Some k
    ∧ Keyword.bid k = CreateKeywordDto.bid data
    ∧ Keyword.isNegative k = true.
Proof.
  intros Hneg Htext [c Hc] Hag.
  eexists _, _. split.
  - rewrite run_createKeyword. unfold Spec.createKeyword_rejection.
    rewrite Hneg. simpl.
    apply truthy_string_nonempty in Htext. rewrite Htext. simpl.
    rewrite Hc. unfold Spec.adGroup_belongs in Hag.
    destruct (CreateKeywordDto.adGroupId data) as [a |]; simpl; [| reflexivity].
    destruct Hag as [Ha (g & Hg & Hgc)].
    unfold JS.truthy_int. rewrite (proj2 (Z.eqb_neq a 0) Ha). simpl.
    rewrite Hg, Hgc, Z.eqb_refl. reflexivity.
  - simpl. rewrite lookup_insert_eq, Hneg. done.
Qed.

(** A negative keyword is created with the bid NaN. *)
Lemma createKeyword_negative_any_bid_witness :
  ∃ k db',
    run (KeywordService.createKeyword (Sample.dto 1 None "shoes" JS.NaN (Some true)))
        Sample.db0 = (inr k, db')
    ∧ Prisma.keyword db' !! Keyword.id k = Some k
    ∧ Keyword.bid k = JS.NaN
    ∧ Keyword.isNegative k = true.
Proof.
  apply (createKeyword_negative_any_bid Sample.db0
           (Sample.dto 1 None "shoes" JS.NaN (Some true))).
  - reflexivity.
  - vm_compute. discriminate.
  - eexists. vm_compute. reflexivity.
  - exact I.
Defined.

(** X5. A call of createKeyword, updateKeyword or deleteKeyword that fails
    leaves the database as it was, and fails with a ValidationError or a
    NotFoundError: run alone, no call fails with the error of the database
    client. *)
Theorem failed_call_changes_nothing (db db' : Prisma.DB) (e : AppError) :
  (∀ data, run (KeywordService.createKeyword data) db = (inl e, db') →
           db' = db ∧ ∃ m, e = ValidationError m ∨ e = NotFoundError m)
  ∧ (∀ id campaignId data,
       run (KeywordService.updateKeyword id campaignId data) db = (inl e, db') →
       db' = db ∧ ∃ m, e = ValidationError m ∨ e = NotFoundError m)
  ∧ (∀ id campaignId,
       run (KeywordService.deleteKeyword id campaignId) db = (inl e, db') →
       db' = db ∧ e = NotFoundError "Keyword not found").
Proof.
  split; [| split].
  - intros data. rewrite run_createKeyword.
    destruct (Spec.createKeyword_rejection data db) as [e' |] eqn:Hrej; [| done].
    intros [= -> ->]. split; [done |]. by eapply createKeyword_rejection_kind.
  - intros id c data.
    destruct (run_updateKeyword_cases id c data db) as [-> | (k & _ & _ & ->)].
    + intros [= <- <-]. eauto.
    + destruct (match UpdateKeywordDto.bid data with Some _ => _ | None => _ end).
      { intros [= <- <-]. eauto. }
      destruct (Spec.blank_text data); [| done].
      intros [= <- <-]. eauto.
  - intros id c.
    destruct (run_deleteKeyword_cases id c db) as [-> | (k & _ & _ & ->)]; [| done].
    by intros [= <- <-].
Qed.

(** The update of keyword 1 of the sample database with a bid of zero
    fails and changes nothing. *)
Lemma failed_call_changes_nothing_witness :
  Sample.db1 = Sample.db1
  ∧ ∃ m, ValidationError "Bid must be greater than 0" = ValidationError m
         ∨ ValidationError "Bid must be greater than 0" = NotFoundError m.
Proof.
  refine (proj1 (proj2 (failed_call_changes_nothing Sample.db1 Sample.db1
                          (ValidationError "Bid must be greater than 0")))
            1 1 (Spec.only_bid (JS.ofZ 0)) _).
  vm_compute. reflexivity.
Defined.

Lemma apply_update_twice (u : Prisma.KeywordUpdateInput) (k : Keyword.t) :
  Prisma.apply_update u (Prisma.apply_update u k) = Prisma.apply_update u k.
Proof.
  destruct u as [t m b s n]. unfold Prisma.apply_update. simpl.
  by destruct t, m, b, s, n.
Qed.

Lemma willBeNegative_applied (data : UpdateKeywordDto.t) (k : Keyword.t) :
  Spec.willBeNegative data (Prisma.apply_update (Spec.updateKeyword_input data) k)
  = Spec.willBeNegative data k.
Proof. unfold Spec.willBeNegative. simpl. by destruct (UpdateKeywordDto.isNegative data). Qed.

(** X6. updateKeyword with the empty patch on a keyword of the campaign
    succeeds, returns the stored keyword and leaves the database as it
    was. *)
Theorem updateKeyword_empty_patch (db : Prisma.DB) (id : Z) (k : Keyword.t) :
  Prisma.keyword db !! id = Some k →
  run (KeywordService.updateKeyword id (Keyword.campaignId k) Inv.no_change) db
  = (inr k, db).
Proof.
  intros Hk. rewrite (run_updateKeyword _ _ _ _ Hk). simpl.
  assert (Hsame : Prisma.apply_update (Spec.updateKeyword_input Inv.no_change) k = k)
    by by destruct k.
  rewrite Hsame. by rewrite with_keyword_same.
Qed.

Lemma updateKeyword_empty_patch_witness :
  run (KeywordService.updateKeyword 1 1 Inv.no_change) Sample.db1
  = (inr Sample.keyword1, Sample.db1).
Proof.
  apply (updateKeyword_empty_patch Sample.db1 1 Sample.keyword1). reflexivity.
Defined.

(** X7. updateKeyword is idempotent: when a call succeeds, the same call
    on the database it leaves succeeds again, returns the same keyword and
    changes nothing. *)
Theorem updateKeyword_idempotent (db db' : Prisma.DB) (id campaignId : Z)
    (data : UpdateKeywordDto.t) (k' : Keyword.t) :
  run (KeywordService.updateKeyword id campaignId data) db = (inr k', db') →
  run (KeywordService.updateKeyword id campaignId data) db' = (inr k', db').
Proof.
  destruct (run_updateKeyword_cases id campaignId data db) as [-> | (k & Hk & <- & ->)];
    [done |].
  destruct (match UpdateKeywordDto.bid data with Some _ => _ | None => _ end) eqn:Hbid;
    [done |].
  destruct (Spec.blank_text data) eqn:Hblank; [done |].
  intros [= <- <-].
  set (k' := Prisma.apply_update (Spec.updateKeyword_input data) k).
  assert (Hk' : Prisma.keyword (Spec.with_keyword db id k' (Prisma.now db)) !! id = Some k')
    by apply lookup_insert_eq.
  etrans; [exact (run_updateKeyword id data _ k' Hk') |].
  unfold k' at 1. rewrite willBeNegative_applied, Hbid, Hblank.
  unfold k'. rewrite apply_update_twice. f_equal.
  change (Prisma.now (Spec.with_keyword db id
            (Prisma.apply_update (Spec.updateKeyword_input data) k) (Prisma.now db)))
    with (Prisma.now db).
  apply with_keyword_twice.
Qed.

Lemma updateKeyword_idempotent_witness :
  run (KeywordService.updateKeyword 1 1 (Sample.negative_with_bid (JS.ofZ 0)))
      (run (KeywordService.updateKeyword 1 1 (Sample.negative_with_bid (JS.ofZ 0)))
           Sample.db1).2
  = (inr (Prisma.apply_update
            (Spec.updateKeyword_input (Sample.negative_with_bid (JS.ofZ 0)))
            Sample.keyword1),
     (run (KeywordService.updateKeyword 1 1 (Sample.negative_with_bid (JS.ofZ 0)))
          Sample.db1).2).
Proof.
  apply (updateKeyword_idempotent Sample.db1).
  vm_compute. reflexivity.
Defined.

(** X8. Archiving is undone by an update of the status: after
    deleteKeyword, updateKeyword with the patch [{status: s}] succeeds and
    gives the keyword as it was before the deletion with status [s]; with
    the status the keyword had, the database is back to what it was. *)
Theorem deleteKeyword_undone_by_status (db : Prisma.DB) (id : Z) (k : Keyword.t) :
  Prisma.keyword db !! id = Some k →
  (∀ s, run (KeywordService.updateKeyword id (Keyword.campaignId k) (Inv.only_status s))
            (run (KeywordService.deleteKeyword id (Keyword.campaignId k)) db).2
        = (inr (Spec.with_status k s), Spec.with_keyword db id (Spec.with_status k s)
                                         (Prisma.now db)))
  ∧ run (KeywordService.updateKeyword id (Keyword.campaignId k)
           (Inv.only_status (Keyword.status k)))
        (run (KeywordService.deleteKeyword id (Keyword.campaignId k)) db).2
    = (inr k, db).
Proof.
  intros Hk. rewrite (run_deleteKeyword _ _ _ Hk). cbn [snd].
  assert (Hall : ∀ s,
    run (KeywordService.updateKeyword id (Keyword.campaignId k) (Inv.only_status s))
        (Spec.with_keyword db id (Spec.with_status k ARCHIVED) (Prisma.now db))
    = (inr (Spec.with_status k s),
       Spec.with_keyword db id (Spec.with_status k s) (Prisma.now db))).
  { intros s.
    assert (Hk' : Prisma.keyword
                    (Spec.with_keyword db id (Spec.with_status k ARCHIVED) (Prisma.now db))
                  !! id = Some (Spec.with_status k ARCHIVED)) by apply lookup_insert_eq.
    etrans; [exact (run_updateKeyword id (Inv.only_status s) _ _ Hk') |].
    simpl. f_equal. apply with_keyword_twice. }
  split; [exact Hall |].
  rewrite Hall.
  assert (Hsame : Spec.with_status k (Keyword.status k) = k) by by destruct k.
  rewrite Hsame. by rewrite with_keyword_same.
Qed.

Lemma deleteKeyword_undone_by_status_witness :
  run (KeywordService.updateKeyword 1 1 (Inv.only_status ACTIVE))
      (run (KeywordService.deleteKeyword 1 1) Sample.db1).2
  = (inr Sample.keyword1, Sample.db1).
Proof.
  apply (proj2 (deleteKeyword_undone_by_status Sample.db1 1 Sample.keyword1 eq_refl)).
Defined.

(** X9. updateKeyword checks a bid only when the patch carries one: a
    patch without a bid and without a blank text succeeds on a keyword of
    the campaign whatever the stored bid, which it keeps. So the patch
    [{isNegative: false}] makes a negative keyword with the bid 0 a
    keyword that is not negative, still with the bid 0. *)
Theorem updateKeyword_without_bid (db : Prisma.DB) (id : Z) (data : UpdateKeywordDto.t)
    (k : Keyword.t) :
  Prisma.keyword db !! id = Some k →
  UpdateKeywordDto.bid data = None →
  Spec.blank_text data = false →
  ∃ k' db',
    run (KeywordService.updateKeyword id (Keyword.campaignId k) data) db = (inr k', db')
    ∧ Prisma.keyword db' !! id = Some k'
    ∧ Keyword.bid k' = Keyword.bid k
    ∧ Keyword.isNegative k' = Spec.willBeNegative data k.
Proof.
  intros Hk Hb Hblank.
  rewrite (run_updateKeyword _ _ _ _ Hk), Hb, Hblank.
  eexists _, _. split; [done |]. simpl. rewrite lookup_insert_eq, Hb.
  repeat split.
Qed.

(** Keyword 1, made negative with the bid 0, is made not negative again
    and keeps the bid 0. *)
Lemma updateKeyword_without_bid_witness :
  ∃ k' db',
    run (KeywordService.updateKeyword 1 1 (Inv.only_isNegative false))
        (run (KeywordService.updateKeyword 1 1 (Sample.negative_with_bid (JS.ofZ 0)))
             Sample.db1).2 = (inr k', db')
    ∧ Prisma.keyword db' !! 1 = Some k'
    ∧ Keyword.bid k' = JS.ofZ 0
    ∧ Keyword.isNegative k' = false.
Proof.
  apply (updateKeyword_without_bid
           (run (KeywordService.updateKeyword 1 1 (Sample.negative_with_bid (JS.ofZ 0)))
                Sample.db1).2
           1 (Inv.only_isNegative false)
           (Prisma.apply_update
              (Spec.updateKeyword_input (Sample.negative_with_bid (JS.ofZ 0)))
              Sample.keyword1)).
  - vm_compute. reflexivity.
  - reflexivity.
  - reflexivity.
Defined.

(** ** Invariants of the keyword table *)

Lemma trim_nonempty_inv (s : string) : JS.trim s ≠ EmptyString → s ≠ EmptyString.
Proof. by destruct s. Qed.

(** What createKeyword has checked when it creates. *)
Lemma createKeyword_accepted (data : CreateKeywordDto.t) (db : Prisma.DB) :
  Spec.createKeyword_rejection data db = None →
  Spec.bid_rejected (KeywordService.truthy_flag (CreateKeywordDto.isNegative data))
    (CreateKeywordDto.bid data) = false
  ∧ JS.trim (CreateKeywordDto.keywordText data) ≠ EmptyString
  ∧ is_Some (Prisma.campaign db !! CreateKeywordDto.campaignId data)
  ∧ ∀ a, CreateKeywordDto.adGroupId data = Some a → a ≠ 0 →
         ∃ g, Prisma.adGroup db !! a = Some g
              ∧ AdGroup.campaignId g = CreateKeywordDto.campaignId data.
Proof.
  unfold Spec.createKeyword_rejection, Spec.bid_rejected.
  destruct (negb _ && _); [done |].
  destruct (JS.truthy_string _) eqn:Htext; [| done]. simpl.
  destruct (Prisma.campaign db !! _) as [c |]; [| done].
  intros Hag. split; [done |].
  split; [by apply truthy_string_nonempty |]. split; [by eexists |].
  intros a Ha Hnz. rewrite Ha in Hag. simpl in Hag.
  unfold JS.truthy_int in Hag. rewrite (proj2 (Z.eqb_neq a 0) Hnz) in Hag. simpl in Hag.
  destruct (Prisma.adGroup db !! a) as [g |]; [| done].
  destruct (AdGroup.campaignId g =? _) eqn:E; [| done].
  exists g. split; [done |]. by apply Z.eqb_eq.
Qed.

(** The database after createKeyword: as before, or with the new row. *)
Lemma createKeyword_db (data : CreateKeywordDto.t) (db : Prisma.DB) :
  (run (KeywordService.createKeyword data) db).2 = db
  ∨ Spec.createKeyword_rejection data db = None
    ∧ (run (KeywordService.createKeyword data) db).2
      = Spec.with_keyword db (Prisma.next_id (Prisma.keyword db))
          (Prisma.new_keyword (Prisma.next_id (Prisma.keyword db)) (Prisma.now db)
             (Spec.createKeyword_input data))
          (Prisma.now db + 1).
Proof.
  rewrite run_createKeyword.
  destruct (Spec.createKeyword_rejection data db); [by left | by right].
Qed.

(** The database after updateKeyword: as before, or with the patched row
    in the place of a row of the campaign, when the patch carries no blank
    text. *)
Lemma updateKeyword_db (id campaignId : Z) (data : UpdateKeywordDto.t) (db : Prisma.DB) :
  (run (KeywordService.updateKeyword id campaignId data) db).2 = db
  ∨ ∃ k, Prisma.keyword db !! id = Some k
         ∧ Spec.blank_text data = false
         ∧ (run (KeywordService.updateKeyword id campaignId data) db).2
           = Spec.with_keyword db id
               (Prisma.apply_update (Spec.updateKeyword_input data) k) (Prisma.now db).
Proof.
  destruct (run_updateKeyword_cases id campaignId data db) as [-> | (k & Hk & _ & ->)];
    [by left |].
  destruct (match UpdateKeywordDto.bid data with Some _ => _ | None => _ end);
    [by left |].
  destruct (Spec.blank_text data) eqn:Hblank; [by left |].
  right. by exists k.
Qed.

Lemma deleteKeyword_db (id campaignId : Z) (db : Prisma.DB) :
  (run (KeywordService.deleteKeyword id campaignId) db).2 = db
  ∨ ∃ k, Prisma.keyword db !! id = Some k
         ∧ (run (KeywordService.deleteKeyword id campaignId) db).2
           = Spec.with_keyword db id (Spec.with_status k ARCHIVED) (Prisma.now db).
Proof.
  destruct (run_deleteKeyword_cases id campaignId db) as [-> | (k & Hk & _ & ->)];
    [by left |].
  right. by exists k.
Qed.



(** X11. Stored texts stay clean: when every stored keyword text is not
    empty and has no white space around it, the same holds after any call
    of createKeyword, updateKeyword or deleteKeyword. *)
Theorem service_keeps_texts_trimmed (db : Prisma.DB) :
  Inv.texts_trimmed db →
  (∀ data, Inv.texts_trimmed (run (KeywordService.createKeyword data) db).2)
  ∧ (∀ id campaignId data,
       Inv.texts_trimmed (run (KeywordService.updateKeyword id campaignId data) db).2)
  ∧ (∀ id campaignId,
       Inv.texts_trimmed (run (KeywordService.deleteKeyword id campaignId) db).2).
Proof.
  intros Hinv. split; [| split].
  - intros data.
    destruct (createKeyword_db data db) as [-> | [Hacc ->]]; [done |].
    apply createKeyword_accepted in Hacc as (_ & Htext & _).
    apply map_Forall_insert_2; [| exact Hinv].
    simpl. split; [exact Htext | apply trim_idem].
  - intros id c data.
    destruct (updateKeyword_db id c data db) as [-> | (k & Hk & Hblank & ->)]; [done |].
    apply map_Forall_insert_2; [| exact Hinv].
    simpl. unfold Spec.blank_text in Hblank.
    destruct (UpdateKeywordDto.keywordText data) as [s |]; simpl;
      [| exact (Hinv id k Hk)].
    apply negb_false_iff in Hblank.
    assert (Hs : JS.truthy_string s = true).
    { apply truthy_string_nonempty, trim_nonempty_inv.
      by apply truthy_string_nonempty. }
    rewrite Hs. simpl.
    split; [by apply truthy_string_nonempty | apply trim_idem].
  - intros id c.
    destruct (deleteKeyword_db id c db) as [-> | (k & Hk & ->)]; [done |].
    apply map_Forall_insert_2; [| exact Hinv].
    exact (Hinv id k Hk).
Qed.

Lemma service_keeps_texts_trimmed_witness : Inv.texts_trimmed Sample.db1.
Proof.
  apply (proj1 (service_keeps_texts_trimmed Sample.db0 (map_Forall_empty _))
           (Sample.dto 1 (Some 1) " running shoes " Sample.bid_1_50 None)).
Defined.

(** X12. Keywords stay under their identifier: when every stored keyword
    carries the identifier it is stored under, the same holds after any
    call of createKeyword, updateKeyword or deleteKeyword; and then
    getKeywordById answers with a keyword that has the identifier and the
    campaign asked for. *)
Theorem service_keeps_identifiers (db : Prisma.DB) :
  Inv.keys_are_ids db →
  (∀ data, Inv.keys_are_ids (run (KeywordService.createKeyword data) db).2)
  ∧ (∀ id campaignId data,
       Inv.keys_are_ids (run (KeywordService.updateKeyword id campaignId data) db).2)
  ∧ (∀ id campaignId,
       Inv.keys_are_ids (run (KeywordService.deleteKeyword id campaignId) db).2)
  ∧ (∀ id campaignId k db',
       run (KeywordService.getKeywordById id campaignId) db = (inr k, db') →
       Keyword.id k = id ∧ Keyword.campaignId k = campaignId ∧ db' = db).
Proof.
  intros Hinv. split; [| split; [| split]].
  - intros data.
    destruct (createKeyword_db data db) as [-> | [_ ->]]; [done |].
    by apply map_Forall_insert_2.
  - intros id c data.
    destruct (updateKeyword_db id c data db) as [-> | (k & Hk & _ & ->)]; [done |].
    apply map_Forall_insert_2; [| exact Hinv].
    exact (Hinv id k Hk).
  - intros id c.
    destruct (deleteKeyword_db id c db) as [-> | (k & Hk & ->)]; [done |].
    apply map_Forall_insert_2; [| exact Hinv].
    exact (Hinv id k Hk).
  - intros id c k db' Hget.
    apply run_getKeywordById_inv in Hget as (Hk & Hc & ->).
    split; [exact (Hinv id k Hk) | done].
Qed.

Lemma service_keeps_identifiers_witness : Inv.keys_are_ids Sample.db1.
Proof.
  apply (proj1 (service_keeps_identifiers Sample.db0 (map_Forall_empty _))
           (Sample.dto 1 (Some 1) " running shoes " Sample.bid_1_50 None)).
Defined.

(** ** Bulk creation: what is created in the end *)

Lemma omap_insert_length {A B : Type} (f : A → option B) (l : list A) (i : nat)
    (x y : A) :
  l !! i = Some x → f x = None →
  length (omap f (<[i := y]> l))
  = (length (omap f l) + match f y with Some _ => 1 | None => 0 end)%nat.
Proof.
  revert i. induction l as [| a l IH]; intros i Hi Hx; [done |].
  destruct i as [| i]; simpl in *.
  - injection Hi as ->. rewrite Hx.
    destruct (f y); simpl; [by rewrite Nat.add_1_r | by rewrite Nat.add_0_r].
  - specialize (IH i Hi Hx). unfold omap in IH.
    destruct (f a); simpl; by rewrite IH.
Qed.

Lemma omap_value_started (ds : list CreateKeywordDto.t) :
  omap Promise.value (KeywordService.createKeyword <$> ds) = [].
Proof.
  induction ds as [| d ds IH]; [done |]. simpl.
  pose proof (createKeyword_shape d) as H.
  by destruct (KeywordService.createKeyword d).
Qed.

(** Every step adds a row exactly when it fulfils a call. *)
Lemma bulk_size_step (db0 : Prisma.DB) (ds : list CreateKeywordDto.t) (i : nat)
    (st st' : Prisma.DB * Promise.All Keyword.t) :
  Spec.bulk_inv db0 ds st → Promise.step i st = Some st' →
  size (Prisma.keyword st.1)
  = (size (Prisma.keyword db0) + length (omap Promise.value (Promise.promises st.2)))%nat →
  size (Prisma.keyword st'.1)
  = (size (Prisma.keyword db0) + length (omap Promise.value (Promise.promises st'.2)))%nat.
Proof.
  destruct st as [db a]. unfold Promise.step.
  destruct (Promise.promises a !! i) as [[r | e | X op k] |] eqn:Hi; try done.
  intros (Hc & Ha & Hrows & Hcalls & _ & _). simpl in *.
  destruct (Forall2_lookup_r _ _ _ _ _ Hcalls Hi) as (d & Hd & Hcall).
  destruct (call_inv_resume db0 db d X op k Hc Ha Hrows Hcall)
    as (x & db' & Hperf & _ & _ & _ & Hcases).
  rewrite Hperf. intros [= <-] Hsize. simpl.
  rewrite (omap_insert_length Promise.value _ i _ (k x) Hi eq_refl).
  destruct Hcases as [[-> Hv] | (r & Hr & Hfresh & ->)].
  - rewrite Hv. lia.
  - rewrite Hr. simpl. rewrite (map_size_insert_None _ _ _ Hfresh). lia.
Qed.

Lemma bulk_size_exec (db0 : Prisma.DB) (ds : list CreateKeywordDto.t)
    (schedule : list nat) (st st' : Prisma.DB * Promise.All Keyword.t) :
  Spec.bulk_inv db0 ds st → Promise.exec schedule st = Some st' →
  size (Prisma.keyword st.1)
  = (size (Prisma.keyword db0) + length (omap Promise.value (Promise.promises st.2)))%nat →
  size (Prisma.keyword st'.1)
  = (size (Prisma.keyword db0) + length (omap Promise.value (Promise.promises st'.2)))%nat.
Proof.
  revert st. induction schedule as [| i rest IH]; intros st Hinv; simpl.
  - by intros [= <-].
  - destruct (Promise.step i st) as [st1 |] eqn:Hstep; [| done].
    intros Hexec Hsize. apply (IH st1); [| done |].
    + by eapply bulk_inv_step.
    + by eapply bulk_size_step.
Qed.

(** Among settled calls, the fulfilled ones are those of the requests
    that succeed on their own. *)
Lemma settled_values_count (db0 db : Prisma.DB) (ds : list CreateKeywordDto.t)
    (ps : list (Async Keyword.t)) :
  Forall2 (Spec.call_inv db0 db) ds ps →
  forallb Promise.settled ps = true →
  length (omap Promise.value ps)
  = length (List.filter
              (λ d, match Spec.createKeyword_rejection d db0 with
                    | None => true
                    | Some _ => false
                    end) ds).
Proof.
  induction 1 as [| d p ds ps Hcall _ IH]; [done |].
  unfold omap in *. simpl.
  intros [Hp Hps]%andb_true_iff.
  destruct p as [k | e | X op cont]; simpl in *; [| | done].
  - destruct Hcall as (_ & _ & -> & _). simpl. by rewrite IH.
  - rewrite Hcall. by apply IH.
Qed.

(** X13. Once all the calls of bulkCreateKeywords are settled, whatever
    the order in which they were resumed, every entry that succeeds on its
    own has been created, also when an entry before it failed, and the
    keyword table has gained exactly one row for each such entry. *)
Theorem bulkCreateKeywords_creates_all_valid (db db' : Prisma.DB)
    (data : BulkKeywordDto.t) (schedule : list nat) (a : Promise.All Keyword.t) :
  Promise.exec schedule (db, KeywordService.bulkCreateKeywords data) = Some (db', a) →
  Promise.all_settled a = true →
  (∀ i d, BulkKeywordDto.keywords data !! i = Some d →
          Spec.createKeyword_rejection d db = None →
          ∃ k, Promise.promises a !! i = Some (Return k)
               ∧ Prisma.keyword db' !! Keyword.id k = Some k)
  ∧ size (Prisma.keyword db')
    = (size (Prisma.keyword db)
       + length (List.filter
                   (λ d, match Spec.createKeyword_rejection d db with
                         | None => true
                         | Some _ => false
                         end) (BulkKeywordDto.keywords data)))%nat.
Proof.
  intros Hexec Hsettled.
  pose proof (bulk_inv_init db (BulkKeywordDto.keywords data)) as Hinit.
  pose proof (bulk_inv_exec db _ schedule _ _ Hinit Hexec) as Hinv.
  pose proof (bulk_size_exec db _ schedule _ _ Hinit Hexec) as Hsize.
  destruct Hinv as (_ & _ & _ & Hcalls & _ & _). simpl in *.
  split.
  - intros i d Hd Hacc.
    destruct (Forall2_lookup_l _ _ _ _ _ Hcalls Hd) as (p & Hp & Hcall).
    unfold Promise.all_settled in Hsettled. rewrite forallb_forall in Hsettled.
    specialize (Hsettled p (proj1 (list_elem_of_In _ _) (list_elem_of_lookup_2 _ _ _ Hp))).
    destruct p as [k | e | X op cont]; simpl in *; [| congruence | done].
    exists k. split; [done | apply Hcall].
  - rewrite Hsize by (rewrite omap_value_started; simpl; lia).
    f_equal. by eapply settled_values_count.
Qed.

(** In the sample bulk creation two of the three entries succeed on their
    own: the table, empty before, has two rows in the end. *)
Lemma bulkCreateKeywords_creates_all_valid_witness :
  size (Prisma.keyword Sample.bulk_final.1) = 2%nat
  ∧ ∃ k, Promise.promises Sample.bulk_final.2 !! 2%nat = Some (Return k)
         ∧ Prisma.keyword Sample.bulk_final.1 !! Keyword.id k = Some k.
Proof.
  destruct (bulkCreateKeywords_creates_all_valid Sample.db0 Sample.bulk_final.1
              Sample.bulk_data Sample.bulk_schedule Sample.bulk_final.2)
    as [Hall Hsize].
  - vm_compute. reflexivity.
  - vm_compute. reflexivity.
  - split; [exact Hsize |].
    apply (Hall 2%nat (Sample.dto 1 None "socks" Sample.bid_1_50 None)); reflexivity.
Defined.

(** The listing of campaign 1 of the sample database is keyword 1. *)
Lemma getCampaignKeywords_lists_witness :
  ∃ l, run (KeywordService.getCampaignKeywords 1 None) Sample.db1 = (inr l, Sample.db1)
       ∧ Sample.keyword1 ∈ l.
Proof.
  destruct (getCampaignKeywords_lists 1 None Sample.db1) as (l & Hrun & Hin & _).
  exists l. split; [exact Hrun |]. apply Hin.
  split; [by exists 1 |]. by repeat split.
Defined.

(** Keyword 1 of the sample database is not negative and is not in the
    listing of the negative keywords. *)
Lemma getNegativeKeywords_lists_witness :
  ∃ l, run (KeywordService.getNegativeKeywords 1) Sample.db1 = (inr l, Sample.db1)
       ∧ Sample.keyword1 ∉ l.
Proof.
  destruct (getNegativeKeywords_lists 1 Sample.db1) as (l & Hrun & Hin).
  exists l. split; [exact Hrun |].
  intros H. apply Hin in H as (_ & _ & H). discriminate H.
Defined.

(** ** The error handler *)

(** X14. The answer of the error handler to an error that is not an
    application error does not depend on the message or the stack of the
    error, nor on the request: it is one of two fixed answers, 400 for the
    error of the database client and 500 otherwise; an application error is
    answered with its own status code and message. The body always has the
    status ["error"]. *)
Theorem errorHandler_hides_internal_errors :
  (∀ name m1 m2 s1 s2 req1 req2,
     (ErrorHandler.errorHandler (ErrorHandler.OtherErr name m1 s1) req1).2
     = (ErrorHandler.errorHandler (ErrorHandler.OtherErr name m2 s2) req2).2)
  ∧ (∀ name m s req,
       (ErrorHandler.errorHandler (ErrorHandler.OtherErr name m s) req).2
       = ErrorHandler.mkRes 400 "error" "Database operation failed"
       ∧ name = "PrismaClientKnownRequestError"
       ∨ (ErrorHandler.errorHandler (ErrorHandler.OtherErr name m s) req).2
         = ErrorHandler.mkRes 500 "error" "Internal server error"
         ∧ name ≠ "PrismaClientKnownRequestError")
  ∧ (∀ code m req,
       (ErrorHandler.errorHandler (ErrorHandler.AppErr code m) req).2
       = ErrorHandler.mkRes code "error" m)
  ∧ (∀ err req,
       ErrorHandler.status (ErrorHandler.errorHandler err req).2 = "error"
       ∧ ErrorHandler.status (ErrorHandler.notFoundHandler req) = "error"
       ∧ ErrorHandler.statusCode (ErrorHandler.notFoundHandler req) = 404).
Proof.
  split; [| split; [| split]].
  - intros name m1 m2 s1 s2 req1 req2. simpl.
    by destruct (String.eqb name _).
  - intros name m s req. simpl.
    destruct (String.eqb name _) eqn:E.
    + left. split; [done |]. by apply String.eqb_eq.
    + right. split; [done |]. by apply String.eqb_neq.
  - done.
  - intros [code m | name m s] req; simpl; [done |].
    by destruct (String.eqb name _).
Qed.

(** ** The slices of the store *)

(** Lists filtered by identifier, as both slices do on a deletion. *)
Lemma filter_other_ids {A : Type} (f : A → Z) (i : Z) (l : list A) (x : A) :
  x ∈ List.filter (λ k, negb (f k =? i)) l ↔ x ∈ l ∧ f x ≠ i.
Proof.
  rewrite !list_elem_of_In, List.filter_In, negb_true_iff, Z.eqb_neq. done.
Qed.

Lemma filter_all_kept {A : Type} (P : A → bool) (l : list A) :
  (∀ x, x ∈ l → P x = true) → List.filter P l = l.
Proof.
  induction l as [| a l IH]; intros H; simpl; [done |].
  rewrite (H a) by apply list_elem_of_here.
  f_equal. apply IH. intros x Hx. apply H. by apply list_elem_of_further.
Qed.

Lemma filter_twice {A : Type} (P Q : A → bool) (l : list A) :
  List.filter P (List.filter Q l) = List.filter Q (List.filter P l).
Proof.
  induction l as [| a l IH]; simpl; [done |].
  destruct (Q a) eqn:EQ, (P a) eqn:EP; simpl; rewrite ?EQ, ?EP, IH; done.
Qed.

Lemma filter_same_twice {A : Type} (P : A → bool) (l : list A) :
  List.filter P (List.filter P l) = List.filter P l.
Proof.
  apply filter_all_kept. intros x Hx.
  apply list_elem_of_In, List.filter_In in Hx. tauto.
Qed.

Lemma filter_ids {A : Type} (f : A → Z) (i : Z) (l : list A) :
  f <$> List.filter (λ k, negb (f k =? i)) l
  = List.filter (λ z, negb (z =? i)) (f <$> l).
Proof.
  induction l as [| a l IH]; [done |].
  rewrite fmap_cons. cbn [List.filter].
  destruct (f a =? i); cbn [negb]; by rewrite ?fmap_cons, IH.
Qed.

Lemma NoDup_List_filter {A : Type} (P : A → bool) (l : list A) :
  NoDup l → NoDup (List.filter P l).
Proof.
  induction 1 as [| a l Hnot Hnd IH]; simpl; [constructor |].
  destruct (P a); [| done].
  constructor; [| done].
  intros Hin. apply Hnot.
  apply list_elem_of_In, List.filter_In in Hin. apply list_elem_of_In. tauto.
Qed.

(** Replacing an element by one with the same identifier keeps the
    identifiers. *)
Lemma insert_same_id {A : Type} (f : A → Z) (l : list A) (n : nat) (k p : A) :
  l !! n = Some k → f k = f p → f <$> <[n:=p]> l = f <$> l.
Proof.
  intros Hn Hf. rewrite list_fmap_insert, <- Hf.
  apply list_insert_id. by rewrite list_lookup_fmap, Hn.
Qed.


(** The fallback message is used for a missing or empty message, so the
    message shown is never empty. *)
Lemma message_or_nonempty (message : option string) (fallback : string) :
  fallback ≠ EmptyString → KeywordSlice.message_or message fallback ≠ EmptyString.
Proof.
  intros Hf. unfold KeywordSlice.message_or.
  destruct message as [m |]; [| done].
  destruct (JS.truthy_string m) eqn:E; [| done].
  by apply truthy_string_nonempty.
Qed.

(** [findIndex] gives the first position with the identifier. *)
Lemma keyword_findIndex_Some (id : Z) (l : list KeywordSlice.Keyword.t) (n : nat) :
  KeywordSlice.findIndex id l = Some n →
  ∃ k, l !! n = Some k ∧ KeywordSlice.Keyword.id k = id
       ∧ ∀ j k', (j < n)%nat → l !! j = Some k' → KeywordSlice.Keyword.id k' ≠ id.
Proof.
  revert n. induction l as [| a l IH]; intros n; simpl; [done |].
  destruct (KeywordSlice.Keyword.id a =? id) eqn:E.
  - intros [= <-]. exists a. split; [done |]. split; [by apply Z.eqb_eq |].
    intros j k' Hj. inversion Hj.
  - destruct (KeywordSlice.findIndex id l) as [m |]; [| done].
    intros [= <-]. destruct (IH m eq_refl) as (k & Hk & Hid & Hfirst).
    exists k. split; [done |]. split; [done |].
    intros [| j] k' Hj Hk'.
    + injection Hk' as <-. by apply Z.eqb_neq.
    + apply (Hfirst j); [apply Nat.succ_lt_mono, Hj | done].
Qed.







(** X16. The request flags of the keyword slice. A pending action sets
    [loading] and clears the error; a rejected action clears [loading] and
    sets an error message that is never empty; a fulfilled action clears
    [loading] and leaves the error as it was. Only a fulfilled action
    changes the list of keywords, and only [selectKeyword] changes the
    selected keyword, so that a keyword that was selected stays selected
    when it is deleted from the list. *)
Theorem keywordSlice_request_flags
    (state : KeywordSlice.KeywordState) (action : KeywordSlice.Action) :
  let state' := KeywordSlice.reducer state action in
  (Inv.keyword_pending action = true →
   KeywordSlice.loading state' = true ∧ KeywordSlice.error state' = None)
  ∧ (Inv.keyword_rejected action = true →
     KeywordSlice.loading state' = false
     ∧ ∃ m, KeywordSlice.error state' = Some m ∧ m ≠ EmptyString)
  ∧ (Inv.keyword_fulfilled action = true →
     KeywordSlice.loading state' = false
     ∧ KeywordSlice.error state' = KeywordSlice.error state)
  ∧ (Inv.keyword_fulfilled action = false →
     KeywordSlice.keywords state' = KeywordSlice.keywords state)
  ∧ ((∀ payload, action ≠ KeywordSlice.selectKeyword payload) →
     KeywordSlice.selectedKeyword state' = KeywordSlice.selectedKeyword state).
Proof.
  intros state'. subst state'.
  split; [| split; [| split; [| split]]].
  - by destruct action.
  - destruct action; try done; intros _; (split; [done |]);
      eexists; (split; [reflexivity |]); by apply message_or_nonempty.
  - by destruct action.
  - by destruct action.
  - destruct action as [payload | | | | | | | | | | | | | | | |]; try done.
    intros H. by destruct (H payload).
Qed.

(** A rejected deletion without a message shows the fallback message. *)
Lemma keywordSlice_request_flags_witness :
  KeywordSlice.loading
    (KeywordSlice.reducer SampleUI.keywords12 (KeywordSlice.deleteKeyword_rejected None))
  = false
  ∧ ∃ m, KeywordSlice.error
           (KeywordSlice.reducer SampleUI.keywords12
              (KeywordSlice.deleteKeyword_rejected None)) = Some m
         ∧ m ≠ EmptyString.
Proof.
  destruct (keywordSlice_request_flags SampleUI.keywords12
              (KeywordSlice.deleteKeyword_rejected None)) as (_ & H & _).
  apply H. reflexivity.
Defined.

(** Replacing an element that a filter drops by another one that it drops
    does not change the filtered list. *)
Lemma filter_insert_dropped {A : Type} (P : A → bool) (l : list A) (n : nat) (k p : A) :
  l !! n = Some k → P k = false → P p = false →
  List.filter P (<[n:=p]> l) = List.filter P l.
Proof.
  revert n. induction l as [| a l IH]; intros [| n] Hn Hk Hp; try done.
  - injection Hn as ->. cbn [List.filter]. simpl. by rewrite Hk, Hp.
  - simpl. destruct (P a); [f_equal |]; by apply IH.
Qed.

(** X17. Deletions in the keyword slice. The fulfilled creation of a
    keyword whose identifier the list does not have, followed by the
    fulfilled deletion of that identifier, gives the list back. Deleting
    the same identifier twice is deleting it once, two deletions give the
    same list in either order, and an update followed by the deletion of
    the updated identifier is that deletion. *)
Theorem keywordSlice_deletions :
  (∀ state p,
     (∀ k, k ∈ KeywordSlice.keywords state →
           KeywordSlice.Keyword.id k ≠ KeywordSlice.Keyword.id p) →
     KeywordSlice.keywords
       (KeywordSlice.reducer
          (KeywordSlice.reducer state (KeywordSlice.createKeyword_fulfilled p))
          (KeywordSlice.deleteKeyword_fulfilled (KeywordSlice.Keyword.id p)))
     = KeywordSlice.keywords state)
  ∧ (∀ state i,
       KeywordSlice.keywords
         (KeywordSlice.reducer
            (KeywordSlice.reducer state (KeywordSlice.deleteKeyword_fulfilled i))
            (KeywordSlice.deleteKeyword_fulfilled i))
       = KeywordSlice.keywords
           (KeywordSlice.reducer state (KeywordSlice.deleteKeyword_fulfilled i)))
  ∧ (∀ state i j,
       KeywordSlice.keywords
         (KeywordSlice.reducer
            (KeywordSlice.reducer state (KeywordSlice.deleteKeyword_fulfilled i))
            (KeywordSlice.deleteKeyword_fulfilled j))
       = KeywordSlice.keywords
           (KeywordSlice.reducer
              (KeywordSlice.reducer state (KeywordSlice.deleteKeyword_fulfilled j))
              (KeywordSlice.deleteKeyword_fulfilled i)))
  ∧ (∀ state p,
       KeywordSlice.keywords
         (KeywordSlice.reducer
            (KeywordSlice.reducer state (KeywordSlice.updateKeyword_fulfilled p))
            (KeywordSlice.deleteKeyword_fulfilled (KeywordSlice.Keyword.id p)))
       = KeywordSlice.keywords
           (KeywordSlice.reducer state
              (KeywordSlice.deleteKeyword_fulfilled (KeywordSlice.Keyword.id p)))).
Proof.
  split; [| split; [| split]].
  - intros state p Hfresh. cbn [KeywordSlice.reducer KeywordSlice.fulfilled
      KeywordSlice.keywords].
    rewrite List.filter_app. cbn [List.filter].
    rewrite Z.eqb_refl. cbn [negb]. rewrite app_nil_r.
    apply filter_all_kept. intros k Hk.
    apply negb_true_iff, Z.eqb_neq. by apply Hfresh.
  - intros state i. apply filter_same_twice.
  - intros state i j. apply filter_twice.
  - intros state p. cbn [KeywordSlice.reducer KeywordSlice.fulfilled
      KeywordSlice.keywords].
    destruct (KeywordSlice.findIndex _ _) as [n |] eqn:E; [| done].
    destruct (keyword_findIndex_Some _ _ _ E) as (k & Hn & Hid & _).
    apply (filter_insert_dropped _ _ n k p Hn).
    + by rewrite Hid, Z.eqb_refl.
    + by rewrite Z.eqb_refl.
Qed.

(** Keyword 3 created in the list of the keywords 1 and 2 and then
    deleted: the list is the one before. *)
Lemma keywordSlice_deletions_witness :
  KeywordSlice.keywords
    (KeywordSlice.reducer
       (KeywordSlice.reducer SampleUI.keywords12
          (KeywordSlice.createKeyword_fulfilled (SampleUI.keyword 3 "socks")))
       (KeywordSlice.deleteKeyword_fulfilled 3))
  = KeywordSlice.keywords SampleUI.keywords12.
Proof.
  apply (proj1 keywordSlice_deletions SampleUI.keywords12 (SampleUI.keyword 3 "socks")).
  intros k Hk.
  apply elem_of_cons in Hk as [-> | Hk]; [vm_compute; discriminate |].
  apply elem_of_cons in Hk as [-> | Hk]; [vm_compute; discriminate |].
  by apply elem_of_nil in Hk.
Defined.

(** X18. The identifiers of the list of the keyword slice stay distinct:
    when they are distinct, they are distinct after every action, provided
    that a fetched list has distinct identifiers and that a created
    keyword has an identifier the list does not have. The reducer does not
    check the latter: the fulfilled creation of a keyword whose identifier
    is in the list gives a list with that identifier twice. *)
Theorem keywordSlice_keeps_ids_distinct
    (state : KeywordSlice.KeywordState) (action : KeywordSlice.Action) :
  NoDup (Inv.keyword_ids (KeywordSlice.keywords state)) →
  (Inv.keyword_payload_fresh state action →
   NoDup (Inv.keyword_ids (KeywordSlice.keywords (KeywordSlice.reducer state action))))
  ∧ (∀ p, action = KeywordSlice.createKeyword_fulfilled p →
          KeywordSlice.Keyword.id p ∈ Inv.keyword_ids (KeywordSlice.keywords state) →
          ¬ NoDup (Inv.keyword_ids
                     (KeywordSlice.keywords (KeywordSlice.reducer state action)))).
Proof.
  intros Hnd. split.
  - intros Hfresh. unfold Inv.keyword_ids in *.
    destruct action; try done; cbn [KeywordSlice.reducer KeywordSlice.fulfilled
      KeywordSlice.keywords].
    + rewrite fmap_app. apply NoDup_app. split; [done |]. split.
      * intros x Hx Hin. apply list_elem_of_singleton in Hin as ->. by apply Hfresh.
      * apply NoDup_singleton.
    + destruct (KeywordSlice.findIndex _ _) as [n |] eqn:E; [| done].
      destruct (keyword_findIndex_Some _ _ _ E) as (k & Hn & Hid & _).
      by rewrite (insert_same_id _ _ n k _ Hn Hid).
    + rewrite filter_ids. by apply NoDup_List_filter.
  - intros p -> Hin Hnd'. unfold Inv.keyword_ids in *.
    cbn [KeywordSlice.reducer KeywordSlice.fulfilled KeywordSlice.keywords] in Hnd'.
    rewrite fmap_app in Hnd'. apply NoDup_app in Hnd' as (_ & Hdis & _).
    apply (Hdis _ Hin). apply list_elem_of_here.
Qed.

(** The identifiers 1 and 2 stay distinct when keyword 3 is created. *)
Lemma keywordSlice_keeps_ids_distinct_witness :
  NoDup (Inv.keyword_ids
           (KeywordSlice.keywords
              (KeywordSlice.reducer SampleUI.keywords12
                 (KeywordSlice.createKeyword_fulfilled (SampleUI.keyword 3 "socks"))))).
Proof.
  apply (keywordSlice_keeps_ids_distinct SampleUI.keywords12
           (KeywordSlice.createKeyword_fulfilled (SampleUI.keyword 3 "socks"))).
  - apply (bool_decide_unpack _). vm_compute. reflexivity.
  - apply (bool_decide_unpack _). vm_compute. reflexivity.
Defined.

(** X19. When the deletion of an ad group is fulfilled, the list of the
    store holds exactly the ad groups it held whose identifier is not the
    deleted one, in their order; [loading] is cleared, and the error and
    the selected ad group are as before, also when the selected ad group
    is the deleted one. *)
Theorem deleteAdGroup_fulfilled_removes (state : AdGroupSlice.AdGroupState) (i : Z) :
  let state' := AdGroupSlice.reducer state (AdGroupSlice.deleteAdGroup_fulfilled i) in
  (∀ g, g ∈ AdGroupSlice.adGroups state'
        ↔ g ∈ AdGroupSlice.adGroups state ∧ AdGroupSlice.AdGroup.id g ≠ i)
  ∧ (i ∉ Inv.adGroup_ids (AdGroupSlice.adGroups state'))
  ∧ sublist (AdGroupSlice.adGroups state') (AdGroupSlice.adGroups state)
  ∧ AdGroupSlice.loading state' = false
  ∧ AdGroupSlice.error state' = AdGroupSlice.error state
  ∧ AdGroupSlice.selectedAdGroup state' = AdGroupSlice.selectedAdGroup state.
Proof.
  intros state'. subst state'.
  cbn [AdGroupSlice.reducer AdGroupSlice.fulfilled AdGroupSlice.adGroups
       AdGroupSlice.loading AdGroupSlice.error AdGroupSlice.selectedAdGroup].
  split; [intros g; apply filter_other_ids |].
  split.
  { unfold Inv.adGroup_ids. intros Hin.
    apply list_elem_of_fmap in Hin as (g & Hid & Hg).
    apply filter_other_ids in Hg as [_ Hne]. by apply Hne. }
  split; [| done].
  induction (AdGroupSlice.adGroups state) as [| a l IH]; [done |].
  cbn [List.filter]. destruct (negb _).
  - by apply sublist_skip.
  - by apply sublist_cons.
Qed.

(** Ad group 1 deleted from the list of the ad groups 1 and 2: ad group 2
    is left and ad group 1 is not. *)
Lemma deleteAdGroup_fulfilled_removes_witness :
  SampleUI.adGroup 2 "A2"
  ∈ AdGroupSlice.adGroups
      (AdGroupSlice.reducer SampleUI.adGroups12 (AdGroupSlice.deleteAdGroup_fulfilled 1))
  ∧ SampleUI.adGroup 1 "A1"
    ∉ AdGroupSlice.adGroups
        (AdGroupSlice.reducer SampleUI.adGroups12 (AdGroupSlice.deleteAdGroup_fulfilled 1)).
Proof.
  destruct (deleteAdGroup_fulfilled_removes SampleUI.adGroups12 1) as (H & _).
  split.
  - apply H. split; [| vm_compute; discriminate].
    apply list_elem_of_further, list_elem_of_here.
  - intros Hin. apply H in Hin as [_ Hne]. by apply Hne.
Defined.



(** X21. The request flags of the ad group slice. A pending action sets
    [loading] and clears the error without touching the list; a rejected
    action clears [loading], leaves the list as it is and sets an error
    message that is never empty. *)
Theorem adGroupSlice_request_flags
    (state : AdGroupSlice.AdGroupState) (action : AdGroupSlice.Action) :
  let state' := AdGroupSlice.reducer state action in
  (Inv.adGroup_pending action = true →
   AdGroupSlice.loading state' = true ∧ AdGroupSlice.error state' = None
   ∧ AdGroupSlice.adGroups state' = AdGroupSlice.adGroups state)
  ∧ (Inv.adGroup_rejected action = true →
     AdGroupSlice.loading state' = false
     ∧ AdGroupSlice.adGroups state' = AdGroupSlice.adGroups state
     ∧ ∃ m, AdGroupSlice.error state' = Some m ∧ m ≠ EmptyString).
Proof.
  intros state'. subst state'. split.
  - by destruct action.
  - destruct action; try done; intros _; (split; [done |]); (split; [done |]);
      eexists; (split; [reflexivity |]); by apply message_or_nonempty.
Qed.

(** A rejected creation with an empty message shows the fallback. *)
Lemma adGroupSlice_request_flags_witness :
  AdGroupSlice.error
    (AdGroupSlice.reducer SampleUI.adGroups12
       (AdGroupSlice.createAdGroup_rejected (Some EmptyString)))
  ≠ Some EmptyString.
Proof.
  destruct (adGroupSlice_request_flags SampleUI.adGroups12
              (AdGroupSlice.createAdGroup_rejected (Some EmptyString)))
    as (_ & H).
  destruct (H eq_refl) as (_ & _ & m & Hm & Hne).
  rewrite Hm. intros [= ->]. by apply Hne.
Defined.

(** ** The forms *)

(** What the keyword form has checked when it dispatches, and what it
    dispatches. *)
Lemma keywordForm_dispatch (parseFloat : string → JS.number)
    (parseInt : string → option Z) (props : KeywordFormDialog.Props)
    (adGroups : list AdGroupSlice.AdGroup.t)
    (unwrap : KeywordFormDialog.Thunk → KeywordFormDialog.Unwrapped)
    (state : KeywordFormDialog.State) (t : KeywordFormDialog.Thunk) :
  let form := KeywordFormDialog.formData state in
  KeywordFormDialog.Dispatch t
  ∈ (KeywordFormDialog.handleSubmit parseFloat parseInt props adGroups unwrap state).2 →
  JS.trim (KeywordFormDialog.keywordText form) ≠ EmptyString
  ∧ KeywordFormDialog.adGroupId form ≠ EmptyString
  ∧ (KeywordFormDialog.isNegative form = false →
     JS.gt (parseFloat (KeywordFormDialog.bid form)) (JS.ofZ 0) = true)
  ∧ t = if KeywordService.truthy_id (KeywordFormDialog.keywordId props)
        then KeywordFormDialog.updateKeyword
               (default 0 (KeywordFormDialog.keywordId props))
               (KeywordFormDialog.campaignId props)
               {| UpdateKeywordDto.keywordText :=
                    Some (JS.trim (KeywordFormDialog.keywordText form));
                  UpdateKeywordDto.matchType := Some (KeywordFormDialog.matchType form);
                  UpdateKeywordDto.bid :=
                    Some (if KeywordFormDialog.isNegative form then JS.ofZ 0
                          else parseFloat (KeywordFormDialog.bid form));
                  UpdateKeywordDto.status := None;
                  UpdateKeywordDto.isNegative := None |}
        else KeywordFormDialog.createKeyword
               {| CreateKeywordDto.campaignId := KeywordFormDialog.campaignId props;
                  CreateKeywordDto.adGroupId :=
                    parseInt (KeywordFormDialog.adGroupId form);
                  CreateKeywordDto.keywordText :=
                    JS.trim (KeywordFormDialog.keywordText form);
                  CreateKeywordDto.matchType := KeywordFormDialog.matchType form;
                  CreateKeywordDto.bid :=
                    if KeywordFormDialog.isNegative form then JS.ofZ 0
                    else parseFloat (KeywordFormDialog.bid form);
                  CreateKeywordDto.isNegative :=
                    Some (KeywordFormDialog.isNegative form) |}.
Proof.
  intros form. subst form. unfold KeywordFormDialog.handleSubmit. cbv zeta.
  destruct (JS.truthy_string (JS.trim _)) eqn:Htext; cbn [negb];
    [| by intros ?%elem_of_nil].
  destruct (JS.truthy_string (KeywordFormDialog.adGroupId _)) eqn:Hgroup; cbn [negb];
    [| by intros ?%elem_of_nil].
  destruct (negb _ && _) eqn:Hbid; [by intros ?%elem_of_nil |].
  intros Hin.
  split; [by apply truthy_string_nonempty |].
  split; [by apply truthy_string_nonempty |].
  split.
  { intros Hneg. rewrite Hneg in Hbid. cbn [negb andb] in Hbid.
    apply orb_false_iff in Hbid as [Hnan Hle]. by apply not_le_zero_gt. }
  destruct (unwrap _).
  - apply elem_of_cons in Hin as [[= ->] | Hin]; [done |].
    apply elem_of_cons in Hin as [[=] | Hin]. by apply elem_of_nil in Hin.
  - apply elem_of_cons in Hin as [[= ->] | Hin]; [done |].
    by apply elem_of_nil in Hin.
Qed.

(** X22. A creation that the keyword form dispatches passes the checks of
    the service on the bid and on the text. It is for the campaign of the
    dialog and carries the trimmed text of the form, which is not empty,
    and the choice of the negative box; its bid is 0 for a negative
    keyword and otherwise the number read from the form, which is greater
    than 0, so not [NaN] either. Given to [createKeyword] of the service,
    it is never rejected for its bid or its text, and the keyword created
    has the text and the bid of the request. *)
Theorem keywordForm_create_passes_service_checks
    (parseFloat : string → JS.number) (parseInt : string → option Z)
    (props : KeywordFormDialog.Props) (adGroups : list AdGroupSlice.AdGroup.t)
    (unwrap : KeywordFormDialog.Thunk → KeywordFormDialog.Unwrapped)
    (state : KeywordFormDialog.State) (d : CreateKeywordDto.t) :
  let form := KeywordFormDialog.formData state in
  KeywordFormDialog.Dispatch (KeywordFormDialog.createKeyword d)
  ∈ (KeywordFormDialog.handleSubmit parseFloat parseInt props adGroups unwrap state).2 →
  CreateKeywordDto.campaignId d = KeywordFormDialog.campaignId props
  ∧ CreateKeywordDto.isNegative d = Some (KeywordFormDialog.isNegative form)
  ∧ CreateKeywordDto.keywordText d = JS.trim (KeywordFormDialog.keywordText form)
  ∧ CreateKeywordDto.keywordText d ≠ EmptyString
  ∧ (if KeywordFormDialog.isNegative form
     then CreateKeywordDto.bid d = JS.ofZ 0
     else CreateKeywordDto.bid d = parseFloat (KeywordFormDialog.bid form)
          ∧ JS.gt (CreateKeywordDto.bid d) (JS.ofZ 0) = true)
  ∧ ∀ db,
      match run (KeywordService.createKeyword d) db with
      | (inl e, _) =>
          e ≠ ValidationError "Bid must be greater than 0"
          ∧ e ≠ ValidationError "Keyword text cannot be empty"
      | (inr k, _) =>
          Keyword.keywordText k = CreateKeywordDto.keywordText d
          ∧ Keyword.bid k = CreateKeywordDto.bid d
          ∧ Keyword.isNegative k = KeywordFormDialog.isNegative form
      end.
Proof.
  intros form Hin. subst form.
  destruct (keywordForm_dispatch _ _ _ _ _ _ _ Hin) as (Htext & _ & Hbid & Ht).
  cbv zeta in Htext, Hbid, Ht.
  destruct (KeywordService.truthy_id _); [discriminate Ht |].
  injection Ht as ->. cbn [CreateKeywordDto.campaignId CreateKeywordDto.isNegative
    CreateKeywordDto.keywordText CreateKeywordDto.bid].
  split; [done |]. split; [done |]. split; [done |]. split; [done |].
  assert (∀ db,
    match Spec.createKeyword_rejection
            {| CreateKeywordDto.campaignId := KeywordFormDialog.campaignId props;
               CreateKeywordDto.adGroupId :=
                 parseInt (KeywordFormDialog.adGroupId (KeywordFormDialog.formData state));
               CreateKeywordDto.keywordText :=
                 JS.trim (KeywordFormDialog.keywordText (KeywordFormDialog.formData state));
               CreateKeywordDto.matchType :=
                 KeywordFormDialog.matchType (KeywordFormDialog.formData state);
               CreateKeywordDto.bid :=
                 if KeywordFormDialog.isNegative (KeywordFormDialog.formData state)
                 then JS.ofZ 0
                 else parseFloat (KeywordFormDialog.bid (KeywordFormDialog.formData state));
               CreateKeywordDto.isNegative :=
                 Some (KeywordFormDialog.isNegative (KeywordFormDialog.formData state)) |}
            db with
    | Some e => e ≠ ValidationError "Bid must be greater than 0"
                ∧ e ≠ ValidationError "Keyword text cannot be empty"
    | None => True
    end) as Hrej.
  { intros db. unfold Spec.createKeyword_rejection.
    cbn [CreateKeywordDto.campaignId CreateKeywordDto.isNegative
      CreateKeywordDto.keywordText CreateKeywordDto.bid CreateKeywordDto.adGroupId
      KeywordService.truthy_flag default].
    rewrite trim_idem, (proj2 (truthy_string_nonempty _) Htext).
    destruct (KeywordFormDialog.isNegative _) eqn:Hneg; cbn [negb andb];
      [| rewrite (gt_zero_not_le _ (Hbid eq_refl))];
      (destruct (Prisma.campaign db !! _); [| done]);
      (destruct (KeywordService.truthy_id _); [| done]);
      (destruct (_ ≫= _) as [g |]; [| done]);
      by destruct (AdGroup.campaignId g =? _). }
  split.
  { destruct (KeywordFormDialog.isNegative _); [done |]. split; [done |]. by apply Hbid. }
  intros db. specialize (Hrej db). rewrite run_createKeyword.
  destruct (Spec.createKeyword_rejection _ db); [done |].
  cbn. by rewrite trim_idem.
Qed.

(** The filled-in form of a keyword that is not negative dispatches a
    creation with the bid 1.5. *)
Lemma keywordForm_create_passes_service_checks_witness :
  ∃ d, KeywordFormDialog.Dispatch (KeywordFormDialog.createKeyword d)
       ∈ (KeywordFormDialog.handleSubmit SampleUI.parseFloat SampleUI.parseInt
            (KeywordFormDialog.mkProps 1 None) [] (λ _, KeywordFormDialog.Fulfilled)
            (SampleUI.form false)).2
       ∧ CreateKeywordDto.keywordText d = "running shoes"
       ∧ CreateKeywordDto.bid d = Sample.bid_1_50.
Proof.
  eexists. split; [apply list_elem_of_here |].
  destruct (keywordForm_create_passes_service_checks SampleUI.parseFloat
              SampleUI.parseInt (KeywordFormDialog.mkProps 1 None) []
              (λ _, KeywordFormDialog.Fulfilled) (SampleUI.form false) _
              (list_elem_of_here _ _)) as (_ & _ & Htext & _ & [Hbid _] & _).
  split; [exact Htext | exact Hbid].
Defined.

(** X23. An update that the keyword form dispatches is for the keyword
    and the campaign of the dialog and sets neither [isNegative] nor the
    status: the negative box of the form only decides the bid it sends, 0
    when ticked. Given to [updateKeyword] of the service for a stored
    keyword of that campaign, it is rejected with "Bid must be greater
    than 0" exactly when the box is ticked and the stored keyword is not
    negative; otherwise the keyword is updated to the trimmed text, the
    match type and the bid of the form, and keeps its [isNegative] and its
    status. So the form cannot turn a keyword into a negative keyword or
    back. *)
Theorem keywordForm_edit_keeps_negative_flag
    (parseFloat : string → JS.number) (parseInt : string → option Z)
    (props : KeywordFormDialog.Props) (adGroups : list AdGroupSlice.AdGroup.t)
    (unwrap : KeywordFormDialog.Thunk → KeywordFormDialog.Unwrapped)
    (state : KeywordFormDialog.State) (id c : Z) (data : UpdateKeywordDto.t) :
  let form := KeywordFormDialog.formData state in
  KeywordFormDialog.Dispatch (KeywordFormDialog.updateKeyword id c data)
  ∈ (KeywordFormDialog.handleSubmit parseFloat parseInt props adGroups unwrap state).2 →
  KeywordFormDialog.keywordId props = Some id ∧ id ≠ 0
  ∧ c = KeywordFormDialog.campaignId props
  ∧ UpdateKeywordDto.isNegative data = None
  ∧ UpdateKeywordDto.status data = None
  ∧ ∀ db k,
      Prisma.keyword db !! id = Some k → Keyword.campaignId k = c →
      if KeywordFormDialog.isNegative form && negb (Keyword.isNegative k)
      then run (KeywordService.updateKeyword id c data) db
           = (inl (ValidationError "Bid must be greater than 0"), db)
      else ∃ k',
             run (KeywordService.updateKeyword id c data) db
             = (inr k', Spec.with_keyword db id k' (Prisma.now db))
             ∧ Keyword.isNegative k' = Keyword.isNegative k
             ∧ Keyword.status k' = Keyword.status k
             ∧ Keyword.keywordText k' = JS.trim (KeywordFormDialog.keywordText form)
             ∧ Keyword.matchType k' = KeywordFormDialog.matchType form
             ∧ Keyword.bid k' = if KeywordFormDialog.isNegative form then JS.ofZ 0
                               else parseFloat (KeywordFormDialog.bid form).
Proof.
  intros form Hin. subst form.
  destruct (keywordForm_dispatch _ _ _ _ _ _ _ Hin) as (Htext & _ & Hbid & Ht).
  cbv zeta in Htext, Hbid, Ht.
  destruct (KeywordFormDialog.keywordId props) as [i |]; [| discriminate Ht].
  cbn [KeywordService.truthy_id default] in Ht.
  destruct (JS.truthy_int i) eqn:Hi; [| discriminate Ht].
  injection Ht as -> -> ->.
  split; [done |]. split; [by intros -> |]. split; [done |].
  split; [done |]. split; [done |].
  intros db k Hk <-. rewrite (run_updateKeyword _ _ _ _ Hk).
  unfold Spec.bid_rejected, Spec.willBeNegative, Spec.blank_text,
    Spec.updateKeyword_input.
  cbn [UpdateKeywordDto.bid UpdateKeywordDto.isNegative UpdateKeywordDto.keywordText
    UpdateKeywordDto.matchType UpdateKeywordDto.status].
  rewrite trim_idem, (proj2 (truthy_string_nonempty _) Htext).
  destruct (KeywordFormDialog.isNegative _) eqn:Hneg,
    (Keyword.isNegative k) eqn:Hk_neg; cbn [negb andb].
  - eexists. split; [reflexivity |]. cbn.
    by rewrite (proj2 (truthy_string_nonempty _) Htext), trim_idem.
  - done.
  - eexists. split; [reflexivity |]. cbn.
    by rewrite (proj2 (truthy_string_nonempty _) Htext), trim_idem.
  - rewrite (gt_zero_not_le _ (Hbid eq_refl)).
    eexists. split; [reflexivity |]. cbn.
    by rewrite (proj2 (truthy_string_nonempty _) Htext), trim_idem.
Qed.

(** Keyword 1 of the sample database is not negative: the form with the
    negative box ticked dispatches an update that the service rejects. *)
Lemma keywordForm_edit_keeps_negative_flag_witness :
  ∃ data,
    KeywordFormDialog.Dispatch (KeywordFormDialog.updateKeyword 1 1 data)
    ∈ (KeywordFormDialog.handleSubmit SampleUI.parseFloat SampleUI.parseInt
         (KeywordFormDialog.mkProps 1 (Some 1)) [] (λ _, KeywordFormDialog.Rejected None)
         (SampleUI.form true)).2
    ∧ run (KeywordService.updateKeyword 1 1 data) Sample.db1
      = (inl (ValidationError "Bid must be greater than 0"), Sample.db1).
Proof.
  eexists. split; [apply list_elem_of_here |].
  destruct (keywordForm_edit_keeps_negative_flag SampleUI.parseFloat
              SampleUI.parseInt (KeywordFormDialog.mkProps 1 (Some 1)) []
              (λ _, KeywordFormDialog.Rejected None) (SampleUI.form true) 1 1 _
              (list_elem_of_here _ _)) as (_ & _ & _ & _ & _ & H).
  exact (H Sample.db1 Sample.keyword1 eq_refl eq_refl).
Defined.

(** Membership in the short lists of effects of a form. *)
Ltac effects_in H :=
  repeat (apply elem_of_cons in H as [H | H]; [try discriminate H |]);
  try (by apply elem_of_nil in H).



(** What the ad group form has checked when it dispatches, and what it
    dispatches. *)
Lemma adGroupForm_dispatch (parseFloat : string → JS.number)
    (props : AdGroupFormDialog.Props)
    (unwrap : AdGroupFormDialog.Thunk → AdGroupFormDialog.Unwrapped)
    (state : AdGroupFormDialog.State) (t : AdGroupFormDialog.Thunk) :
  let form := AdGroupFormDialog.formData state in
  AdGroupFormDialog.Dispatch t
  ∈ (AdGroupFormDialog.handleSubmit parseFloat props unwrap state).2 →
  JS.trim (AdGroupFormDialog.name form) ≠ EmptyString
  ∧ JS.gt (parseFloat (AdGroupFormDialog.defaultBid form)) (JS.ofZ 0) = true
  ∧ t = if KeywordService.truthy_id (AdGroupFormDialog.adGroupId props)
        then AdGroupFormDialog.updateAdGroup
               (default 0 (AdGroupFormDialog.adGroupId props))
               (AdGroupFormDialog.campaignId props)
               {| AdGroupSlice.UpdateAdGroupData.name :=
                    Some (JS.trim (AdGroupFormDialog.name form));
                  AdGroupSlice.UpdateAdGroupData.defaultBid :=
                    Some (parseFloat (AdGroupFormDialog.defaultBid form));
                  AdGroupSlice.UpdateAdGroupData.status := None |}
        else AdGroupFormDialog.createAdGroup
               {| AdGroupSlice.CreateAdGroupData.campaignId :=
                    AdGroupFormDialog.campaignId props;
                  AdGroupSlice.CreateAdGroupData.name :=
                    JS.trim (AdGroupFormDialog.name form);
                  AdGroupSlice.CreateAdGroupData.defaultBid :=
                    parseFloat (AdGroupFormDialog.defaultBid form) |}.
Proof.
  intros form. subst form. unfold AdGroupFormDialog.handleSubmit. cbv zeta.
  destruct (JS.truthy_string (JS.trim _)) eqn:Hname; cbn [negb];
    [| by intros ?%elem_of_nil].
  destruct (JS.isNaN _ || _) eqn:Hbid; [by intros ?%elem_of_nil |].
  apply orb_false_iff in Hbid as [Hnan Hle].
  intros Hin.
  split; [by apply truthy_string_nonempty |].
  split; [by apply not_le_zero_gt |].
  destruct (unwrap _); effects_in Hin; by injection Hin.
Qed.

(** X25. A request that the ad group form dispatches carries the trimmed
    name of the form, which is not empty, and the default bid read from
    the form, which is greater than 0 and so not [NaN]. A creation is for
    the campaign of the dialog; an update is for the ad group and the
    campaign of the dialog and does not set the status. *)
Theorem adGroupForm_dispatches_valid_requests
    (parseFloat : string → JS.number) (props : AdGroupFormDialog.Props)
    (unwrap : AdGroupFormDialog.Thunk → AdGroupFormDialog.Unwrapped)
    (state : AdGroupFormDialog.State) (t : AdGroupFormDialog.Thunk) :
  let form := AdGroupFormDialog.formData state in
  AdGroupFormDialog.Dispatch t
  ∈ (AdGroupFormDialog.handleSubmit parseFloat props unwrap state).2 →
  match t with
  | AdGroupFormDialog.createAdGroup d =>
      AdGroupFormDialog.adGroupId props = None
      ∨ AdGroupFormDialog.adGroupId props = Some 0
  | AdGroupFormDialog.updateAdGroup id c d =>
      AdGroupFormDialog.adGroupId props = Some id ∧ id ≠ 0
  end
  ∧ ∃ text b,
      text = JS.trim (AdGroupFormDialog.name form) ∧ text ≠ EmptyString
      ∧ b = parseFloat (AdGroupFormDialog.defaultBid form)
      ∧ JS.gt b (JS.ofZ 0) = true ∧ JS.isNaN b = false
      ∧ match t with
        | AdGroupFormDialog.createAdGroup d =>
            AdGroupSlice.CreateAdGroupData.campaignId d = AdGroupFormDialog.campaignId props
            ∧ AdGroupSlice.CreateAdGroupData.name d = text
            ∧ AdGroupSlice.CreateAdGroupData.defaultBid d = b
        | AdGroupFormDialog.updateAdGroup id c d =>
            c = AdGroupFormDialog.campaignId props
            ∧ AdGroupSlice.UpdateAdGroupData.name d = Some text
            ∧ AdGroupSlice.UpdateAdGroupData.defaultBid d = Some b
            ∧ AdGroupSlice.UpdateAdGroupData.status d = None
        end.
Proof.
  intros form Hin. subst form.
  destruct (adGroupForm_dispatch _ _ _ _ _ Hin) as (Hname & Hbid & Ht).
  cbv zeta in Hname, Hbid, Ht.
  assert (JS.isNaN (parseFloat (AdGroupFormDialog.defaultBid
                                  (AdGroupFormDialog.formData state))) = false) as Hnan.
  { by destruct (parseFloat _) as [[] | [] | | [] m e]. }
  destruct (AdGroupFormDialog.adGroupId props) as [i |];
    cbn [KeywordService.truthy_id default from_option id] in Ht.
  - destruct (JS.truthy_int i) eqn:Hi; subst t; cbn beta iota.
    + split; [split; [done | intros Hz; by rewrite Hz in Hi] |].
      eexists _, _. by repeat (split; [done |]).
    + split.
      { right. f_equal. unfold JS.truthy_int in Hi.
        by apply negb_false_iff, Z.eqb_eq in Hi. }
      eexists _, _. by repeat (split; [done |]).
  - subst t. cbn beta iota. split; [by left |].
    eexists _, _. by repeat (split; [done |]).
Qed.

(** The filled-in ad group form dispatches a creation with the name
    trimmed. *)
Lemma adGroupForm_dispatches_valid_requests_witness :
  ∃ d, AdGroupFormDialog.Dispatch (AdGroupFormDialog.createAdGroup d)
       ∈ (AdGroupFormDialog.handleSubmit SampleUI.parseFloat
            (AdGroupFormDialog.mkProps 1 None) (λ _, AdGroupFormDialog.Fulfilled)
            SampleUI.adGroupForm).2
       ∧ AdGroupSlice.CreateAdGroupData.name d = "Main".
Proof.
  eexists. split; [apply list_elem_of_here |].
  destruct (adGroupForm_dispatches_valid_requests SampleUI.parseFloat
              (AdGroupFormDialog.mkProps 1 None) (λ _, AdGroupFormDialog.Fulfilled)
              SampleUI.adGroupForm _ (list_elem_of_here _ _))
    as (_ & text & b & -> & _ & _ & _ & _ & _ & H & _).
  exact H.
Defined.



(** An error thrown with a message and a stack is answered with 500 and
    the fixed message. *)
Lemma errorHandler_hides_internal_errors_witness :
  (ErrorHandler.errorHandler
     (ErrorHandler.OtherErr "TypeError" "secret is undefined" (Some "at service.ts:1"))
     (ErrorHandler.mkReq "/api/keywords" "GET")).2
  = ErrorHandler.mkRes 500 "error" "Internal server error".
Proof.
  destruct (proj1 (proj2 errorHandler_hides_internal_errors)
              "TypeError" "secret is undefined" (Some "at service.ts:1")
              (ErrorHandler.mkReq "/api/keywords" "GET")) as [[_ H] | [H _]].
  - discriminate H.
  - exact H.
Defined.
